(** * Menshun backend: credential rotation and audit integrity

    A shallow embedding of [backend/app/models/credential.py] and
    [backend/app/models/audit.py], and the properties of the rotation
    state machine, the retry policy and the audit checksum that follow
    from the code.

    Conventions.
    - A Python [int] is a [Z]; a Python [str] is the list of its code
      points ([pystr]); [Optional[T]] is [option T].
    - A method mutates [self] and may read the clock: it is a computation
      in the monad [M T], whose state is the object together with the
      world, and whose result is a value or a raised exception.  An
      exception keeps the state reached so far, as in Python.
    - [datetime.utcnow()] reads a clock that the world carries; each call
      is a separate reading. *)

From Stdlib Require Import ZArith List Lia Bool String Ascii.
From stdpp Require Import base gmap.
Import ListNotations.
Local Open Scope Z_scope.

(** ** Python values *)

Definition pystr := list Z.

(** The code points of an ASCII literal. *)
Fixpoint py (s : string) : pystr :=
  match s with
  | EmptyString => []
  | String a s' => Z.of_N (N_of_ascii a) :: py s'
  end.

(** The values a method can return where Python's [or] and [and] hand
    back an operand: [None], a [bool] or an [int]. *)
Inductive pyvalue : Type :=
| PyNone
| PyBool (b : bool)
| PyInt (n : Z).

(** Truth value: [None], [False] and [0] are false. *)
Definition truthy (v : pyvalue) : bool :=
  match v with
  | PyNone => false
  | PyBool b => b
  | PyInt n => negb (n =? 0)
  end.

(** [a == b] on [str]. *)
Definition str_eqb (a b : pystr) : bool := bool_decide (a = b).

Inductive exn : Type :=
| OverflowError (msg : string)
| ValueError (msg : string)
| AttributeError (msg : string)
| UnicodeEncodeError (msg : string)
| IntegrityError (msg : string).

(** ** The [datetime] library, as far as the models use it *)

Module PyTime.

(** The models obtain every datetime from [datetime.utcnow()], which
    returns a naive one.  A naive [datetime] is identified with its
    position on the proleptic Gregorian time line, in microseconds since
    0001-01-01T00:00:00: the representation on which comparison, [+] and
    [-] act.  [datetime.min] is 0 and [datetime.max] is [MAX_US - 1]
    (9999-12-31T23:59:59.999999). *)
Definition datetime := Z.

(** A [timedelta] is its exact length in microseconds. *)
Definition timedelta := Z.

Definition US_PER_SECOND : Z := 1000000.
Definition US_PER_MINUTE : Z := 60 * US_PER_SECOND.
Definition US_PER_DAY : Z := 86400 * US_PER_SECOND.
Definition MAXORDINAL : Z := 3652059.
Definition MAX_US : Z := MAXORDINAL * US_PER_DAY.
Definition MAX_DELTA_DAYS : Z := 999999999.

Definition valid_datetime (t : datetime) : Prop := 0 <= t < MAX_US.

(** The constructor normalises to days, seconds and microseconds and
    refuses a day count of magnitude above 999999999. *)
Definition timedelta_of_us (us : Z) : exn + timedelta :=
  if Z.abs (us / US_PER_DAY) >? MAX_DELTA_DAYS
  then inl (OverflowError "days; must have magnitude <= 999999999")
  else inr us.

(** [timedelta(days=d)] for an [int] [d]. *)
Definition timedelta_days (d : Z) : exn + timedelta :=
  timedelta_of_us (d * US_PER_DAY).

(** Nearest integer to [a / b] for [b > 0], a tie going to the even one. *)
Definition round_half_even (a b : Z) : Z :=
  let q := a / b in
  let r := a mod b in
  if 2 * r <? b then q
  else if b <? 2 * r then q + 1
  else if Z.even q then q else q + 1.

(** Largest magnitude of an [int] that converts to a [float]. *)
Definition FLOAT_INT_LIMIT : Z := 2 ^ 1024 - 2 ^ 970.

(** [timedelta(minutes=2 ** k)].  For [k >= 0] the power is an [int].  For
    [k < 0] Python computes the [float] [2.0 ** k] (exact, or 0.0 when it
    underflows) and the constructor rounds the resulting number of
    microseconds half to even; the exponent itself must convert to a
    [float]. *)
Definition timedelta_minutes_pow2 (k : Z) : exn + timedelta :=
  if 0 <=? k then timedelta_of_us (2 ^ k * US_PER_MINUTE)
  else if FLOAT_INT_LIMIT <=? - k
       then inl (OverflowError "int too large to convert to float")
       else inr (round_half_even US_PER_MINUTE (2 ^ (- k))).

(** [t + delta]: the result must be a date of the years 1..9999. *)
Definition datetime_add (t : datetime) (delta : timedelta) : exn + datetime :=
  let r := t + delta in
  if (0 <=? r) && (r <? MAX_US) then inr r
  else inl (OverflowError "date value out of range").

(** [a - b] of two datetimes always fits a [timedelta]. *)
Definition datetime_sub (a b : datetime) : timedelta := a - b.

(** [int(a / b)] for Python ints [a] and [b > 0]: the true quotient is
    rounded to the nearest binary64 number (53-bit significand, ties to
    even) and [int] truncates it towards zero.  The quotients met here are
    far from the overflow and subnormal ranges. *)
Definition int_true_divide (a b : Z) : Z :=
  if a =? 0 then 0
  else
    let n := Z.abs a in
    let e0 := Z.log2 n - Z.log2 b - 52 in
    (* [e] is the exponent with [2^52 <= n / (b * 2^e) < 2^53] *)
    let e := if 0 <=? e0
             then (if 2 ^ 52 * (b * 2 ^ e0) <=? n then e0 else e0 - 1)
             else (if 2 ^ 52 * b <=? n * 2 ^ (- e0) then e0 else e0 - 1) in
    let m := if 0 <=? e then round_half_even n (b * 2 ^ e)
             else round_half_even (n * 2 ^ (- e)) b in
    let v := if 0 <=? e then m * 2 ^ e else m / 2 ^ (- e) in
    Z.sgn a * v.

(** [int(delta.total_seconds())]. *)
Definition int_total_seconds (delta : timedelta) : Z :=
  int_true_divide delta US_PER_SECOND.

(** [delta.days]: the normalised day count, rounded towards minus
    infinity. *)
Definition timedelta_days_attr (delta : timedelta) : Z := delta / US_PER_DAY.

(** *** Calendar fields and [isoformat] *)

Definition DI400Y : Z := 146097.
Definition DI100Y : Z := 36524.
Definition DI4Y : Z := 1461.

Definition DAYS_IN_MONTH : list Z :=
  [-1; 31; 28; 31; 30; 31; 30; 31; 31; 30; 31; 30; 31].
Definition DAYS_BEFORE_MONTH : list Z :=
  [-1; 0; 31; 59; 90; 120; 151; 181; 212; 243; 273; 304; 334].

Definition b2z (b : bool) : Z := if b then 1 else 0.

(** [_is_leap] *)
Definition is_leap (year : Z) : bool :=
  (year mod 4 =? 0) && (negb (year mod 100 =? 0) || (year mod 400 =? 0)).

(** [_days_before_year] *)
Definition days_before_year (year : Z) : Z :=
  let y := year - 1 in
  y * 365 + y / 4 - y / 100 + y / 400.

(** [_days_before_month] *)
Definition days_before_month (year month : Z) : Z :=
  nth (Z.to_nat month) DAYS_BEFORE_MONTH 0
  + b2z ((2 <? month) && is_leap year).

(** [_ymd2ord] *)
Definition ymd2ord (year month day : Z) : Z :=
  days_before_year year + days_before_month year month + day.

(** [_ord2ymd]: the date of the proleptic Gregorian ordinal [n], where
    0001-01-01 is day 1. *)
Definition ord2ymd (n : Z) : Z * Z * Z :=
  let n := n - 1 in
  let n400 := n / DI400Y in
  let n := n mod DI400Y in
  let year := n400 * 400 + 1 in
  let n100 := n / DI100Y in
  let n := n mod DI100Y in
  let n4 := n / DI4Y in
  let n := n mod DI4Y in
  let n1 := n / 365 in
  let n := n mod 365 in
  let year := year + n100 * 100 + n4 * 4 + n1 in
  if (n1 =? 4) || (n100 =? 4) then (year - 1, 12, 31)
  else
    let leapyear := (n1 =? 3) && (negb (n4 =? 24) || (n100 =? 3)) in
    let month := Z.shiftr (n + 50) 5 in
    let preceding := nth (Z.to_nat month) DAYS_BEFORE_MONTH 0
                     + b2z ((2 <? month) && leapyear) in
    if n <? preceding
    then (* estimate is too large *)
      let month := month - 1 in
      let preceding := preceding - (nth (Z.to_nat month) DAYS_IN_MONTH 0
                                    + b2z ((month =? 2) && leapyear)) in
      (year, month, n - preceding + 1)
    else (year, month, n - preceding + 1).

(** ["%0wd" % n] for a field [0 <= n < 10^w]. *)
Fixpoint dec (w : nat) (n : Z) : pystr :=
  match w with
  | O => []
  | S w' => dec w' (n / 10) ++ [48 + n mod 10]
  end.

(** [t.isoformat()] of a naive datetime: [YYYY-MM-DDTHH:MM:SS], followed
    by [.ffffff] when the microsecond is not 0. *)
Definition isoformat (t : datetime) : pystr :=
  let '(year, month, day) := ord2ymd (t / US_PER_DAY + 1) in
  let r := t mod US_PER_DAY in
  let hour := r / (3600 * US_PER_SECOND) in
  let minute := r / US_PER_MINUTE mod 60 in
  let second := r / US_PER_SECOND mod 60 in
  let microsecond := r mod US_PER_SECOND in
  dec 4 year ++ [45] ++ dec 2 month ++ [45] ++ dec 2 day ++ [84]
  ++ dec 2 hour ++ [58] ++ dec 2 minute ++ [58] ++ dec 2 second
  ++ (if microsecond =? 0 then [] else 46 :: dec 6 microsecond).

End PyTime.
Import PyTime.

(** ** Objects, the clock and exceptions *)

(** The world holds the clock: [clock w n] is what the [n]-th call of
    [datetime.utcnow()] returns, and [reads w] counts the calls so far. *)
Record World : Type := mkWorld { clock : nat -> datetime; reads : nat }.

Definition now (w : World) : datetime := clock w (reads w).
Definition tick (w : World) : World :=
  {| clock := clock w; reads := S (reads w) |}.

Record frame (T : Type) : Type := Frame { self : T; world : World }.
Arguments Frame {T} _ _.
Arguments self {T} _.
Arguments world {T} _.

Inductive outcome (S A : Type) : Type :=
| Return (a : A) (s : S)
| Raise (e : exn) (s : S).
Arguments Return {S A} _ _.
Arguments Raise {S A} _ _.

Definition state_of {S A} (o : outcome S A) : S :=
  match o with Return _ s => s | Raise _ s => s end.

Definition M (T A : Type) : Type := frame T -> outcome (frame T) A.

Definition ret {T A} (a : A) : M T A := fun s => Return a s.
Definition bind {T A B} (c : M T A) (k : A -> M T B) : M T B :=
  fun s => match c s with
           | Return a s' => k a s'
           | Raise e s' => Raise e s'
           end.
Definition raise {T A} (e : exn) : M T A := fun s => Raise e s.

Declare Scope py_scope.
Delimit Scope py_scope with py.
Notation "x <- c ;; k" := (bind c (fun x => k))
  (at level 100, c at next level, right associativity) : py_scope.
Notation "c ;; k" := (bind c (fun _ => k))
  (at level 100, right associativity) : py_scope.
Local Open Scope py_scope.

(** [self.f] *)
Definition getattr {T A} (f : T -> A) : M T A := fun s => Return (f (self s)) s.
(** [self.f = v] *)
Definition setattr {T A} (set_f : A -> T -> T) (v : A) : M T unit :=
  fun s => Return tt (Frame (set_f v (self s)) (world s)).
(** [datetime.utcnow()] *)
Definition utcnow {T} : M T datetime :=
  fun s => Return (now (world s)) (Frame (self s) (tick (world s))).
(** A library call that returns or raises. *)
Definition lift {T A} (r : exn + A) : M T A :=
  match r with inl e => raise e | inr a => ret a end.

(** The same call [n] times in a row. *)
Fixpoint times {T} (n : nat) (c : M T unit) : M T unit :=
  match n with
  | O => ret tt
  | S n' => c ;; times n' c
  end.

(** ** app/models/base.py *)

(** Columns of [BaseModel]. *)
Module BaseModel.
Record t : Type := {
  id : Z;
  is_deleted : bool;
  deleted_at : option datetime;
  metadata_json : option pystr
}.

Definition set_is_deleted (v : bool) (b : t) : t :=
  {| id := id b; is_deleted := v; deleted_at := deleted_at b;
     metadata_json := metadata_json b |}.

Definition set_deleted_at (v : option datetime) (b : t) : t :=
  {| id := id b; is_deleted := is_deleted b; deleted_at := v;
     metadata_json := metadata_json b |}.

(** [soft_delete] *)
Definition soft_delete : M t unit :=
  setattr set_is_deleted true ;;
  t0 <- utcnow ;;
  setattr set_deleted_at (Some t0).

(** [restore] *)
Definition restore : M t unit :=
  setattr set_is_deleted false ;;
  setattr set_deleted_at None.

End BaseModel.

(** Columns that [FullBaseModel] adds through its mixins. *)
Module FullBaseModel.
Record t : Type := {
  base : BaseModel.t;
  created_at : datetime;
  updated_at : datetime;
  created_by : option pystr;
  updated_by : option pystr;
  version : Z;
  compliance_tags : option pystr;
  retention_date : option datetime;
  classification : option pystr
}.
End FullBaseModel.

(** ** app/models/credential.py *)

Inductive CredentialType : Type :=
| PASSWORD | CLIENT_SECRET | CERTIFICATE | API_KEY | TOKEN | SSH_KEY.

Inductive CredentialStatus : Type :=
| ACTIVE | EXPIRED | ROTATED | REVOKED | PENDING_ROTATION.

Inductive RotationStatus : Type :=
| SCHEDULED | IN_PROGRESS | COMPLETED | FAILED | CANCELLED.

Definition RotationStatus_eqb (a b : RotationStatus) : bool :=
  match a, b with
  | SCHEDULED, SCHEDULED | IN_PROGRESS, IN_PROGRESS | COMPLETED, COMPLETED
  | FAILED, FAILED | CANCELLED, CANCELLED => true
  | _, _ => false
  end.

Module Credential.

(** The columns of class [Credential], in the order of the source.  The
    two relationships ([service_identity], [rotation_history]) do not
    occur in the methods embedded here. *)
Record t : Type := {
  full_base : FullBaseModel.t;
  credential_type : CredentialType;
  name : pystr;
  description : option pystr;
  service_identity_id : Z;
  vault_path : pystr;
  vault_version : option pystr;
  encrypted_metadata : option pystr;
  status : CredentialStatus;
  created_date : datetime;
  expires_at : option datetime;
  last_used : option datetime;
  use_count : Z;
  rotation_frequency_days : Z;
  next_rotation_date : option datetime;
  last_rotated : option datetime;
  rotation_count : Z;
  auto_rotation_enabled : bool;
  strength_score : option Z;
  complexity_requirements : option pystr;
  requires_encryption : bool;
  access_restrictions : option pystr;
  external_id : option pystr;
  external_system : option pystr;
  sync_enabled : bool;
  last_sync : option datetime;
  notification_days_before_expiry : Z;
  notification_sent : bool;
  emergency_contact : option pystr
}.

(** Attribute assignment, one setter per attribute the methods write. *)
Definition set_last_used (v : option datetime) (c : t) : t :=
  {| full_base := full_base c; credential_type := credential_type c;
     name := name c; description := description c;
     service_identity_id := service_identity_id c;
     vault_path := vault_path c; vault_version := vault_version c;
     encrypted_metadata := encrypted_metadata c; status := status c;
     created_date := created_date c; expires_at := expires_at c;
     last_used := v; use_count := use_count c;
     rotation_frequency_days := rotation_frequency_days c;
     next_rotation_date := next_rotation_date c;
     last_rotated := last_rotated c; rotation_count := rotation_count c;
     auto_rotation_enabled := auto_rotation_enabled c;
     strength_score := strength_score c;
     complexity_requirements := complexity_requirements c;
     requires_encryption := requires_encryption c;
     access_restrictions := access_restrictions c;
     external_id := external_id c; external_system := external_system c;
     sync_enabled := sync_enabled c; last_sync := last_sync c;
     notification_days_before_expiry := notification_days_before_expiry c;
     notification_sent := notification_sent c;
     emergency_contact := emergency_contact c |}.

Definition set_use_count (v : Z) (c : t) : t :=
  {| full_base := full_base c; credential_type := credential_type c;
     name := name c; description := description c;
     service_identity_id := service_identity_id c;
     vault_path := vault_path c; vault_version := vault_version c;
     encrypted_metadata := encrypted_metadata c; status := status c;
     created_date := created_date c; expires_at := expires_at c;
     last_used := last_used c; use_count := v;
     rotation_frequency_days := rotation_frequency_days c;
     next_rotation_date := next_rotation_date c;
     last_rotated := last_rotated c; rotation_count := rotation_count c;
     auto_rotation_enabled := auto_rotation_enabled c;
     strength_score := strength_score c;
     complexity_requirements := complexity_requirements c;
     requires_encryption := requires_encryption c;
     access_restrictions := access_restrictions c;
     external_id := external_id c; external_system := external_system c;
     sync_enabled := sync_enabled c; last_sync := last_sync c;
     notification_days_before_expiry := notification_days_before_expiry c;
     notification_sent := notification_sent c;
     emergency_contact := emergency_contact c |}.

Definition set_next_rotation_date (v : option datetime) (c : t) : t :=
  {| full_base := full_base c; credential_type := credential_type c;
     name := name c; description := description c;
     service_identity_id := service_identity_id c;
     vault_path := vault_path c; vault_version := vault_version c;
     encrypted_metadata := encrypted_metadata c; status := status c;
     created_date := created_date c; expires_at := expires_at c;
     last_used := last_used c; use_count := use_count c;
     rotation_frequency_days := rotation_frequency_days c;
     next_rotation_date := v;
     last_rotated := last_rotated c; rotation_count := rotation_count c;
     auto_rotation_enabled := auto_rotation_enabled c;
     strength_score := strength_score c;
     complexity_requirements := complexity_requirements c;
     requires_encryption := requires_encryption c;
     access_restrictions := access_restrictions c;
     external_id := external_id c; external_system := external_system c;
     sync_enabled := sync_enabled c; last_sync := last_sync c;
     notification_days_before_expiry := notification_days_before_expiry c;
     notification_sent := notification_sent c;
     emergency_contact := emergency_contact c |}.

Definition set_last_rotated (v : option datetime) (c : t) : t :=
  {| full_base := full_base c; credential_type := credential_type c;
     name := name c; description := description c;
     service_identity_id := service_identity_id c;
     vault_path := vault_path c; vault_version := vault_version c;
     encrypted_metadata := encrypted_metadata c; status := status c;
     created_date := created_date c; expires_at := expires_at c;
     last_used := last_used c; use_count := use_count c;
     rotation_frequency_days := rotation_frequency_days c;
     next_rotation_date := next_rotation_date c;
     last_rotated := v; rotation_count := rotation_count c;
     auto_rotation_enabled := auto_rotation_enabled c;
     strength_score := strength_score c;
     complexity_requirements := complexity_requirements c;
     requires_encryption := requires_encryption c;
     access_restrictions := access_restrictions c;
     external_id := external_id c; external_system := external_system c;
     sync_enabled := sync_enabled c; last_sync := last_sync c;
     notification_days_before_expiry := notification_days_before_expiry c;
     notification_sent := notification_sent c;
     emergency_contact := emergency_contact c |}.

Definition set_rotation_count (v : Z) (c : t) : t :=
  {| full_base := full_base c; credential_type := credential_type c;
     name := name c; description := description c;
     service_identity_id := service_identity_id c;
     vault_path := vault_path c; vault_version := vault_version c;
     encrypted_metadata := encrypted_metadata c; status := status c;
     created_date := created_date c; expires_at := expires_at c;
     last_used := last_used c; use_count := use_count c;
     rotation_frequency_days := rotation_frequency_days c;
     next_rotation_date := next_rotation_date c;
     last_rotated := last_rotated c; rotation_count := v;
     auto_rotation_enabled := auto_rotation_enabled c;
     strength_score := strength_score c;
     complexity_requirements := complexity_requirements c;
     requires_encryption := requires_encryption c;
     access_restrictions := access_restrictions c;
     external_id := external_id c; external_system := external_system c;
     sync_enabled := sync_enabled c; last_sync := last_sync c;
     notification_days_before_expiry := notification_days_before_expiry c;
     notification_sent := notification_sent c;
     emergency_contact := emergency_contact c |}.

Definition set_notification_sent (v : bool) (c : t) : t :=
  {| full_base := full_base c; credential_type := credential_type c;
     name := name c; description := description c;
     service_identity_id := service_identity_id c;
     vault_path := vault_path c; vault_version := vault_version c;
     encrypted_metadata := encrypted_metadata c; status := status c;
     created_date := created_date c; expires_at := expires_at c;
     last_used := last_used c; use_count := use_count c;
     rotation_frequency_days := rotation_frequency_days c;
     next_rotation_date := next_rotation_date c;
     last_rotated := last_rotated c; rotation_count := rotation_count c;
     auto_rotation_enabled := auto_rotation_enabled c;
     strength_score := strength_score c;
     complexity_requirements := complexity_requirements c;
     requires_encryption := requires_encryption c;
     access_restrictions := access_restrictions c;
     external_id := external_id c; external_system := external_system c;
     sync_enabled := sync_enabled c; last_sync := last_sync c;
     notification_days_before_expiry := notification_days_before_expiry c;
     notification_sent := v;
     emergency_contact := emergency_contact c |}.

(** [is_expired]: a [datetime] is always truthy, so [not self.expires_at]
    tests for [None]. *)
Definition is_expired : M t bool :=
  e <- getattr expires_at ;;
  match e with
  | None => ret false
  | Some d => t0 <- utcnow ;; ret (d <=? t0)
  end.

(** [needs_rotation] *)
Definition needs_rotation : M t bool :=
  auto <- getattr auto_rotation_enabled ;;
  if negb auto then ret false
  else
    next <- getattr next_rotation_date ;;
    match next with
    | None => ret true
    | Some d => t0 <- utcnow ;; ret (d <=? t0)
    end.

(** [record_access] *)
Definition record_access : M t unit :=
  t0 <- utcnow ;;
  setattr set_last_used (Some t0) ;;
  n <- getattr use_count ;;
  setattr set_use_count (n + 1).

(** [schedule_rotation(days_from_now=None)] *)
Definition schedule_rotation (days_from_now : option Z) : M t unit :=
  days <- match days_from_now with
          | None => getattr rotation_frequency_days
          | Some d => ret d
          end ;;
  t0 <- utcnow ;;
  delta <- lift (timedelta_days days) ;;
  next <- lift (datetime_add t0 delta) ;;
  setattr set_next_rotation_date (Some next).

(** [mark_rotated] *)
Definition mark_rotated : M t unit :=
  t0 <- utcnow ;;
  setattr set_last_rotated (Some t0) ;;
  n <- getattr rotation_count ;;
  setattr set_rotation_count (n + 1) ;;
  schedule_rotation None ;;
  setattr set_notification_sent false.

(** [days_until_expiry] *)
Definition days_until_expiry : M t (option Z) :=
  e <- getattr expires_at ;;
  match e with
  | None => ret None
  | Some d =>
      t0 <- utcnow ;;
      let delta := datetime_sub d t0 in
      ret (Some (Z.max 0 (timedelta_days_attr delta)))
  end.

(** [needs_notification] *)
Definition needs_notification : M t bool :=
  sent <- getattr notification_sent ;;
  e <- getattr expires_at ;;
  if sent || (match e with None => true | Some _ => false end)
  then ret false
  else
    days_until <- days_until_expiry ;;
    match days_until with
    | None => ret false
    | Some d =>
        n <- getattr notification_days_before_expiry ;;
        ret (d <=? n)
    end.

End Credential.

Module CredentialRotation.

(** The columns of class [CredentialRotation], in the order of the
    source.  [credential] is the related object that the relationship of
    that name loads: the credential being rotated. *)
Record t : Type := {
  full_base : FullBaseModel.t;
  credential_id : Z;
  credential : Credential.t;
  status : RotationStatus;
  scheduled_date : datetime;
  started_at : option datetime;
  completed_at : option datetime;
  rotation_type : pystr;
  triggered_by : option pystr;
  reason : option pystr;
  old_vault_path : option pystr;
  new_vault_path : option pystr;
  error_message : option pystr;
  retry_count : Z;
  max_retries : Z;
  next_retry_at : option datetime;
  verification_status : pystr;
  verification_details : option pystr;
  rollback_available : bool;
  duration_seconds : option Z;
  systems_updated : option pystr;
  notifications_sent : option pystr
}.

(** Attribute assignment, one setter per attribute the methods write. *)
Definition set_status (v : RotationStatus) (r : t) : t :=
  {| full_base := full_base r; credential_id := credential_id r;
     credential := credential r; status := v;
     scheduled_date := scheduled_date r; started_at := started_at r;
     completed_at := completed_at r; rotation_type := rotation_type r;
     triggered_by := triggered_by r; reason := reason r;
     old_vault_path := old_vault_path r;
     new_vault_path := new_vault_path r; error_message := error_message r;
     retry_count := retry_count r; max_retries := max_retries r;
     next_retry_at := next_retry_at r;
     verification_status := verification_status r;
     verification_details := verification_details r;
     rollback_available := rollback_available r;
     duration_seconds := duration_seconds r;
     systems_updated := systems_updated r;
     notifications_sent := notifications_sent r |}.

Definition set_started_at (v : option datetime) (r : t) : t :=
  {| full_base := full_base r; credential_id := credential_id r;
     credential := credential r; status := status r;
     scheduled_date := scheduled_date r; started_at := v;
     completed_at := completed_at r; rotation_type := rotation_type r;
     triggered_by := triggered_by r; reason := reason r;
     old_vault_path := old_vault_path r;
     new_vault_path := new_vault_path r; error_message := error_message r;
     retry_count := retry_count r; max_retries := max_retries r;
     next_retry_at := next_retry_at r;
     verification_status := verification_status r;
     verification_details := verification_details r;
     rollback_available := rollback_available r;
     duration_seconds := duration_seconds r;
     systems_updated := systems_updated r;
     notifications_sent := notifications_sent r |}.

Definition set_completed_at (v : option datetime) (r : t) : t :=
  {| full_base := full_base r; credential_id := credential_id r;
     credential := credential r; status := status r;
     scheduled_date := scheduled_date r; started_at := started_at r;
     completed_at := v; rotation_type := rotation_type r;
     triggered_by := triggered_by r; reason := reason r;
     old_vault_path := old_vault_path r;
     new_vault_path := new_vault_path r; error_message := error_message r;
     retry_count := retry_count r; max_retries := max_retries r;
     next_retry_at := next_retry_at r;
     verification_status := verification_status r;
     verification_details := verification_details r;
     rollback_available := rollback_available r;
     duration_seconds := duration_seconds r;
     systems_updated := systems_updated r;
     notifications_sent := notifications_sent r |}.

Definition set_new_vault_path (v : option pystr) (r : t) : t :=
  {| full_base := full_base r; credential_id := credential_id r;
     credential := credential r; status := status r;
     scheduled_date := scheduled_date r; started_at := started_at r;
     completed_at := completed_at r; rotation_type := rotation_type r;
     triggered_by := triggered_by r; reason := reason r;
     old_vault_path := old_vault_path r; new_vault_path := v;
     error_message := error_message r; retry_count := retry_count r;
     max_retries := max_retries r; next_retry_at := next_retry_at r;
     verification_status := verification_status r;
     verification_details := verification_details r;
     rollback_available := rollback_available r;
     duration_seconds := duration_seconds r;
     systems_updated := systems_updated r;
     notifications_sent := notifications_sent r |}.

Definition set_error_message (v : option pystr) (r : t) : t :=
  {| full_base := full_base r; credential_id := credential_id r;
     credential := credential r; status := status r;
     scheduled_date := scheduled_date r; started_at := started_at r;
     completed_at := completed_at r; rotation_type := rotation_type r;
     triggered_by := triggered_by r; reason := reason r;
     old_vault_path := old_vault_path r;
     new_vault_path := new_vault_path r; error_message := v;
     retry_count := retry_count r; max_retries := max_retries r;
     next_retry_at := next_retry_at r;
     verification_status := verification_status r;
     verification_details := verification_details r;
     rollback_available := rollback_available r;
     duration_seconds := duration_seconds r;
     systems_updated := systems_updated r;
     notifications_sent := notifications_sent r |}.

Definition set_retry_count (v : Z) (r : t) : t :=
  {| full_base := full_base r; credential_id := credential_id r;
     credential := credential r; status := status r;
     scheduled_date := scheduled_date r; started_at := started_at r;
     completed_at := completed_at r; rotation_type := rotation_type r;
     triggered_by := triggered_by r; reason := reason r;
     old_vault_path := old_vault_path r;
     new_vault_path := new_vault_path r; error_message := error_message r;
     retry_count := v; max_retries := max_retries r;
     next_retry_at := next_retry_at r;
     verification_status := verification_status r;
     verification_details := verification_details r;
     rollback_available := rollback_available r;
     duration_seconds := duration_seconds r;
     systems_updated := systems_updated r;
     notifications_sent := notifications_sent r |}.

Definition set_next_retry_at (v : option datetime) (r : t) : t :=
  {| full_base := full_base r; credential_id := credential_id r;
     credential := credential r; status := status r;
     scheduled_date := scheduled_date r; started_at := started_at r;
     completed_at := completed_at r; rotation_type := rotation_type r;
     triggered_by := triggered_by r; reason := reason r;
     old_vault_path := old_vault_path r;
     new_vault_path := new_vault_path r; error_message := error_message r;
     retry_count := retry_count r; max_retries := max_retries r;
     next_retry_at := v; verification_status := verification_status r;
     verification_details := verification_details r;
     rollback_available := rollback_available r;
     duration_seconds := duration_seconds r;
     systems_updated := systems_updated r;
     notifications_sent := notifications_sent r |}.

Definition set_duration_seconds (v : option Z) (r : t) : t :=
  {| full_base := full_base r; credential_id := credential_id r;
     credential := credential r; status := status r;
     scheduled_date := scheduled_date r; started_at := started_at r;
     completed_at := completed_at r; rotation_type := rotation_type r;
     triggered_by := triggered_by r; reason := reason r;
     old_vault_path := old_vault_path r;
     new_vault_path := new_vault_path r; error_message := error_message r;
     retry_count := retry_count r; max_retries := max_retries r;
     next_retry_at := next_retry_at r;
     verification_status := verification_status r;
     verification_details := verification_details r;
     rollback_available := rollback_available r; duration_seconds := v;
     systems_updated := systems_updated r;
     notifications_sent := notifications_sent r |}.

(** [can_retry] *)
Definition can_retry : M t bool :=
  st <- getattr status ;;
  if RotationStatus_eqb st FAILED
  then
    n <- getattr retry_count ;;
    m <- getattr max_retries ;;
    ret (n <? m)
  else ret false.

(** [calculate_duration]: a [datetime] is always truthy, so the two
    [not] tests are tests for [None]. *)
Definition calculate_duration : M t (option Z) :=
  s <- getattr started_at ;;
  match s with
  | None => ret None
  | Some t0 =>
      c <- getattr completed_at ;;
      match c with
      | None => ret None
      | Some t1 => ret (Some (int_total_seconds (datetime_sub t1 t0)))
      end
  end.

(** [mark_started] *)
Definition mark_started : M t unit :=
  setattr set_status IN_PROGRESS ;;
  t0 <- utcnow ;;
  setattr set_started_at (Some t0).

(** [mark_completed(new_vault_path)] *)
Definition mark_completed (path : pystr) : M t unit :=
  setattr set_status COMPLETED ;;
  t0 <- utcnow ;;
  setattr set_completed_at (Some t0) ;;
  setattr set_new_vault_path (Some path) ;;
  d <- calculate_duration ;;
  setattr set_duration_seconds d.

(** [mark_failed(error_message)] *)
Definition mark_failed (msg : pystr) : M t unit :=
  setattr set_status FAILED ;;
  setattr set_error_message (Some msg) ;;
  t0 <- utcnow ;;
  setattr set_completed_at (Some t0) ;;
  d <- calculate_duration ;;
  setattr set_duration_seconds d ;;
  (* Schedule retry if possible *)
  again <- can_retry ;;
  if again then
    n <- getattr retry_count ;;
    setattr set_retry_count (n + 1) ;;
    (* Exponential backoff: 2^retry_count minutes *)
    k <- getattr retry_count ;;
    retry_delay <- lift (timedelta_minutes_pow2 k) ;;
    t1 <- utcnow ;;
    next <- lift (datetime_add t1 retry_delay) ;;
    setattr set_next_retry_at (Some next)
  else ret tt.

End CredentialRotation.

(** ** [hashlib.sha256] (FIPS 180-4) *)

Module SHA256.

Definition W32 : Z := 2 ^ 32.
Definition add32 (a b : Z) : Z := (a + b) mod W32.
Definition not32 (a : Z) : Z := Z.lxor a (W32 - 1).
Definition rotr (n x : Z) : Z :=
  Z.lor (Z.shiftr x n) (Z.shiftl x (32 - n) mod W32).

Definition Ch (x y z : Z) : Z := Z.lxor (Z.land x y) (Z.land (not32 x) z).
Definition Maj (x y z : Z) : Z :=
  Z.lxor (Z.lxor (Z.land x y) (Z.land x z)) (Z.land y z).
Definition Sigma0 (x : Z) : Z := Z.lxor (Z.lxor (rotr 2 x) (rotr 13 x)) (rotr 22 x).
Definition Sigma1 (x : Z) : Z := Z.lxor (Z.lxor (rotr 6 x) (rotr 11 x)) (rotr 25 x).
Definition sigma0 (x : Z) : Z := Z.lxor (Z.lxor (rotr 7 x) (rotr 18 x)) (Z.shiftr x 3).
Definition sigma1 (x : Z) : Z := Z.lxor (Z.lxor (rotr 17 x) (rotr 19 x)) (Z.shiftr x 10).

(** The constants are derived as the standard defines them, from the
    first primes: the round constants are the first 32 bits of the
    fractional parts of their cube roots, the initial hash value those of
    their square roots. *)
Definition is_prime (p : Z) : bool :=
  (2 <=? p)
  && forallb (fun d => negb (p mod Z.of_nat d =? 0))
             (seq 2 (Z.to_nat p - 2)).

Definition primes : list Z :=
  filter is_prime (map Z.of_nat (seq 2 310)).

(** The integer cube root of [n], bit by bit from bit [bits] down. *)
Fixpoint icbrt (bits : nat) (n r : Z) : Z :=
  match bits with
  | O => r
  | S b =>
      let r' := r + 2 ^ Z.of_nat b in
      if r' * r' * r' <=? n then icbrt b n r' else icbrt b n r
  end.

Definition K : list Z :=
  map (fun p => icbrt 36 (p * 2 ^ 96) 0 mod W32) primes.

Definition H0 : list Z :=
  map (fun p => Z.sqrt (p * 2 ^ 64) mod W32) (firstn 8 primes).

(** Big-endian words of a byte string whose length is a multiple of 4. *)
Fixpoint words (bs : list Z) : list Z :=
  match bs with
  | b0 :: b1 :: b2 :: b3 :: rest =>
      (((b0 * 256 + b1) * 256 + b2) * 256 + b3) :: words rest
  | _ => []
  end.

(** The [n] low bytes of [x], most significant first. *)
Fixpoint be_bytes (n : nat) (x : Z) : list Z :=
  match n with
  | O => []
  | S n' => be_bytes n' (x / 256) ++ [x mod 256]
  end.

(** Padding: a 1 bit, zeros up to 56 mod 64 bytes, the bit length on 8 bytes. *)
Definition pad (msg : list Z) : list Z :=
  let len := Z.of_nat (length msg) in
  let zeros := Z.to_nat ((55 - len) mod 64) in
  msg ++ [128] ++ repeat 0 zeros ++ be_bytes 8 (8 * len).

(** One round.  [w] holds the sixteen schedule words W(t) .. W(t+15). *)
Definition round (st : list Z * list Z) (k : Z) : list Z * list Z :=
  match st with
  | ([a; b; c; d; e; f; g; h], w) =>
      let wt := nth 0 w 0 in
      let t1 := add32 (add32 (add32 (add32 h (Sigma1 e)) (Ch e f g)) k) wt in
      let t2 := add32 (Sigma0 a) (Maj a b c) in
      let wn := add32 (add32 (add32 (sigma1 (nth 14 w 0)) (nth 9 w 0))
                             (sigma0 (nth 1 w 0))) wt in
      ([add32 t1 t2; a; b; c; add32 d t1; e; f; g], tl w ++ [wn])
  | _ => st
  end.

Definition zip_add (h v : list Z) : list Z :=
  map (fun p : Z * Z => add32 (fst p) (snd p)) (combine h v).

Definition compress (h : list Z) (block : list Z) : list Z :=
  zip_add h (fst (fold_left round K (h, words block))).

Fixpoint blocks (n : nat) (h : list Z) (bs : list Z) : list Z :=
  match n with
  | O => h
  | S n' => blocks n' (compress h (firstn 64 bs)) (skipn 64 bs)
  end.

Definition digest_words (msg : list Z) : list Z :=
  let p := pad msg in
  blocks (Nat.div (length p) 64) H0 p.

Definition hexchar (d : Z) : Z := if d <? 10 then 48 + d else 87 + d.

Definition hex_of_byte (b : Z) : list Z := [hexchar (b / 16); hexchar (b mod 16)].

(** [hashlib.sha256(msg).hexdigest()] *)
Definition hexdigest (msg : list Z) : pystr :=
  flat_map hex_of_byte (flat_map (be_bytes 4) (digest_words msg)).

End SHA256.

(** ** [str.encode()] and [json.dumps] *)

(** UTF-8, the default of [str.encode]; a surrogate code point has no
    encoding. *)
Definition utf8_char (c : Z) : exn + list Z :=
  if c <? 0x80 then inr [c]
  else if c <? 0x800 then inr [0xC0 + c / 64; 0x80 + c mod 64]
  else if (0xD800 <=? c) && (c <=? 0xDFFF)
       then inl (UnicodeEncodeError "surrogates not allowed")
  else if c <? 0x10000
       then inr [0xE0 + c / 4096; 0x80 + c / 64 mod 64; 0x80 + c mod 64]
  else inr [0xF0 + c / 262144; 0x80 + c / 4096 mod 64;
            0x80 + c / 64 mod 64; 0x80 + c mod 64].

Fixpoint str_encode (s : pystr) : exn + list Z :=
  match s with
  | [] => inr []
  | c :: s' =>
      match utf8_char c with
      | inl e => inl e
      | inr bs => match str_encode s' with
                  | inl e => inl e
                  | inr rest => inr (bs ++ rest)
                  end
      end
  end.

Module Json.

(** The values that [calculate_checksum] serialises: [None] and [str]. *)
Inductive value : Type := Null | Str (s : pystr).

Definition of_option (o : option pystr) : value :=
  match o with None => Null | Some s => Str s end.

Definition hexdigit (d : Z) : Z := if d <? 10 then 48 + d else 87 + d.

(** ['{0:04x}'.format(n)] for [0 <= n < 0x10000]. *)
Definition hex4 (n : Z) : pystr :=
  [hexdigit (n / 4096 mod 16); hexdigit (n / 256 mod 16);
   hexdigit (n / 16 mod 16); hexdigit (n mod 16)].

(** The replacement of one character by [encode_basestring_ascii]
    ([ensure_ascii=True]): printable ASCII other than the quote and the
    backslash stays, the short escapes come from [ESCAPE_DCT], everything
    else is a [\uXXXX] escape, a surrogate pair above the BMP. *)
Definition escape_char (c : Z) : pystr :=
  if c =? 34 then [92; 34]
  else if c =? 92 then [92; 92]
  else if c =? 8 then [92; 98]
  else if c =? 12 then [92; 102]
  else if c =? 10 then [92; 110]
  else if c =? 13 then [92; 114]
  else if c =? 9 then [92; 116]
  else if (32 <=? c) && (c <=? 126) then [c]
  else if c <? 0x10000 then 92 :: 117 :: hex4 c
  else
    let n := c - 0x10000 in
    let s1 := Z.lor 0xd800 (Z.land (Z.shiftr n 10) 0x3ff) in
    let s2 := Z.lor 0xdc00 (Z.land n 0x3ff) in
    (92 :: 117 :: hex4 s1) ++ (92 :: 117 :: hex4 s2).

Definition escape (s : pystr) : pystr := flat_map escape_char s.

Definition encode_str (s : pystr) : pystr := 34 :: escape s ++ [34].

Definition encode_value (v : value) : pystr :=
  match v with
  | Null => py "null"
  | Str s => encode_str s
  end.

(** Order of [str]: lexicographic on code points. *)
Fixpoint str_leb (a b : pystr) : bool :=
  match a, b with
  | [], _ => true
  | _ :: _, [] => false
  | x :: a', y :: b' =>
      if x <? y then true else if y <? x then false else str_leb a' b'
  end.

(** A [dict] is the list of its items in insertion order; [sort_keys]
    sorts them by key. *)
Definition dict : Type := list (pystr * value).

Fixpoint insert_item (kv : pystr * value) (l : dict) : dict :=
  match l with
  | [] => [kv]
  | kv' :: l' =>
      if str_leb (fst kv) (fst kv') then kv :: l else kv' :: insert_item kv l'
  end.

Definition sort_items (d : dict) : dict := fold_right insert_item [] d.

Definition encode_item (kv : pystr * value) : pystr :=
  encode_str (fst kv) ++ py ": " ++ encode_value (snd kv).

Fixpoint join_items (l : dict) : pystr :=
  match l with
  | [] => []
  | [kv] => encode_item kv
  | kv :: l' => encode_item kv ++ py ", " ++ join_items l'
  end.

(** [json.dumps(d, sort_keys=True)] with the default separators. *)
Definition dumps_sorted (d : dict) : pystr :=
  py "{" ++ join_items (sort_items d) ++ py "}".

(** *** Reading an escaped character back

    How a JSON reader undoes [escape_char]; used to show that the text
    determines the string. *)

Definition unhexdigit (c : Z) : Z := if c <? 58 then c - 48 else c - 87.

Definition unhex4 (l : pystr) : option (Z * pystr) :=
  match l with
  | a :: b :: c :: d :: rest =>
      Some (((unhexdigit a * 16 + unhexdigit b) * 16 + unhexdigit c) * 16
            + unhexdigit d, rest)
  | _ => None
  end.

Definition unshort (x : Z) : option Z :=
  if x =? 34 then Some 34
  else if x =? 92 then Some 92
  else if x =? 98 then Some 8
  else if x =? 102 then Some 12
  else if x =? 110 then Some 10
  else if x =? 114 then Some 13
  else if x =? 116 then Some 9
  else None.

(** A [\uXXXX] escape that follows a high surrogate, if it is a low
    surrogate. *)
Definition low_surrogate (l : pystr) : option (Z * pystr) :=
  match l with
  | c :: x :: l' =>
      if (c =? 92) && (x =? 117) then
        match unhex4 l' with
        | Some (n, rest) =>
            if (0xdc00 <=? n) && (n <=? 0xdfff) then Some (n, rest) else None
        | None => None
        end
      else None
  | _ => None
  end.

Definition unescape_char (l : pystr) : option (Z * pystr) :=
  match l with
  | [] => None
  | c :: l1 =>
      if c =? 92 then
        match l1 with
        | [] => None
        | x :: l2 =>
            if x =? 117 then
              match unhex4 l2 with
              | None => None
              | Some (n, rest) =>
                  if (0xd800 <=? n) && (n <=? 0xdbff) then
                    match low_surrogate rest with
                    | Some (n2, rest2) =>
                        Some (0x10000 + (n - 0xd800) * 1024 + (n2 - 0xdc00), rest2)
                    | None => Some (n, rest)
                    end
                  else Some (n, rest)
              end
            else
              match unshort x with
              | Some c' => Some (c', l2)
              | None => None
              end
        end
      else if c =? 34 then None
      else Some (c, l1)
  end.

End Json.

(** ** app/models/audit.py *)

(** A [float]: a finite value [m * 2^e], an infinity or a NaN. *)
Inductive pyfloat : Type :=
| Finite (m e : Z)
| Infinity (negative : bool)
| NaN.

Module AuditLog.

(** The columns of class [AuditLog], in the order of the source, after
    those of [BaseModel].  [timestamp] has a column default
    ([datetime.utcnow]), which SQLAlchemy applies when it emits the
    INSERT: until then the attribute of an object built without a
    timestamp is [None]. *)
Record t : Type := {
  base : BaseModel.t;
  event_type : pystr;
  event_subtype : option pystr;
  action : pystr;
  result : pystr;
  timestamp : option datetime;
  duration_ms : option Z;
  actor_user_id : option Z;
  actor_service_identity_id : option Z;
  actor_upn : option pystr;
  actor_display_name : option pystr;
  target_user_id : option Z;
  target_service_identity_id : option Z;
  target_resource_type : option pystr;
  target_resource_id : option pystr;
  target_resource_name : option pystr;
  session_id : option pystr;
  correlation_id : option pystr;
  request_id : option pystr;
  transaction_id : option pystr;
  source_ip : option pystr;
  user_agent : option pystr;
  geographic_location : option pystr;
  description : pystr;
  details : option pystr;
  previous_values : option pystr;
  new_values : option pystr;
  risk_score : option Z;
  severity : pystr;
  is_suspicious : bool;
  anomaly_score : option pyfloat;
  compliance_frameworks : option pystr;
  regulatory_classification : option pystr;
  retention_date : option datetime;
  application : pystr;
  service : option pystr;
  api_endpoint : option pystr;
  http_method : option pystr;
  response_code : option Z;
  error_code : option pystr;
  error_message : option pystr;
  stack_trace : option pystr;
  checksum : option pystr;
  signature : option pystr
}.

Definition set_checksum (v : option pystr) (r : t) : t :=
  {| base := base r; event_type := event_type r;
     event_subtype := event_subtype r; action := action r;
     result := result r; timestamp := timestamp r;
     duration_ms := duration_ms r; actor_user_id := actor_user_id r;
     actor_service_identity_id := actor_service_identity_id r;
     actor_upn := actor_upn r; actor_display_name := actor_display_name r;
     target_user_id := target_user_id r;
     target_service_identity_id := target_service_identity_id r;
     target_resource_type := target_resource_type r;
     target_resource_id := target_resource_id r;
     target_resource_name := target_resource_name r;
     session_id := session_id r; correlation_id := correlation_id r;
     request_id := request_id r; transaction_id := transaction_id r;
     source_ip := source_ip r; user_agent := user_agent r;
     geographic_location := geographic_location r;
     description := description r; details := details r;
     previous_values := previous_values r; new_values := new_values r;
     risk_score := risk_score r; severity := severity r;
     is_suspicious := is_suspicious r; anomaly_score := anomaly_score r;
     compliance_frameworks := compliance_frameworks r;
     regulatory_classification := regulatory_classification r;
     retention_date := retention_date r; application := application r;
     service := service r; api_endpoint := api_endpoint r;
     http_method := http_method r; response_code := response_code r;
     error_code := error_code r; error_message := error_message r;
     stack_trace := stack_trace r; checksum := v;
     signature := signature r |}.

(** The [dict] that [calculate_checksum] builds, for a record whose
    timestamp is [ts]. *)
Definition checksum_data (ts : datetime) (r : t) : Json.dict :=
  [ (py "timestamp", Json.Str (isoformat ts));
    (py "event_type", Json.Str (event_type r));
    (py "action", Json.Str (action r));
    (py "result", Json.Str (result r));
    (py "actor_upn", Json.of_option (actor_upn r));
    (py "target_resource_type", Json.of_option (target_resource_type r));
    (py "target_resource_id", Json.of_option (target_resource_id r));
    (py "description", Json.Str (description r));
    (py "source_ip", Json.of_option (source_ip r)) ].

(** [calculate_checksum] *)
Definition calculate_checksum : M t pystr :=
  ts <- getattr timestamp ;;
  match ts with
  | None =>
      raise (AttributeError "'NoneType' object has no attribute 'isoformat'")
  | Some t0 =>
      data <- getattr (checksum_data t0) ;;
      (* Sort keys for deterministic output *)
      let json_str := Json.dumps_sorted data in
      bytes <- lift (str_encode json_str) ;;
      ret (SHA256.hexdigest bytes)
  end.


(** [is_high_risk].  The chain of [or] returns the first true operand or
    the last one, and [self.risk_score and ...] returns the risk score
    itself when that is [None] or 0: the result is a [bool], [None] or
    0. *)
Definition is_high_risk : M t pyvalue :=
  sev <- getattr severity ;;
  if str_eqb sev (py "high") || str_eqb sev (py "critical")
  then ret (PyBool true)
  else
    sus <- getattr is_suspicious ;;
    if sus then ret (PyBool true)
    else
      score <- getattr risk_score ;;
      match score with
      | None => ret PyNone
      | Some n => if n =? 0 then ret (PyInt 0) else ret (PyBool (75 <=? n))
      end.

(** The dictionary [retention_map] of [get_retention_period_days]. *)
Definition retention_map : gmap (list Z) Z :=
  <[py "authentication" := 365]>
  (<[py "authorization" := 365]>
  (<[py "privileged_operation" := 2555]>
  (<[py "credential_access" := 2555]>
  (<[py "compliance" := 2555]>
  (<[py "security_incident" := 2555]> ∅))))).

(** [get_retention_period_days] *)
Definition get_retention_period_days : M t Z :=
  et <- getattr event_type ;;
  let base_retention := default 365 (retention_map !! et) in
  (* Extend for high-risk events *)
  high <- is_high_risk ;;
  if truthy high then ret (Z.max base_retention 2555)
  else ret base_retention.

(** The attributes of the related [User] and [ServiceIdentity] objects
    that the methods of [AuditLog] read. *)
Record User : Type := { display_name : pystr; upn : pystr }.
Record ServiceIdentity : Type := { name : pystr }.

(** An audit record with the objects its four relationships load; an
    object is always true, so a relationship is false exactly when it is
    [None]. *)
Record loaded : Type := {
  row : t;
  actor_user : option User;
  actor_service_identity : option ServiceIdentity;
  target_user : option User;
  target_service_identity : option ServiceIdentity
}.

(** [a or b] on [str]: the empty string is false. *)
Definition str_or (a b : pystr) : pystr :=
  match a with [] => b | _ :: _ => a end.

(** Truth value of an [Optional[str]]. *)
Definition opt_str_true (o : option pystr) : bool :=
  match o with Some (_ :: _) => true | _ => false end.

(** [get_actor_name] *)
Definition get_actor_name : M loaded pystr :=
  u <- getattr actor_user ;;
  match u with
  | Some user => ret (str_or (display_name user) (upn user))
  | None =>
      si <- getattr actor_service_identity ;;
      match si with
      | Some si' => ret (name si')
      | None =>
          a <- getattr (fun l => actor_upn (row l)) ;;
          if opt_str_true a then ret (default [] a)
          else
            d <- getattr (fun l => actor_display_name (row l)) ;;
            if opt_str_true d then ret (default [] d)
            else ret (py "System")
      end
  end.

(** [get_target_name] *)
Definition get_target_name : M loaded (option pystr) :=
  u <- getattr target_user ;;
  match u with
  | Some user => ret (Some (str_or (display_name user) (upn user)))
  | None =>
      si <- getattr target_service_identity ;;
      match si with
      | Some si' => ret (Some (name si'))
      | None =>
          n <- getattr (fun l => target_resource_name (row l)) ;;
          if opt_str_true n then ret n else ret None
      end
  end.

End AuditLog.

(** The three mapper event listeners.  The [mapper] and [connection]
    arguments are not used; [target] is the object of the monad. *)

(** [before_insert] *)
Definition calculate_checksum_before_insert : M AuditLog.t unit :=
  c <- AuditLog.calculate_checksum ;;
  setattr AuditLog.set_checksum (Some c).

(** [before_update] *)
Definition prevent_audit_log_updates : M AuditLog.t unit :=
  raise (ValueError "Audit logs are immutable and cannot be updated").

(** [before_delete] *)
Definition prevent_audit_log_deletions : M AuditLog.t unit :=
  raise (ValueError
           "Audit logs cannot be deleted except through retention policies").

(** ** The unit of work on table [audit_logs]

    SQLAlchemy's flush, reduced to what the listeners depend on: for each
    pending, dirty or deleted object it first calls the listeners of the
    [before_insert], [before_update] or [before_delete] event, and emits
    the statement only when they return; an exception of a listener
    aborts the flush with the table as it was.  The aborted flush rolls
    the session back: an object that was pending is expunged and keeps
    its attributes; an object that was persistent stays in the session
    (a deletion is reverted) and is expired, which drops the attribute
    values it held in memory. *)

Module Session.

Record state : Type := {
  audit_logs : gmap Z AuditLog.t;   (* persisted rows, by primary key *)
  target : AuditLog.t;              (* the object being flushed *)
  env : World
}.

Definition pk (r : AuditLog.t) : Z := BaseModel.id (AuditLog.base r).

(** Run a listener on the target. *)
Definition fire (listener : M AuditLog.t unit) (s : state)
  : outcome state unit :=
  match listener (Frame (target s) (env s)) with
  | Return _ f =>
      Return tt {| audit_logs := audit_logs s; target := self f; env := world f |}
  | Raise e f =>
      Raise e {| audit_logs := audit_logs s; target := self f; env := world f |}
  end.

(** [session.add(target); session.flush()] *)
Definition flush_insert (s : state) : outcome state unit :=
  match fire calculate_checksum_before_insert s with
  | Raise e s' => Raise e s'
  | Return _ s' =>
      match audit_logs s' !! pk (target s') with
      | Some _ => Raise (IntegrityError "duplicate key value") s'
      | None =>
          Return tt {| audit_logs := <[pk (target s') := target s']> (audit_logs s');
                       target := target s'; env := env s' |}
      end
  end.

(** The rollback of an aborted flush, for a persistent [target]: the
    object is expired, so the changes made to it in memory are lost and
    its attributes are those of its row when they are loaded again.  An
    object whose key has no row is not persistent and stays as it is. *)
Definition expire (s : state) : state :=
  {| audit_logs := audit_logs s;
     target := default (target s) (audit_logs s !! pk (target s));
     env := env s |}.

(** [session.flush()] with a modified persistent [target] *)
Definition flush_update (s : state) : outcome state unit :=
  match fire prevent_audit_log_updates s with
  | Raise e s' => Raise e (expire s')
  | Return _ s' =>
      Return tt {| audit_logs := <[pk (target s') := target s']> (audit_logs s');
                   target := target s'; env := env s' |}
  end.

(** [session.delete(target); session.flush()] *)
Definition flush_delete (s : state) : outcome state unit :=
  match fire prevent_audit_log_deletions s with
  | Raise e s' => Raise e (expire s')
  | Return _ s' =>
      Return tt {| audit_logs := delete (pk (target s')) (audit_logs s');
                   target := target s'; env := env s' |}
  end.


(** A flush of one object: pending, dirty or deleted. *)
Inductive flush_op : Type :=
| Insert (obj : AuditLog.t)
| Update (obj : AuditLog.t)
| Delete (obj : AuditLog.t).

(** One flush on a table; the table afterwards, whether the flush
    succeeded or was aborted. *)
Definition apply_op (tbl : gmap Z AuditLog.t) (w : World) (op : flush_op)
  : gmap Z AuditLog.t :=
  match op with
  | Insert obj =>
      audit_logs (state_of (flush_insert
                              {| audit_logs := tbl; target := obj; env := w |}))
  | Update obj =>
      audit_logs (state_of (flush_update
                              {| audit_logs := tbl; target := obj; env := w |}))
  | Delete obj =>
      audit_logs (state_of (flush_delete
                              {| audit_logs := tbl; target := obj; env := w |}))
  end.

(** A sequence of flushes. *)
Definition apply_ops (tbl : gmap Z AuditLog.t) (w : World) (ops : list flush_op)
  : gmap Z AuditLog.t :=
  fold_left (fun t op => apply_op t w op) ops tbl.

End Session.

(** ** Sample objects *)

Module Sample.

(** 2024-01-15T10:30:00 *)
Definition T0 : datetime := 63840911400000000.

(** A clock that stands still at [t]. *)
Definition frozen (t : datetime) : World :=
  {| clock := fun _ => t; reads := 0 |}.

(** A clock that advances by [step] microseconds from one reading to the
    next, starting at [t]. *)
Definition ticking (t step : Z) : World :=
  {| clock := fun n => t + Z.of_nat n * step; reads := 0 |}.

Definition base (i : Z) : BaseModel.t :=
  {| BaseModel.id := i; BaseModel.is_deleted := false;
     BaseModel.deleted_at := None; BaseModel.metadata_json := None |}.

Definition full_base (i : Z) : FullBaseModel.t :=
  {| FullBaseModel.base := base i;
     FullBaseModel.created_at := T0 - 30 * US_PER_DAY;
     FullBaseModel.updated_at := T0 - 30 * US_PER_DAY;
     FullBaseModel.created_by := None; FullBaseModel.updated_by := None;
     FullBaseModel.version := 1; FullBaseModel.compliance_tags := None;
     FullBaseModel.retention_date := None;
     FullBaseModel.classification := None |}.

(** A password credential with the given status, rotation frequency,
    auto-rotation flag and next rotation date. *)
Definition credential (st : CredentialStatus) (freq : Z) (auto : bool)
  (next : option datetime) : Credential.t :=
  {| Credential.full_base := full_base 1;
     Credential.credential_type := PASSWORD;
     Credential.name := py "svc-backup password";
     Credential.description := None;
     Credential.service_identity_id := 7;
     Credential.vault_path := py "credentials/svc-backup/password/20231216/1";
     Credential.vault_version := None;
     Credential.encrypted_metadata := None;
     Credential.status := st;
     Credential.created_date := T0 - 30 * US_PER_DAY;
     Credential.expires_at := None;
     Credential.last_used := None;
     Credential.use_count := 0;
     Credential.rotation_frequency_days := freq;
     Credential.next_rotation_date := next;
     Credential.last_rotated := None;
     Credential.rotation_count := 0;
     Credential.auto_rotation_enabled := auto;
     Credential.strength_score := None;
     Credential.complexity_requirements := None;
     Credential.requires_encryption := true;
     Credential.access_restrictions := None;
     Credential.external_id := None;
     Credential.external_system := None;
     Credential.sync_enabled := false;
     Credential.last_sync := None;
     Credential.notification_days_before_expiry := 14;
     Credential.notification_sent := true;
     Credential.emergency_contact := None |}.

(** A rotation attempt of the active sample credential with the column
    defaults ([retry_count] 0, [max_retries] 3), in the given status and
    started at the given time. *)
Definition rotation (st : RotationStatus) (started : option datetime)
  : CredentialRotation.t :=
  {| CredentialRotation.full_base := full_base 2;
     CredentialRotation.credential_id := 1;
     CredentialRotation.credential := credential ACTIVE 90 true None;
     CredentialRotation.status := st;
     CredentialRotation.scheduled_date := T0 - US_PER_DAY;
     CredentialRotation.started_at := started;
     CredentialRotation.completed_at := None;
     CredentialRotation.rotation_type := py "automatic";
     CredentialRotation.triggered_by := None;
     CredentialRotation.reason := None;
     CredentialRotation.old_vault_path := None;
     CredentialRotation.new_vault_path := None;
     CredentialRotation.error_message := None;
     CredentialRotation.retry_count := 0;
     CredentialRotation.max_retries := 3;
     CredentialRotation.next_retry_at := None;
     CredentialRotation.verification_status := py "pending";
     CredentialRotation.verification_details := None;
     CredentialRotation.rollback_available := true;
     CredentialRotation.duration_seconds := None;
     CredentialRotation.systems_updated := None;
     CredentialRotation.notifications_sent := None |}.

(** An audit record of a login with the given description, severity and
    risk score, stamped [T0]. *)
Definition audit (descr sev : pystr) (risk : option Z) : AuditLog.t :=
  {| AuditLog.base := base 3;
     AuditLog.event_type := py "authentication";
     AuditLog.event_subtype := None;
     AuditLog.action := py "login";
     AuditLog.result := py "success";
     AuditLog.timestamp := Some T0;
     AuditLog.duration_ms := None;
     AuditLog.actor_user_id := None;
     AuditLog.actor_service_identity_id := None;
     AuditLog.actor_upn := Some (py "admin@example.com");
     AuditLog.actor_display_name := None;
     AuditLog.target_user_id := None;
     AuditLog.target_service_identity_id := None;
     AuditLog.target_resource_type := None;
     AuditLog.target_resource_id := None;
     AuditLog.target_resource_name := None;
     AuditLog.session_id := None;
     AuditLog.correlation_id := None;
     AuditLog.request_id := None;
     AuditLog.transaction_id := None;
     AuditLog.source_ip := Some (py "192.168.1.100");
     AuditLog.user_agent := None;
     AuditLog.geographic_location := None;
     AuditLog.description := descr;
     AuditLog.details := None;
     AuditLog.previous_values := None;
     AuditLog.new_values := None;
     AuditLog.risk_score := risk;
     AuditLog.severity := sev;
     AuditLog.is_suspicious := false;
     AuditLog.anomaly_score := None;
     AuditLog.compliance_frameworks := None;
     AuditLog.regulatory_classification := None;
     AuditLog.retention_date := None;
     AuditLog.application := py "menshun-backend";
     AuditLog.service := None;
     AuditLog.api_endpoint := None;
     AuditLog.http_method := None;
     AuditLog.response_code := None;
     AuditLog.error_code := None;
     AuditLog.error_message := None;
     AuditLog.stack_trace := None;
     AuditLog.checksum := None;
     AuditLog.signature := None |}.

(** A session in which the login record is persisted and the object of
    that row has had its description changed. *)
Definition session : Session.state :=
  {| Session.audit_logs :=
       {[ 3 := audit (py "User logged in") (py "info") None ]};
     Session.target := audit (py "User logged out") (py "info") None;
     Session.env := frozen T0 |}.

(** A credential that expires at [e], with the given notification flag
    and notification window. *)
Definition expiring (e : datetime) (sent : bool) (days : Z) : Credential.t :=
  {| Credential.full_base := full_base 1;
     Credential.credential_type := PASSWORD;
     Credential.name := py "svc-backup password";
     Credential.description := None;
     Credential.service_identity_id := 7;
     Credential.vault_path := py "credentials/svc-backup/password/20231216/1";
     Credential.vault_version := None;
     Credential.encrypted_metadata := None;
     Credential.status := ACTIVE;
     Credential.created_date := T0 - 30 * US_PER_DAY;
     Credential.expires_at := Some e;
     Credential.last_used := None;
     Credential.use_count := 0;
     Credential.rotation_frequency_days := 90;
     Credential.next_rotation_date := None;
     Credential.last_rotated := None;
     Credential.rotation_count := 0;
     Credential.auto_rotation_enabled := true;
     Credential.strength_score := None;
     Credential.complexity_requirements := None;
     Credential.requires_encryption := true;
     Credential.access_restrictions := None;
     Credential.external_id := None;
     Credential.external_system := None;
     Credential.sync_enabled := false;
     Credential.last_sync := None;
     Credential.notification_days_before_expiry := days;
     Credential.notification_sent := sent;
     Credential.emergency_contact := None |}.

(** A rotation attempt in progress with the given retry count and
    maximum. *)
Definition retried (count most : Z) : CredentialRotation.t :=
  {| CredentialRotation.full_base := full_base 2;
     CredentialRotation.credential_id := 1;
     CredentialRotation.credential := credential ACTIVE 90 true None;
     CredentialRotation.status := IN_PROGRESS;
     CredentialRotation.scheduled_date := T0 - US_PER_DAY;
     CredentialRotation.started_at := Some T0;
     CredentialRotation.completed_at := None;
     CredentialRotation.rotation_type := py "automatic";
     CredentialRotation.triggered_by := None;
     CredentialRotation.reason := None;
     CredentialRotation.old_vault_path := None;
     CredentialRotation.new_vault_path := None;
     CredentialRotation.error_message := None;
     CredentialRotation.retry_count := count;
     CredentialRotation.max_retries := most;
     CredentialRotation.next_retry_at := None;
     CredentialRotation.verification_status := py "pending";
     CredentialRotation.verification_details := None;
     CredentialRotation.rollback_available := true;
     CredentialRotation.duration_seconds := None;
     CredentialRotation.systems_updated := None;
     CredentialRotation.notifications_sent := None |}.

(** A login record built without a timestamp. *)
Definition unstamped : AuditLog.t :=
  {| AuditLog.base := base 4;
     AuditLog.event_type := py "authentication";
     AuditLog.event_subtype := None;
     AuditLog.action := py "login";
     AuditLog.result := py "success";
     AuditLog.timestamp := None;
     AuditLog.duration_ms := None;
     AuditLog.actor_user_id := None;
     AuditLog.actor_service_identity_id := None;
     AuditLog.actor_upn := Some (py "admin@example.com");
     AuditLog.actor_display_name := None;
     AuditLog.target_user_id := None;
     AuditLog.target_service_identity_id := None;
     AuditLog.target_resource_type := None;
     AuditLog.target_resource_id := None;
     AuditLog.target_resource_name := None;
     AuditLog.session_id := None;
     AuditLog.correlation_id := None;
     AuditLog.request_id := None;
     AuditLog.transaction_id := None;
     AuditLog.source_ip := Some (py "192.168.1.100");
     AuditLog.user_agent := None;
     AuditLog.geographic_location := None;
     AuditLog.description := py "User logged in";
     AuditLog.details := None;
     AuditLog.previous_values := None;
     AuditLog.new_values := None;
     AuditLog.risk_score := None;
     AuditLog.severity := py "info";
     AuditLog.is_suspicious := false;
     AuditLog.anomaly_score := None;
     AuditLog.compliance_frameworks := None;
     AuditLog.regulatory_classification := None;
     AuditLog.retention_date := None;
     AuditLog.application := py "menshun-backend";
     AuditLog.service := None;
     AuditLog.api_endpoint := None;
     AuditLog.http_method := None;
     AuditLog.response_code := None;
     AuditLog.error_code := None;
     AuditLog.error_message := None;
     AuditLog.stack_trace := None;
     AuditLog.checksum := None;
     AuditLog.signature := None |}.

(** The login record with a related actor user and no other related
    object. *)
Definition loaded_audit : AuditLog.loaded :=
  {| AuditLog.row := audit (py "User logged in") (py "info") None;
     AuditLog.actor_user :=
       Some {| AuditLog.display_name := [];
               AuditLog.upn := py "admin@example.com" |};
     AuditLog.actor_service_identity := None;
     AuditLog.target_user := None;
     AuditLog.target_service_identity := None |}.

End Sample.

(** ** Results of the transitions, as terms

    What the methods leave in [self] when they return, written with the
    setters of the models.  The properties below show that the methods
    compute these records. *)

(** [calculate_duration] on the two time stamps. *)
Definition duration_between (started completed : option datetime) : option Z :=
  match started, completed with
  | Some t0, Some t1 => Some (int_total_seconds (datetime_sub t1 t0))
  | _, _ => None
  end.

(** [mark_rotated] when the clock reads [t1] and then [t2]. *)
Definition rotated (t1 t2 : datetime) (c : Credential.t) : Credential.t :=
  Credential.set_notification_sent false
    (Credential.set_next_rotation_date
       (Some (t2 + Credential.rotation_frequency_days c * US_PER_DAY))
       (Credential.set_rotation_count (Credential.rotation_count c + 1)
          (Credential.set_last_rotated (Some t1) c))).

(** [mark_completed(path)] when the clock reads [t]. *)
Definition completed (path : pystr) (t : datetime) (r : CredentialRotation.t)
  : CredentialRotation.t :=
  CredentialRotation.set_duration_seconds
    (duration_between (CredentialRotation.started_at r) (Some t))
    (CredentialRotation.set_new_vault_path (Some path)
       (CredentialRotation.set_completed_at (Some t)
          (CredentialRotation.set_status COMPLETED r))).

(** [mark_failed(msg)] when the clock reads [t], before the retry is
    scheduled. *)
Definition failed (msg : pystr) (t : datetime) (r : CredentialRotation.t)
  : CredentialRotation.t :=
  CredentialRotation.set_duration_seconds
    (duration_between (CredentialRotation.started_at r) (Some t))
    (CredentialRotation.set_completed_at (Some t)
       (CredentialRotation.set_error_message (Some msg)
          (CredentialRotation.set_status FAILED r))).

(** ** Statements about audit records *)

(** A Unicode scalar value: a code point that is not a surrogate.  These
    are the code points of the strings that UTF-8, and so the database,
    can hold. *)
Definition scalar (c : Z) : Prop :=
  0 <= c < 0xD800 \/ 0xE000 <= c <= 0x10FFFF.

Definition scalar_str (s : pystr) : Prop := Forall scalar s.

Definition scalar_opt (o : option pystr) : Prop :=
  match o with Some s => scalar_str s | None => True end.

Definition scalar_value (v : Json.value) : Prop :=
  match v with Json.Null => True | Json.Str s => scalar_str s end.

Definition ascii_str (s : pystr) : Prop := Forall (fun x => 0 <= x < 128) s.

(** A lowercase hexadecimal digit. *)
Definition is_hex_digit (c : Z) : Prop := 48 <= c <= 57 \/ 97 <= c <= 102.

(** Two records agree on the nine attributes that [calculate_checksum]
    reads. *)
Definition same_projection (a b : AuditLog.t) : Prop :=
  AuditLog.timestamp a = AuditLog.timestamp b /\
  AuditLog.event_type a = AuditLog.event_type b /\
  AuditLog.action a = AuditLog.action b /\
  AuditLog.result a = AuditLog.result b /\
  AuditLog.actor_upn a = AuditLog.actor_upn b /\
  AuditLog.target_resource_type a = AuditLog.target_resource_type b /\
  AuditLog.target_resource_id a = AuditLog.target_resource_id b /\
  AuditLog.description a = AuditLog.description b /\
  AuditLog.source_ip a = AuditLog.source_ip b.

(** A record whose timestamp is set to a date of the years 1..9999 and
    whose nine attributes hold scalar values only. *)
Definition well_formed (ts : datetime) (r : AuditLog.t) : Prop :=
  AuditLog.timestamp r = Some ts /\ valid_datetime ts /\
  scalar_str (AuditLog.event_type r) /\
  scalar_str (AuditLog.action r) /\
  scalar_str (AuditLog.result r) /\
  scalar_opt (AuditLog.actor_upn r) /\
  scalar_opt (AuditLog.target_resource_type r) /\
  scalar_opt (AuditLog.target_resource_id r) /\
  scalar_str (AuditLog.description r) /\
  scalar_opt (AuditLog.source_ip r).

(** The day and month that [ord2ymd] derives from the day [n] of a year
    and its leap flag form a date of that year with [n] days before it. *)
Definition month_day_ok (leap : bool) (n : Z) : bool :=
  let month := Z.shiftr (n + 50) 5 in
  let preceding := nth (Z.to_nat month) DAYS_BEFORE_MONTH 0
                   + b2z ((2 <? month) && leap) in
  let '(m, d) :=
    if n <? preceding
    then (month - 1,
          n - (preceding - (nth (Z.to_nat (month - 1)) DAYS_IN_MONTH 0
                            + b2z ((month - 1 =? 2) && leap))) + 1)
    else (month, n - preceding + 1) in
  (1 <=? m) && (m <=? 12) && (1 <=? d) && (d <=? 31)
  && (nth (Z.to_nat m) DAYS_BEFORE_MONTH 0 + b2z ((2 <? m) && leap) + d =? n + 1).

(** * Properties *)

(** ** The library model on known values *)

Example sha256_abc :
  SHA256.hexdigest (py "abc")
  = py "ba7816bf8f01cfea414140de5dae2223b00361a396177a9cb410ff61f20015ad".
Proof. vm_compute. reflexivity. Qed.

Example sha256_two_blocks :
  SHA256.hexdigest
    (py "abcdbcdecdefdefgefghfghighijhijkijkljklmklmnlmnomnopnopq")
  = py "248d6a61d20638b8e5c026930c3e6039a33ce45964ff2167f6ecedd419db06c1".
Proof. vm_compute. reflexivity. Qed.

Example isoformat_whole_second :
  isoformat Sample.T0 = py "2024-01-15T10:30:00".
Proof. vm_compute. reflexivity. Qed.

Example isoformat_microseconds :
  isoformat (Sample.T0 + 44 * US_PER_DAY + 5)
  = py "2024-02-28T10:30:00.000005".
Proof. vm_compute. reflexivity. Qed.

(** The dictionary with keys b (None) and a (e-acute, quote, newline),
    keys sorted. *)
Example dumps_sorted_escapes :
  Json.dumps_sorted [(py "b", Json.Null); (py "a", Json.Str [233; 34; 10])]
  = [123; 34; 97; 34; 58; 32; 34; 92; 117; 48; 48; 101; 57; 92; 34; 92; 110; 34; 44; 32; 34; 98; 34; 58; 32; 110; 117; 108; 108; 125].
Proof. vm_compute. reflexivity. Qed.

Example utf8_two_to_four_bytes :
  str_encode [233; 8364; 128512] = inr [195; 169; 226; 130; 172; 240; 159; 152; 128].
Proof. vm_compute. reflexivity. Qed.

(** Half a minute, and a delay that rounds to a whole microsecond. *)
Example timedelta_minutes_negative_power :
  timedelta_minutes_pow2 (-1) = inr 30000000 /\
  timedelta_minutes_pow2 (-9) = inr 117188.
Proof. vm_compute. split; reflexivity. Qed.

(** From 2^34 seconds on, the float of [total_seconds] can round a
    duration up to the next second. *)
Example int_total_seconds_rounds_up :
  int_total_seconds (2 ^ 34 * US_PER_SECOND + 999999) = 2 ^ 34 + 1.
Proof. vm_compute. reflexivity. Qed.

(** ** Dates and time spans *)

Lemma timedelta_days_ok (d : Z) :
  Z.abs d <= MAX_DELTA_DAYS -> timedelta_days d = inr (d * US_PER_DAY).
Proof.
  intros H. unfold timedelta_days, timedelta_of_us.
  rewrite Z.div_mul by (unfold US_PER_DAY, US_PER_SECOND; lia).
  destruct (Z.gtb_spec (Z.abs d) MAX_DELTA_DAYS); [lia | reflexivity].
Qed.

Lemma datetime_add_ok (t delta : Z) :
  valid_datetime (t + delta) -> datetime_add t delta = inr (t + delta).
Proof.
  unfold valid_datetime, datetime_add. intros [H1 H2].
  destruct (Z.leb_spec 0 (t + delta)); [| lia].
  destruct (Z.ltb_spec (t + delta) MAX_US); [reflexivity | lia].
Qed.

Lemma valid_days_bound (t d : Z) :
  valid_datetime t -> valid_datetime (t + d * US_PER_DAY) ->
  Z.abs d <= MAX_DELTA_DAYS.
Proof.
  unfold valid_datetime, MAX_US, MAXORDINAL, MAX_DELTA_DAYS, US_PER_DAY, US_PER_SECOND.
  lia.
Qed.

(** *** Durations *)

Lemma round_half_even_cases (a b : Z) :
  0 < b ->
  (round_half_even a b = a / b /\ 2 * (a mod b) <= b) \/
  (round_half_even a b = a / b + 1 /\ b <= 2 * (a mod b)).
Proof.
  intros Hb. unfold round_half_even.
  destruct (Z.ltb_spec (2 * (a mod b)) b); [left; lia |].
  destruct (Z.ltb_spec b (2 * (a mod b))); [right; lia |].
  destruct (Z.even (a / b)); [left | right]; lia.
Qed.

(** Scaling by [P] before rounding and dividing by [P] afterwards
    recovers the floor when [P] is more than half the divisor. *)
Lemma round_half_even_scaled (n b P : Z) :
  0 <= n -> 0 < b -> 0 < P -> b < 2 * P ->
  round_half_even (n * P) b / P = n / b.
Proof.
  intros Hn Hb HP HbP.
  pose proof (Z.div_mod n b ltac:(lia)) as Hq.
  pose proof (Z.mod_pos_bound n b Hb) as Hr.
  pose proof (Z.div_mod (n * P) b ltac:(lia)) as HQ.
  pose proof (Z.mod_pos_bound (n * P) b Hb) as HR.
  set (q := n / b) in *. set (r := n mod b) in *.
  set (Q := (n * P) / b) in *. set (R := (n * P) mod b) in *.
  assert (HqP : q * P <= Q) by nia.
  assert (HQu : Q <= (q + 1) * P - 1) by nia.
  symmetry. apply Z.div_unique_pos with (r := round_half_even (n * P) b - q * P).
  2: lia.
  destruct (round_half_even_cases (n * P) b Hb) as [[-> _] | [-> H2]].
  - fold Q. lia.
  - fold Q. fold R in H2. split; [lia |].
    assert (Q < (q + 1) * P - 1 \/ Q = (q + 1) * P - 1) as [|HQe] by lia; [lia |].
    exfalso. nia.
Qed.

Lemma int_total_seconds_floor (n : Z) :
  0 <= n < 2 ^ 34 * US_PER_SECOND ->
  int_total_seconds n = n / US_PER_SECOND.
Proof.
  intros [H0 Hn]. unfold int_total_seconds, int_true_divide.
  destruct (Z.eqb_spec n 0) as [-> | Hne]; [reflexivity |].
  assert (Hpos : 0 < n) by lia.
  rewrite (Z.abs_eq n) by lia. rewrite (Z.sgn_pos n) by lia. rewrite Z.mul_1_l.
  replace (Z.log2 US_PER_SECOND) with 19 by reflexivity.
  pose proof (Z.log2_spec n Hpos) as [Hl1 Hl2].
  pose proof (Z.log2_nonneg n) as Hl0.
  assert (Hl53 : Z.log2 n < 54).
  { apply Z.log2_lt_pow2; [lia |].
    eapply Z.lt_trans; [exact Hn |]. reflexivity. }
  set (l := Z.log2 n) in *.
  set (j := - (l - 19 - 52)).
  assert (Hj : 18 <= j) by (unfold j; lia).
  destruct (Z.leb_spec 0 (l - 19 - 52)); [lia |].
  fold j.
  assert (Hfin : forall k, 19 <= k ->
     round_half_even (n * 2 ^ k) US_PER_SECOND / 2 ^ k = n / US_PER_SECOND).
  { intros k Hk.
    assert (H19 : 2 ^ 19 <= 2 ^ k) by (apply Z.pow_le_mono_r; lia).
    change (2 ^ 19) with 524288 in H19.
    apply round_half_even_scaled; change US_PER_SECOND with 1000000; lia. }
  destruct (Z.leb_spec (2 ^ 52 * US_PER_SECOND) (n * 2 ^ j)) as [Hc | Hc].
  - destruct (Z.leb_spec 0 (l - 19 - 52)); [lia |]. fold j.
    apply Hfin.
    assert (2 ^ 18 < 2 ^ j).
    { change US_PER_SECOND with 1000000 in *.
      assert (0 < 2 ^ j) by (apply Z.pow_pos_nonneg; lia).
      change (2 ^ 52) with (2 ^ 34 * 2 ^ 18) in Hc. nia. }
    assert (18 < j) by (apply (Z.pow_lt_mono_r_iff 2); lia). lia.
  - destruct (Z.leb_spec 0 (l - 19 - 52 - 1)); [lia |].
    replace (- (l - 19 - 52 - 1)) with (j + 1) by (unfold j; lia).
    apply Hfin. lia.
Qed.

(** ** The calendar *)

Lemma forallb_below (P : Z -> bool) (n : nat) :
  forallb P (map Z.of_nat (seq 0 n)) = true ->
  forall x, 0 <= x < Z.of_nat n -> P x = true.
Proof.
  intros H x Hx. rewrite forallb_forall in H. apply H.
  apply in_map_iff. exists (Z.to_nat x). split; [lia |].
  apply in_seq. lia.
Qed.

Lemma month_day_ok_all (leap : bool) (n : Z) :
  0 <= n <= 364 -> month_day_ok leap n = true.
Proof.
  intros Hn. revert n Hn.
  assert (H : forall x, 0 <= x < Z.of_nat 365 -> month_day_ok leap x = true).
  { apply forallb_below. destruct leap; vm_compute; reflexivity. }
  intros n Hn. apply H. lia.
Qed.

Lemma ord2ymd_spec (n : Z) :
  1 <= n <= MAXORDINAL ->
  let '(y, m, d) := ord2ymd n in
  ymd2ord y m d = n /\ 1 <= y <= 9999 /\ 1 <= m <= 12 /\ 1 <= d <= 31.
Proof.
  unfold MAXORDINAL. intros Hn. unfold ord2ymd, DI400Y, DI100Y, DI4Y.
  set (n0 := n - 1).
  set (n400 := n0 / 146097). set (r400 := n0 mod 146097).
  set (n100 := r400 / 36524). set (r100 := r400 mod 36524).
  set (n4 := r100 / 1461). set (r4 := r100 mod 1461).
  set (n1 := r4 / 365). set (r1 := r4 mod 365).
  assert (E400 : n0 = 146097 * n400 + r400 /\ 0 <= r400 < 146097)
    by (subst n400 r400; split; [apply Z.div_mod | apply Z.mod_pos_bound]; lia).
  assert (E100 : r400 = 36524 * n100 + r100 /\ 0 <= r100 < 36524)
    by (subst n100 r100; split; [apply Z.div_mod | apply Z.mod_pos_bound]; lia).
  assert (E4 : r100 = 1461 * n4 + r4 /\ 0 <= r4 < 1461)
    by (subst n4 r4; split; [apply Z.div_mod | apply Z.mod_pos_bound]; lia).
  assert (E1 : r4 = 365 * n1 + r1 /\ 0 <= r1 < 365)
    by (subst n1 r1; split; [apply Z.div_mod | apply Z.mod_pos_bound]; lia).
  assert (Hn0 : 0 <= n0 <= 3652058) by (subst n0; lia).
  clearbody n400 r400 n100 r100 n4 r4 n1 r1.
  destruct E400 as [E400 B400], E100 as [E100 B100], E4 as [E4 B4], E1 as [E1 B1].
  assert (0 <= n400 <= 24) by lia.
  assert (0 <= n100 <= 4) by lia.
  assert (0 <= n4 <= 24) by lia.
  assert (0 <= n1 <= 4) by lia.
  destruct ((n1 =? 4) || (n100 =? 4)) eqn:Hlast.
  - (* the last day of a leap year *)
    set (Y := n400 * 400 + 1 + n100 * 100 + n4 * 4 + n1 - 1).
    assert (HY : (n100 = 4 /\ Y = 400 * (n400 + 1) /\ n = 146097 * (n400 + 1)) \/
                 (n100 <= 3 /\ n4 <= 23 /\ n1 = 4 /\ r1 = 0 /\
                  Y = 400 * n400 + 100 * n100 + 4 * n4 + 4)).
    { apply orb_true_iff in Hlast. rewrite !Z.eqb_eq in Hlast. subst Y n0. lia. }
    assert (Hleap : is_leap Y = true).
    { unfold is_leap.
      repeat match goal with
             | |- context [?a mod ?b =? 0] => destruct (Z.eqb_spec (a mod b) 0)
             end; simpl; try reflexivity; exfalso;
        Z.div_mod_to_equations; lia. }
    unfold ymd2ord, days_before_year, days_before_month. rewrite Hleap.
    change (nth (Z.to_nat 12) DAYS_BEFORE_MONTH 0) with 334.
    change (b2z ((2 <? 12) && true)) with 1.
    split; [| lia]. subst n0. Z.div_mod_to_equations. lia.
  - apply orb_false_iff in Hlast. destruct Hlast as [Hn1 Hn100].
    apply Z.eqb_neq in Hn1, Hn100.
    set (leap := (n1 =? 3) && (negb (n4 =? 24) || (n100 =? 3))).
    set (Y := n400 * 400 + 1 + n100 * 100 + n4 * 4 + n1).
    pose proof (month_day_ok_all leap r1 ltac:(lia)) as Hmd.
    unfold month_day_ok in Hmd.
    set (month := Z.shiftr (r1 + 50) 5) in *.
    set (preceding := nth (Z.to_nat month) DAYS_BEFORE_MONTH 0
                      + b2z ((2 <? month) && leap)) in *.
    assert (Hleap : is_leap Y = leap).
    { unfold is_leap, leap, Y.
      destruct (Z.eqb_spec n1 3), (Z.eqb_spec n4 24), (Z.eqb_spec n100 3);
        simpl;
        repeat match goal with
               | |- context [?a mod ?b =? 0] => destruct (Z.eqb_spec (a mod b) 0)
               end; simpl; try reflexivity; exfalso;
        Z.div_mod_to_equations; lia. }
    assert (Hdby : days_before_year Y = n0 - r1).
    { unfold days_before_year, Y. Z.div_mod_to_equations. lia. }
    destruct (r1 <? preceding);
      repeat (apply andb_true_iff in Hmd; destruct Hmd as [Hmd ?]);
      unfold ymd2ord, days_before_month; rewrite Hleap, Hdby;
      fold Y; subst n0; split; try lia; unfold Y; lia.
Qed.

Lemma dec_length (w : nat) (n : Z) : length (dec w n) = w.
Proof.
  revert n. induction w as [| w IH]; intros n; simpl; [reflexivity |].
  rewrite length_app, IH. simpl. lia.
Qed.

Lemma dec_inj (w : nat) (n n' : Z) :
  0 <= n < 10 ^ Z.of_nat w -> 0 <= n' < 10 ^ Z.of_nat w ->
  dec w n = dec w n' -> n = n'.
Proof.
  revert n n'. induction w as [| w IH]; intros n n' Hn Hn' H.
  - simpl in Hn, Hn'. lia.
  - simpl in H. apply app_inj_tail in H as [H1 H2].
    rewrite Nat2Z.inj_succ, Z.pow_succ_r in Hn, Hn' by lia.
    assert (n / 10 = n' / 10).
    { apply IH; [| | assumption]; Z.div_mod_to_equations; lia. }
    assert (n mod 10 = n' mod 10) by lia.
    Z.div_mod_to_equations; lia.
Qed.

Local Opaque dec.

(** [isoformat] determines the datetime. *)
Lemma isoformat_inj (t1 t2 : datetime) :
  valid_datetime t1 -> valid_datetime t2 ->
  isoformat t1 = isoformat t2 -> t1 = t2.
Proof.
  unfold valid_datetime, MAX_US. intros V1 V2.
  assert (O1 : 1 <= t1 / US_PER_DAY + 1 <= MAXORDINAL)
    by (unfold US_PER_DAY, US_PER_SECOND, MAXORDINAL in *;
        Z.div_mod_to_equations; lia).
  assert (O2 : 1 <= t2 / US_PER_DAY + 1 <= MAXORDINAL)
    by (unfold US_PER_DAY, US_PER_SECOND, MAXORDINAL in *;
        Z.div_mod_to_equations; lia).
  pose proof (ord2ymd_spec _ O1) as S1. pose proof (ord2ymd_spec _ O2) as S2.
  unfold isoformat.
  destruct (ord2ymd (t1 / US_PER_DAY + 1)) as [[y1 m1] d1].
  destruct (ord2ymd (t2 / US_PER_DAY + 1)) as [[y2 m2] d2].
  destruct S1 as (E1 & Y1 & M1 & D1), S2 as (E2 & Y2 & M2 & D2).
  assert (R1 : 0 <= t1 mod US_PER_DAY < US_PER_DAY)
    by (apply Z.mod_pos_bound; reflexivity).
  assert (R2 : 0 <= t2 mod US_PER_DAY < US_PER_DAY)
    by (apply Z.mod_pos_bound; reflexivity).
  set (r1 := t1 mod US_PER_DAY) in *. set (r2 := t2 mod US_PER_DAY) in *.
  intros H.
  apply app_inj_1 in H as [Hy H]; [| now rewrite !dec_length].
  apply (app_inv_head [45]) in H.
  apply app_inj_1 in H as [Hm H]; [| now rewrite !dec_length].
  apply (app_inv_head [45]) in H.
  apply app_inj_1 in H as [Hd H]; [| now rewrite !dec_length].
  apply (app_inv_head [84]) in H.
  apply app_inj_1 in H as [Hhh H]; [| now rewrite !dec_length].
  apply (app_inv_head [58]) in H.
  apply app_inj_1 in H as [Hmm H]; [| now rewrite !dec_length].
  apply (app_inv_head [58]) in H.
  apply app_inj_1 in H as [Hss H]; [| now rewrite !dec_length].
  apply dec_inj in Hy; [| simpl; lia ..].
  apply dec_inj in Hm; [| simpl; lia ..].
  apply dec_inj in Hd; [| simpl; lia ..].
  assert (Hord : t1 / US_PER_DAY = t2 / US_PER_DAY) by (subst; lia).
  clear E1 E2.
  unfold US_PER_DAY, US_PER_MINUTE, US_PER_SECOND in *.
  apply dec_inj in Hhh; [| simpl; Z.div_mod_to_equations; lia ..].
  apply dec_inj in Hmm; [| simpl; Z.div_mod_to_equations; lia ..].
  apply dec_inj in Hss; [| simpl; Z.div_mod_to_equations; lia ..].
  assert (Hus : r1 mod 1000000 = r2 mod 1000000).
  { destruct (Z.eqb_spec (r1 mod 1000000) 0) as [Z1 |],
             (Z.eqb_spec (r2 mod 1000000) 0) as [Z2 |];
      try discriminate; [congruence |].
    apply (f_equal (@tl Z)) in H. simpl in H.
    apply dec_inj in H; [assumption | |];
      simpl; Z.div_mod_to_equations; lia. }
  assert (Hr : r1 = r2) by (Z.div_mod_to_equations; lia).
  subst r1 r2. Z.div_mod_to_equations; lia.
Qed.

Local Transparent dec.

(** ** The JSON text *)

Import Json.

Lemma unhexdigit_hexdigit (d : Z) :
  0 <= d < 16 -> unhexdigit (hexdigit d) = d.
Proof.
  intros Hd. unfold unhexdigit, hexdigit.
  destruct (Z.ltb_spec d 10).
  - destruct (Z.ltb_spec (48 + d) 58); lia.
  - destruct (Z.ltb_spec (87 + d) 58); lia.
Qed.

Lemma unhex4_hex4 (n : Z) (rest : pystr) :
  0 <= n < 65536 -> unhex4 (hex4 n ++ rest) = Some (n, rest).
Proof.
  intros Hn. unfold hex4. cbn [app unhex4].
  rewrite !unhexdigit_hexdigit by (apply Z.mod_pos_bound; lia).
  f_equal. f_equal. Z.div_mod_to_equations. lia.
Qed.

(** The two halves of a surrogate pair, in arithmetic. *)
Lemma lor_surrogate (base y : Z) :
  (base = 0xd800 \/ base = 0xdc00) -> 0 <= y < 1024 ->
  Z.lor base y = base + y.
Proof.
  intros Hb Hy.
  assert (H : forall x, 0 <= x < Z.of_nat 1024 ->
                        (Z.lor 0xd800 x =? 0xd800 + x)
                        && (Z.lor 0xdc00 x =? 0xdc00 + x) = true).
  { apply forallb_below. vm_compute. reflexivity. }
  specialize (H y ltac:(lia)). apply andb_true_iff in H as [H1 H2].
  apply Z.eqb_eq in H1, H2. destruct Hb; subst; assumption.
Qed.

Lemma surrogate_pair (c : Z) :
  0x10000 <= c <= 0x10FFFF ->
  let n := c - 0x10000 in
  Z.lor 0xd800 (Z.land (Z.shiftr n 10) 0x3ff) = 0xd800 + n / 1024 /\
  Z.lor 0xdc00 (Z.land n 0x3ff) = 0xdc00 + n mod 1024 /\
  0 <= n / 1024 < 1024.
Proof.
  intros Hc n.
  assert (Hn : 0 <= n < 1048576) by (unfold n; lia).
  change 0x3ff with (Z.ones 10).
  rewrite !Z.land_ones by lia. rewrite Z.shiftr_div_pow2 by lia.
  change (2 ^ 10) with 1024.
  assert (Hq : 0 <= n / 1024 < 1024) by (Z.div_mod_to_equations; lia).
  rewrite (Z.mod_small (n / 1024)) by lia.
  rewrite !lor_surrogate; auto.
  apply Z.mod_pos_bound. lia.
Qed.

Lemma low_surrogate_u (n : Z) (rest : pystr) :
  0 <= n < 65536 ->
  low_surrogate ((92 :: 117 :: hex4 n) ++ rest)
  = if (0xdc00 <=? n) && (n <=? 0xdfff) then Some (n, rest) else None.
Proof.
  intros Hn.
  change ((92 :: 117 :: hex4 n) ++ rest) with (92 :: 117 :: (hex4 n ++ rest)).
  unfold low_surrogate. change ((92 =? 92) && (117 =? 117)) with true.
  cbv iota. rewrite unhex4_hex4 by assumption. reflexivity.
Qed.

Lemma unescape_u (n : Z) (rest : pystr) :
  0 <= n < 65536 ->
  unescape_char ((92 :: 117 :: hex4 n) ++ rest)
  = if (0xd800 <=? n) && (n <=? 0xdbff)
    then match low_surrogate rest with
         | Some (n2, rest2) =>
             Some (0x10000 + (n - 0xd800) * 1024 + (n2 - 0xdc00), rest2)
         | None => Some (n, rest)
         end
    else Some (n, rest).
Proof.
  intros Hn.
  change ((92 :: 117 :: hex4 n) ++ rest) with (92 :: 117 :: (hex4 n ++ rest)).
  unfold unescape_char. change (92 =? 92) with true. change (117 =? 117) with true.
  cbv iota. rewrite unhex4_hex4 by assumption. reflexivity.
Qed.

Lemma unescape_escape_char (c : Z) (rest : pystr) :
  scalar c -> unescape_char (escape_char c ++ rest) = Some (c, rest).
Proof.
  intros Hc. unfold scalar in Hc. unfold escape_char.
  repeat match goal with
         | |- context [if ?x =? ?y then _ else _] =>
             destruct (Z.eqb_spec x y); [subst; reflexivity |]
         end.
  assert (Hbmp : c < 0x10000 -> (c < 32 \/ 126 < c) ->
                 unescape_char ((92 :: 117 :: hex4 c) ++ rest) = Some (c, rest)).
  { intros H1 H2. rewrite unescape_u by lia.
    destruct (Z.leb_spec 0xd800 c); simpl; [| reflexivity].
    destruct (Z.leb_spec c 0xdbff); [lia | reflexivity]. }
  destruct (Z.leb_spec 32 c); simpl andb.
  2: { destruct (Z.ltb_spec c 0x10000); [| lia]. apply Hbmp; lia. }
  destruct (Z.leb_spec c 126).
  - simpl. destruct (Z.eqb_spec c 92); [lia |].
    destruct (Z.eqb_spec c 34); [lia | reflexivity].
  - destruct (Z.ltb_spec c 0x10000); [apply Hbmp; lia |].
    assert (Hr : 0x10000 <= c <= 0x10FFFF) by lia.
    destruct (surrogate_pair c Hr) as (-> & -> & Hq).
    set (v := c - 0x10000) in *.
    assert (Hm : 0 <= v mod 1024 < 1024) by (apply Z.mod_pos_bound; lia).
    rewrite <- app_assoc. rewrite unescape_u by lia.
    destruct (Z.leb_spec 0xd800 (0xd800 + v / 1024)); [| lia].
    destruct (Z.leb_spec (0xd800 + v / 1024) 0xdbff); [| lia].
    simpl andb. cbv iota. rewrite low_surrogate_u by lia.
    destruct (Z.leb_spec 0xdc00 (0xdc00 + v mod 1024)); [| lia].
    destruct (Z.leb_spec (0xdc00 + v mod 1024) 0xdfff); [| lia].
    simpl andb. cbv iota. f_equal. f_equal.
    unfold v. Z.div_mod_to_equations. lia.
Qed.

Lemma unescape_quote (rest : pystr) : unescape_char (34 :: rest) = None.
Proof. reflexivity. Qed.

(** The escaped text of a string, up to the closing quote, determines the
    string and what follows the quote. *)
Lemma escape_inj (s1 s2 r1 r2 : pystr) :
  scalar_str s1 -> scalar_str s2 ->
  escape s1 ++ 34 :: r1 = escape s2 ++ 34 :: r2 ->
  s1 = s2 /\ r1 = r2.
Proof.
  unfold scalar_str, escape. intros H1. revert s2.
  induction H1 as [| c1 s1 Hc1 Hs1 IH]; intros s2 H2 H;
    destruct H2 as [| c2 s2 Hc2 Hs2]; simpl in H.
  - split; congruence.
  - exfalso. apply (f_equal unescape_char) in H.
    rewrite unescape_quote, <- app_assoc, unescape_escape_char in H by assumption.
    discriminate.
  - exfalso. apply (f_equal unescape_char) in H.
    rewrite unescape_quote, <- app_assoc, unescape_escape_char in H by assumption.
    discriminate.
  - apply (f_equal unescape_char) in H.
    rewrite <- !app_assoc, !unescape_escape_char in H by assumption.
    injection H as -> H. destruct (IH s2 Hs2 H) as [-> ->]. split; reflexivity.
Qed.

Lemma encode_str_inj (s1 s2 r1 r2 : pystr) :
  scalar_str s1 -> scalar_str s2 ->
  encode_str s1 ++ r1 = encode_str s2 ++ r2 -> s1 = s2 /\ r1 = r2.
Proof.
  intros H1 H2 H. unfold encode_str in H. simpl in H.
  rewrite <- !app_assoc in H. simpl in H. injection H as H.
  now apply escape_inj.
Qed.

Lemma encode_value_inj (v1 v2 : value) (r1 r2 : pystr) :
  scalar_value v1 -> scalar_value v2 ->
  encode_value v1 ++ r1 = encode_value v2 ++ r2 -> v1 = v2 /\ r1 = r2.
Proof.
  intros H1 H2 H. destruct v1 as [| s1], v2 as [| s2].
  - split; [reflexivity |]. now apply app_inv_head in H.
  - discriminate.
  - discriminate.
  - apply encode_str_inj in H as [-> ->]; auto.
Qed.

(** *** The text is ASCII *)

Lemma hexdigit_ascii (n : Z) : 0 <= hexdigit (n mod 16) < 128.
Proof.
  pose proof (Z.mod_pos_bound n 16 ltac:(lia)).
  unfold hexdigit. destruct (Z.ltb_spec (n mod 16) 10); lia.
Qed.

Lemma hex4_ascii (n : Z) : ascii_str (hex4 n).
Proof. unfold hex4. repeat constructor; apply hexdigit_ascii. Qed.

Lemma escape_char_ascii (c : Z) : ascii_str (escape_char c).
Proof.
  unfold escape_char.
  repeat match goal with
         | |- context [if ?x =? ?y then _ else _] =>
             destruct (Z.eqb_spec x y); [repeat constructor; lia |]
         end.
  destruct (Z.leb_spec 32 c), (Z.leb_spec c 126); simpl andb; cbv iota;
    try (repeat constructor; lia);
    destruct (Z.ltb_spec c 0x10000);
    repeat first [apply Forall_app; split | apply Forall_cons; split; [lia |]
                 | apply hex4_ascii | solve [constructor]].
Qed.

Lemma escape_ascii (s : pystr) : ascii_str (escape s).
Proof.
  unfold escape. induction s as [| c s IH]; simpl; [constructor |].
  apply Forall_app. split; [apply escape_char_ascii | exact IH].
Qed.

Lemma encode_str_ascii (s : pystr) : ascii_str (encode_str s).
Proof.
  unfold encode_str. apply Forall_cons. split; [lia |].
  apply Forall_app. split; [apply escape_ascii | repeat constructor; lia].
Qed.

Lemma encode_value_ascii (v : value) : ascii_str (encode_value v).
Proof.
  destruct v; [repeat constructor; simpl; lia | apply encode_str_ascii].
Qed.

Lemma encode_item_ascii (kv : pystr * value) : ascii_str (encode_item kv).
Proof.
  unfold encode_item. apply Forall_app. split; [apply encode_str_ascii |].
  apply Forall_app. split; [repeat constructor; simpl; lia | apply encode_value_ascii].
Qed.

Lemma join_items_ascii (l : dict) : ascii_str (join_items l).
Proof.
  induction l as [| kv l IH]; [constructor |].
  destruct l as [| kv' l']; [apply encode_item_ascii |].
  change (ascii_str (encode_item kv ++ py ", " ++ join_items (kv' :: l'))).
  apply Forall_app. split; [apply encode_item_ascii |].
  apply Forall_app. split; [repeat constructor; simpl; lia | exact IH].
Qed.

Lemma dumps_sorted_ascii (d : dict) : ascii_str (dumps_sorted d).
Proof.
  unfold dumps_sorted. apply Forall_app. split; [repeat constructor; simpl; lia |].
  apply Forall_app. split; [apply join_items_ascii | repeat constructor; simpl; lia].
Qed.

(** An ASCII string is its own UTF-8 encoding. *)
Lemma str_encode_ascii (s : pystr) : ascii_str s -> str_encode s = inr s.
Proof.
  induction 1 as [| c s Hc Hs IH]; [reflexivity |].
  simpl. unfold utf8_char. destruct (Z.ltb_spec c 0x80); [| lia].
  rewrite IH. reflexivity.
Qed.

Lemma dec_digits (w : nat) (n : Z) : Forall (fun x => 48 <= x <= 57) (dec w n).
Proof.
  revert n. induction w as [| w IH]; intros n; simpl; [constructor |].
  apply Forall_app. split; [apply IH |].
  repeat constructor; pose proof (Z.mod_pos_bound n 10 ltac:(lia)); lia.
Qed.

Lemma isoformat_scalar (t : datetime) : scalar_str (isoformat t).
Proof.
  assert (Hd : forall w n, scalar_str (dec w n)).
  { intros w n. eapply Forall_impl; [apply dec_digits |].
    intros x Hx. unfold scalar. simpl in Hx. lia. }
  assert (Hc : forall c s, 0 <= c < 128 -> scalar_str s -> scalar_str (c :: s)).
  { intros c s Hc Hs. apply Forall_cons. split; [unfold scalar; lia | exact Hs]. }
  unfold isoformat. destruct (ord2ymd (t / US_PER_DAY + 1)) as [[y m] d].
  repeat first [apply Hd | apply Hc; [lia |] | apply Forall_app; split
               | solve [constructor]].
  destruct (t mod US_PER_DAY mod US_PER_SECOND =? 0);
    [constructor | apply Hc; [lia | apply Hd]].
Qed.

(** ** Credential *)

Import Credential.

Lemma mark_rotated_run (c : Credential.t) (w : World) :
  let t1 := clock w (reads w) in
  let t2 := clock w (S (reads w)) in
  Z.abs (rotation_frequency_days c) <= MAX_DELTA_DAYS ->
  valid_datetime (t2 + rotation_frequency_days c * US_PER_DAY) ->
  mark_rotated (Frame c w) = Return tt (Frame (rotated t1 t2 c) (tick (tick w))).
Proof.
  intros t1 t2 Hd Hv.
  unfold mark_rotated, schedule_rotation, bind, utcnow, setattr, getattr, now; simpl.
  rewrite (timedelta_days_ok _ Hd). simpl.
  fold t2. rewrite (datetime_add_ok _ _ Hv). reflexivity.
Qed.



(** *** The due predicate and the status *)

(** C6 (as the code has it).  [needs_rotation] returns [True] exactly
    when [auto_rotation_enabled] is set and [next_rotation_date] is unset
    or not after the clock reading, whatever the status of the credential;
    with [auto_rotation_enabled = False] it returns [False].  It leaves
    the credential as it was. *)
Theorem needs_rotation_iff (c : Credential.t) (w : World) :
  exists (b : bool) (w' : World),
    needs_rotation (Frame c w) = Return b (Frame c w') /\
    (b = true <->
     auto_rotation_enabled c = true /\
     (next_rotation_date c = None \/
      exists d, next_rotation_date c = Some d /\ d <= now w)) /\
    (auto_rotation_enabled c = false -> b = false).
Proof.
  unfold needs_rotation, bind, getattr, utcnow, ret; simpl.
  destruct (auto_rotation_enabled c); simpl.
  - destruct (next_rotation_date c) as [d |]; simpl.
    + exists (d <=? now w), (tick w). split; [reflexivity |]. split; [| discriminate].
      rewrite Z.leb_le. split.
      * intros H. split; [reflexivity |]. right. exists d. auto.
      * intros [_ [H | (d' & H & Hd)]]; [discriminate | congruence].
    + exists true, w. split; [reflexivity |]. split; [| discriminate].
      split; auto.
  - exists false, w. split; [reflexivity |]. split; [| reflexivity].
    split; [discriminate | intros [H _]; discriminate].
Qed.

(** C6, counterexample: a revoked credential with auto rotation enabled
    and no next rotation date is reported as needing rotation. *)
Lemma needs_rotation_revoked :
  Credential.status (Sample.credential REVOKED 90 true None) <> ACTIVE /\
  needs_rotation (Frame (Sample.credential REVOKED 90 true None)
                        (Sample.frozen Sample.T0))
  = Return true (Frame (Sample.credential REVOKED 90 true None)
                       (Sample.frozen Sample.T0)).
Proof. split; [discriminate | reflexivity]. Qed.

(** C7 (as the code has it).  [mark_rotated] does not look at the status:
    for a credential in any status, when the frequency fits a [timedelta]
    and the new date is within the years 1..9999, it returns normally,
    sets [last_rotated] to the first clock reading, adds one to
    [rotation_count], sets [next_rotation_date] to the second reading plus
    the frequency and clears [notification_sent], and the status stays as
    it was. *)
Theorem mark_rotated_any_status (c : Credential.t) (w : World)
  (Hfreq : Z.abs (rotation_frequency_days c) <= MAX_DELTA_DAYS)
  (Hnext : valid_datetime (clock w (S (reads w))
                           + rotation_frequency_days c * US_PER_DAY)) :
  exists c' : Credential.t,
    mark_rotated (Frame c w) = Return tt (Frame c' (tick (tick w))) /\
    last_rotated c' = Some (clock w (reads w)) /\
    rotation_count c' = rotation_count c + 1 /\
    next_rotation_date c'
    = Some (clock w (S (reads w)) + rotation_frequency_days c * US_PER_DAY) /\
    notification_sent c' = false /\
    Credential.status c' = Credential.status c.
Proof.
  exists (rotated (clock w (reads w)) (clock w (S (reads w))) c).
  split; [now apply mark_rotated_run | repeat split].
Qed.

Lemma mark_rotated_any_status_witness :
  Z.abs 90 <= MAX_DELTA_DAYS /\
  valid_datetime (Sample.T0 + 1 + 90 * US_PER_DAY) /\
  exists c' : Credential.t,
    mark_rotated (Frame (Sample.credential REVOKED 90 true None)
                        (Sample.ticking Sample.T0 1))
    = Return tt (Frame c' (tick (tick (Sample.ticking Sample.T0 1)))) /\
    last_rotated c' = Some Sample.T0 /\
    rotation_count c' = 1 /\
    next_rotation_date c' = Some (Sample.T0 + 1 + 90 * US_PER_DAY) /\
    notification_sent c' = false /\
    Credential.status c' = REVOKED.
Proof.
  split; [vm_compute; discriminate |].
  split; [vm_compute; split; [discriminate | reflexivity] |].
  apply (mark_rotated_any_status (Sample.credential REVOKED 90 true None)
           (Sample.ticking Sample.T0 1)).
  - vm_compute; discriminate.
  - vm_compute; split; [discriminate | reflexivity].
Defined.

(** C7, counterexample: marking a revoked credential rotated returns
    normally and changes its rotation fields. *)
Lemma mark_rotated_revoked :
  match mark_rotated (Frame (Sample.credential REVOKED 90 true None)
                            (Sample.frozen Sample.T0)) with
  | Return _ f =>
      Credential.status (self f) = REVOKED /\
      rotation_count (self f) = 1 /\
      rotation_count (Sample.credential REVOKED 90 true None) = 0 /\
      last_rotated (self f) = Some Sample.T0 /\
      last_rotated (Sample.credential REVOKED 90 true None) = None
  | Raise _ _ => False
  end.
Proof. vm_compute. repeat split. Qed.

(** C9 (as the code has it).  When [rotation_frequency_days] is at least
    1 and the clock does not run backwards between the two readings of
    the call, the [next_rotation_date] that [mark_rotated] sets is
    strictly after the completion time it records in [last_rotated]. *)
Theorem next_rotation_in_future (c : Credential.t) (w : World)
  (Hfreq : 1 <= rotation_frequency_days c)
  (Hclock : clock w (reads w) <= clock w (S (reads w)))
  (Hnow : valid_datetime (clock w (S (reads w))))
  (Hnext : valid_datetime (clock w (S (reads w))
                           + rotation_frequency_days c * US_PER_DAY)) :
  exists (c' : Credential.t) (T N : datetime),
    mark_rotated (Frame c w) = Return tt (Frame c' (tick (tick w))) /\
    T = clock w (reads w) /\
    last_rotated c' = Some T /\
    next_rotation_date c' = Some N /\
    T < N.
Proof.
  exists (rotated (clock w (reads w)) (clock w (S (reads w))) c),
    (clock w (reads w)),
    (clock w (S (reads w)) + rotation_frequency_days c * US_PER_DAY).
  split.
  - apply mark_rotated_run; [| assumption].
    now apply (valid_days_bound (clock w (S (reads w)))).
  - repeat split. unfold US_PER_DAY, US_PER_SECOND. lia.
Qed.

Lemma next_rotation_in_future_witness :
  1 <= 30 /\
  Sample.T0 <= Sample.T0 + 1 /\
  valid_datetime (Sample.T0 + 1) /\
  valid_datetime (Sample.T0 + 1 + 30 * US_PER_DAY) /\
  exists (c' : Credential.t) (T N : datetime),
    mark_rotated (Frame (Sample.credential ACTIVE 30 true None)
                        (Sample.ticking Sample.T0 1))
    = Return tt (Frame c' (tick (tick (Sample.ticking Sample.T0 1)))) /\
    T = Sample.T0 /\
    last_rotated c' = Some T /\
    next_rotation_date c' = Some N /\
    T < N.
Proof.
  split; [lia |].
  split; [lia |].
  split; [vm_compute; split; [discriminate | reflexivity] |].
  split; [vm_compute; split; [discriminate | reflexivity] |].
  apply (next_rotation_in_future (Sample.credential ACTIVE 30 true None)
           (Sample.ticking Sample.T0 1)).
  - vm_compute; discriminate.
  - vm_compute; discriminate.
  - vm_compute; split; [discriminate | reflexivity].
  - vm_compute; split; [discriminate | reflexivity].
Defined.

(** C9, counterexample: a rotation frequency of -1 days is accepted, and
    the next rotation date then lies before the completion time. *)
Lemma next_rotation_in_past :
  match mark_rotated (Frame (Sample.credential ACTIVE (-1) true None)
                            (Sample.ticking Sample.T0 1)) with
  | Return _ f =>
      last_rotated (self f) = Some Sample.T0 /\
      next_rotation_date (self f) = Some (Sample.T0 + 1 - US_PER_DAY) /\
      Sample.T0 + 1 - US_PER_DAY < Sample.T0
  | Raise _ _ => False
  end.
Proof. vm_compute. repeat split. Qed.

(** ** CredentialRotation *)

Import CredentialRotation.

Lemma can_retry_run (r : CredentialRotation.t) (w : World) :
  can_retry (Frame r w)
  = Return (RotationStatus_eqb (status r) FAILED && (retry_count r <? max_retries r))
           (Frame r w).
Proof.
  unfold can_retry, bind, getattr; simpl.
  destruct (RotationStatus_eqb (status r) FAILED); reflexivity.
Qed.

Lemma calculate_duration_run (r : CredentialRotation.t) (w : World) :
  calculate_duration (Frame r w) = Return (duration_between (started_at r) (completed_at r)) (Frame r w).
Proof.
  unfold calculate_duration, bind, getattr, duration_between; simpl.
  destruct (started_at r); simpl; [destruct (completed_at r) |]; reflexivity.
Qed.

Lemma mark_started_run (r : CredentialRotation.t) (w : World) :
  mark_started (Frame r w)
  = Return tt (Frame (set_started_at (Some (now w)) (set_status IN_PROGRESS r)) (tick w)).
Proof. reflexivity. Qed.

Lemma mark_completed_run (p : pystr) (r : CredentialRotation.t) (w : World) :
  mark_completed p (Frame r w) = Return tt (Frame (completed p (now w) r) (tick w)).
Proof.
  unfold mark_completed, bind, setattr, utcnow; simpl.
  rewrite calculate_duration_run. reflexivity.
Qed.

Lemma mark_failed_exhausted (msg : pystr) (r : CredentialRotation.t) (w : World) :
  max_retries r <= retry_count r ->
  mark_failed msg (Frame r w) = Return tt (Frame (failed msg (now w) r) (tick w)).
Proof.
  intros H. unfold mark_failed, bind, setattr, utcnow; simpl.
  rewrite calculate_duration_run; simpl.
  destruct (Z.ltb_spec (retry_count r) (max_retries r)); [lia | reflexivity].
Qed.

Lemma mark_failed_retry (msg : pystr) (r : CredentialRotation.t) (w : World)
  (delay : timedelta) :
  retry_count r < max_retries r ->
  timedelta_minutes_pow2 (retry_count r + 1) = inr delay ->
  valid_datetime (clock w (S (reads w)) + delay) ->
  mark_failed msg (Frame r w)
  = Return tt (Frame (set_next_retry_at (Some (clock w (S (reads w)) + delay))
                        (set_retry_count (retry_count r + 1) (failed msg (now w) r)))
                     (tick (tick w))).
Proof.
  intros Hlt Hd Hv. unfold mark_failed, bind, setattr, utcnow; simpl.
  rewrite calculate_duration_run; simpl.
  destruct (Z.ltb_spec (retry_count r) (max_retries r)); [| lia].
  unfold getattr; simpl. rewrite Hd; simpl.
  unfold now; simpl. rewrite (datetime_add_ok _ _ Hv). reflexivity.
Qed.

Lemma timedelta_minutes_pow2_small (k : Z) :
  0 <= k <= 40 -> timedelta_minutes_pow2 k = inr (2 ^ k * US_PER_MINUTE).
Proof.
  intros [H0 H40]. unfold timedelta_minutes_pow2, timedelta_of_us.
  destruct (Z.leb_spec 0 k); [| lia].
  assert (2 ^ k <= 2 ^ 40) by (apply Z.pow_le_mono_r; lia).
  assert (0 < 2 ^ k) by (apply Z.pow_pos_nonneg; lia).
  change (2 ^ 40) with 1099511627776 in *.
  destruct (Z.gtb_spec (Z.abs (2 ^ k * US_PER_MINUTE / US_PER_DAY)) MAX_DELTA_DAYS) as [Hgt|];
    [| reflexivity].
  exfalso. revert Hgt.
  change US_PER_MINUTE with 60000000. change US_PER_DAY with 86400000000.
  change MAX_DELTA_DAYS with 999999999.
  intros Hgt. rewrite Z.abs_eq in Hgt by (apply Z.div_pos; lia).
  assert (2 ^ k * 60000000 / 86400000000 <= 1099511627776 * 60000000 / 86400000000)
    by (apply Z.div_le_mono; lia).
  change (1099511627776 * 60000000 / 86400000000) with 763549741 in *. lia.
Qed.

(** *** Transitions and retries *)

(** C3 (as the code has it).  The transitions do not look at the current
    status and raise no transition error: from every status, the terminal
    ones included, [mark_started] returns normally with status
    IN_PROGRESS and [started_at] set to the clock reading, and
    [mark_completed] returns normally with status COMPLETED; after
    [mark_failed] the status is FAILED, and the only exception it can
    raise is an [OverflowError] of the retry date. *)
Theorem transitions_unguarded (r : CredentialRotation.t) (w : World)
  (path msg : pystr) :
  (exists r', mark_started (Frame r w) = Return tt (Frame r' (tick w)) /\
              CredentialRotation.status r' = IN_PROGRESS /\
              started_at r' = Some (now w) /\
              r' = set_started_at (Some (now w)) (set_status IN_PROGRESS r)) /\
  (exists r', mark_completed path (Frame r w) = Return tt (Frame r' (tick w)) /\
              CredentialRotation.status r' = COMPLETED) /\
  CredentialRotation.status (self (state_of (mark_failed msg (Frame r w)))) = FAILED /\
  (forall e f, mark_failed msg (Frame r w) = Raise e f ->
               exists m, e = OverflowError m).
Proof.
  split; [| split; [| split]].
  - eexists. split; [apply mark_started_run | repeat split].
  - eexists. split; [apply mark_completed_run | reflexivity].
  - unfold mark_failed, bind, setattr, utcnow; simpl.
    rewrite calculate_duration_run; simpl.
    destruct (retry_count r <? max_retries r); simpl; [| reflexivity].
    unfold getattr; simpl.
    destruct (timedelta_minutes_pow2 (retry_count r + 1)); simpl; [reflexivity |].
    destruct (datetime_add _ _); reflexivity.
  - intros e f. unfold mark_failed, bind, setattr, utcnow; simpl.
    rewrite calculate_duration_run; simpl.
    destruct (retry_count r <? max_retries r); simpl; [| discriminate].
    unfold getattr; simpl.
    unfold timedelta_minutes_pow2, timedelta_of_us, datetime_add.
    repeat match goal with
           | |- context [if ?b then _ else _] => destruct b; simpl
           end;
      intros H; inversion H; eauto.
Qed.

(** C3, counterexample: a completed attempt can be started again, and a
    cancelled one can be completed; neither call fails. *)
Lemma completed_attempt_restarts :
  mark_started (Frame (Sample.rotation COMPLETED (Some Sample.T0))
                      (Sample.frozen Sample.T0))
  = Return tt (Frame (set_started_at (Some Sample.T0)
                        (set_status IN_PROGRESS
                           (Sample.rotation COMPLETED (Some Sample.T0))))
                     (tick (Sample.frozen Sample.T0))) /\
  CredentialRotation.status
    (self (state_of (mark_completed (py "credentials/new")
                       (Frame (Sample.rotation CANCELLED None)
                              (Sample.frozen Sample.T0)))))
  = COMPLETED.
Proof. split; reflexivity. Qed.

(** C1 (as the code has it).  With [max_retries = 3] and [retry_count =
    0], three failures recorded by [mark_failed] give [retry_count] 1, 2
    and 3 and set [next_retry_at] 2, 4 and 8 minutes after the clock
    reading taken when the retry is scheduled; in general a retry from
    [retry_count = k >= 0] is scheduled [2^(k+1)] minutes after that
    reading.  A fourth failure schedules nothing: [retry_count] and
    [next_retry_at] stay as the third failure left them, and the owning
    credential is not touched.  [can_retry] holds exactly when the status
    is FAILED and [retry_count < max_retries]. *)
Theorem retry_arithmetic (r : CredentialRotation.t) (w : World)
  (m1 m2 m3 m4 : pystr)
  (Hmax : max_retries r = 3)
  (Hcount : retry_count r = 0)
  (Hclock : forall k : nat, (k < 7)%nat ->
      0 <= clock w (reads w + k) /\
      clock w (reads w + k) + 8 * US_PER_MINUTE < MAX_US) :
  (exists f1 f2 f3 f4 : frame CredentialRotation.t,
    mark_failed m1 (Frame r w) = Return tt f1 /\
    mark_failed m2 f1 = Return tt f2 /\
    mark_failed m3 f2 = Return tt f3 /\
    mark_failed m4 f3 = Return tt f4 /\
    retry_count (self f1) = 1 /\
    next_retry_at (self f1) = Some (clock w (reads w + 1) + 2 * US_PER_MINUTE) /\
    retry_count (self f2) = 2 /\
    next_retry_at (self f2) = Some (clock w (reads w + 3) + 4 * US_PER_MINUTE) /\
    retry_count (self f3) = 3 /\
    next_retry_at (self f3) = Some (clock w (reads w + 5) + 8 * US_PER_MINUTE) /\
    retry_count (self f4) = 3 /\
    next_retry_at (self f4) = next_retry_at (self f3) /\
    CredentialRotation.status (self f4) = FAILED /\
    credential (self f4) = credential r) /\
  (forall (r' : CredentialRotation.t) (w' : World) (m : pystr),
      0 <= retry_count r' < max_retries r' -> retry_count r' <= 39 ->
      valid_datetime (clock w' (S (reads w'))
                      + 2 ^ (retry_count r' + 1) * US_PER_MINUTE) ->
      exists f, mark_failed m (Frame r' w') = Return tt f /\
                retry_count (self f) = retry_count r' + 1 /\
                next_retry_at (self f)
                = Some (clock w' (S (reads w'))
                        + 2 ^ (retry_count r' + 1) * US_PER_MINUTE)) /\
  (forall (r' : CredentialRotation.t) (w' : World),
      exists b, can_retry (Frame r' w') = Return b (Frame r' w') /\
                (b = true <-> CredentialRotation.status r' = FAILED /\
                              retry_count r' < max_retries r')).
Proof.
  assert (Hgen : forall (r' : CredentialRotation.t) (w' : World) (m : pystr),
      0 <= retry_count r' < max_retries r' -> retry_count r' <= 39 ->
      valid_datetime (clock w' (S (reads w'))
                      + 2 ^ (retry_count r' + 1) * US_PER_MINUTE) ->
      mark_failed m (Frame r' w')
      = Return tt
          (Frame (set_next_retry_at
                    (Some (clock w' (S (reads w'))
                           + 2 ^ (retry_count r' + 1) * US_PER_MINUTE))
                    (set_retry_count (retry_count r' + 1) (failed m (now w') r')))
                 (tick (tick w')))).
  { intros r' w' m Hk H39 Hv.
    apply mark_failed_retry; [lia | | assumption].
    apply timedelta_minutes_pow2_small. lia. }
  assert (Hv : forall k d, (k < 7)%nat -> 0 <= d <= 8 ->
             valid_datetime (clock w (reads w + k) + d * US_PER_MINUTE)).
  { intros k d Hk Hd. destruct (Hclock k Hk) as [H0 H8].
    unfold valid_datetime. unfold US_PER_MINUTE, US_PER_SECOND in *. lia. }
  split; [| split].
  - eexists _, _, _, _.
    split.
    { apply Hgen; rewrite ?Hcount, ?Hmax; [lia | lia |].
      replace (S (reads w)) with (reads w + 1)%nat by lia.
      apply (Hv 1%nat 2); lia. }
    split.
    { apply Hgen; simpl; rewrite ?Hcount, ?Hmax; [lia | lia |].
      replace (S (S (S (reads w)))) with (reads w + 3)%nat by lia.
      apply (Hv 3%nat 4); lia. }
    split.
    { apply Hgen; simpl; rewrite ?Hcount, ?Hmax; [lia | lia |].
      replace (S (S (S (S (S (reads w)))))) with (reads w + 5)%nat by lia.
      apply (Hv 5%nat 8); lia. }
    split.
    { apply mark_failed_exhausted. simpl. rewrite Hcount, Hmax. lia. }
    simpl. rewrite Hcount.
    replace (S (reads w)) with (reads w + 1)%nat by lia.
    replace (S (S (reads w + 1))) with (reads w + 3)%nat by lia.
    replace (S (S (reads w + 3))) with (reads w + 5)%nat by lia.
    repeat split.
  - intros r' w' m Hk H39 Hvd. eexists. split; [now apply Hgen |]. split; reflexivity.
  - intros r' w'. eexists. split; [apply can_retry_run |].
    rewrite andb_true_iff, Z.ltb_lt.
    destruct (CredentialRotation.status r'); simpl; intuition discriminate.
Qed.

Lemma retry_arithmetic_witness :
  max_retries (Sample.rotation IN_PROGRESS (Some Sample.T0)) = 3 /\
  retry_count (Sample.rotation IN_PROGRESS (Some Sample.T0)) = 0 /\
  exists f1 f2 f3 f4 : frame CredentialRotation.t,
    mark_failed (py "vault timeout")
      (Frame (Sample.rotation IN_PROGRESS (Some Sample.T0))
             (Sample.ticking (Sample.T0 + 5000000) 1000)) = Return tt f1 /\
    mark_failed (py "vault timeout") f1 = Return tt f2 /\
    mark_failed (py "vault timeout") f2 = Return tt f3 /\
    mark_failed (py "vault timeout") f3 = Return tt f4 /\
    retry_count (self f1) = 1 /\
    next_retry_at (self f1) = Some (Sample.T0 + 5001000 + 2 * US_PER_MINUTE) /\
    retry_count (self f2) = 2 /\
    next_retry_at (self f2) = Some (Sample.T0 + 5003000 + 4 * US_PER_MINUTE) /\
    retry_count (self f3) = 3 /\
    next_retry_at (self f3) = Some (Sample.T0 + 5005000 + 8 * US_PER_MINUTE) /\
    retry_count (self f4) = 3 /\
    next_retry_at (self f4) = next_retry_at (self f3) /\
    CredentialRotation.status (self f4) = FAILED /\
    credential (self f4) = Sample.credential ACTIVE 90 true None.
Proof.
  split; [reflexivity |]. split; [reflexivity |].
  apply (retry_arithmetic (Sample.rotation IN_PROGRESS (Some Sample.T0))
           (Sample.ticking (Sample.T0 + 5000000) 1000)
           (py "vault timeout") (py "vault timeout")
           (py "vault timeout") (py "vault timeout")).
  - reflexivity.
  - reflexivity.
  - intros k Hk.
    do 7 (destruct k as [| k];
          [vm_compute; split; [discriminate | reflexivity] |]).
    lia.
Defined.

(** C1, counterexample: after the fourth failure [next_retry_at] still
    holds the date set by the third one, and the owning credential is
    still ACTIVE. *)
Lemma fourth_failure_keeps_retry_date :
  match (mark_failed (py "vault timeout") ;; mark_failed (py "vault timeout") ;;
         mark_failed (py "vault timeout") ;; mark_failed (py "vault timeout"))%py
          (Frame (Sample.rotation IN_PROGRESS (Some Sample.T0))
                 (Sample.frozen (Sample.T0 + 5000000))) with
  | Return _ f =>
      retry_count (self f) = 3 /\
      next_retry_at (self f) = Some (Sample.T0 + 5000000 + 8 * US_PER_MINUTE) /\
      next_retry_at (self f) <> None /\
      Credential.status (credential (self f)) = ACTIVE /\
      Credential.status (credential (self f)) <> PENDING_ROTATION
  | Raise _ _ => False
  end.
Proof. vm_compute. repeat split; discriminate. Qed.

(** C5 (as the code has it).  [mark_completed(new_vault_path)] sets the
    status to COMPLETED, stamps [completed_at] with the clock reading,
    records [new_vault_path] and sets [duration_seconds]; for an attempt
    started at [s], not after the clock reading and less than [2^34]
    seconds before it, the duration is the whole number of seconds from
    [s] to [completed_at].  The owning credential is left as it was: it
    is not marked rotated. *)
Theorem mark_completed_stamps (r : CredentialRotation.t) (w : World)
  (path : pystr) (s : datetime)
  (Hstarted : started_at r = Some s)
  (Hle : s <= now w)
  (Hspan : now w - s < 2 ^ 34 * US_PER_SECOND) :
  exists r' : CredentialRotation.t,
    mark_completed path (Frame r w) = Return tt (Frame r' (tick w)) /\
    CredentialRotation.status r' = COMPLETED /\
    completed_at r' = Some (now w) /\
    new_vault_path r' = Some path /\
    duration_seconds r' = Some ((now w - s) / US_PER_SECOND) /\
    credential r' = credential r.
Proof.
  exists (completed path (now w) r).
  split; [apply mark_completed_run | repeat split].
  simpl. unfold duration_between. rewrite Hstarted.
  unfold datetime_sub. rewrite int_total_seconds_floor by lia. reflexivity.
Qed.

Lemma mark_completed_stamps_witness :
  started_at (Sample.rotation IN_PROGRESS (Some Sample.T0)) = Some Sample.T0 /\
  Sample.T0 <= Sample.T0 + 5999999 /\
  Sample.T0 + 5999999 - Sample.T0 < 2 ^ 34 * US_PER_SECOND /\
  exists r' : CredentialRotation.t,
    mark_completed (py "credentials/new")
      (Frame (Sample.rotation IN_PROGRESS (Some Sample.T0))
             (Sample.frozen (Sample.T0 + 5999999)))
    = Return tt (Frame r' (tick (Sample.frozen (Sample.T0 + 5999999)))) /\
    CredentialRotation.status r' = COMPLETED /\
    completed_at r' = Some (Sample.T0 + 5999999) /\
    new_vault_path r' = Some (py "credentials/new") /\
    duration_seconds r' = Some 5 /\
    credential r' = Sample.credential ACTIVE 90 true None.
Proof.
  split; [reflexivity |].
  split; [vm_compute; discriminate |].
  split; [vm_compute; reflexivity |].
  apply (mark_completed_stamps (Sample.rotation IN_PROGRESS (Some Sample.T0))
           (Sample.frozen (Sample.T0 + 5999999)) (py "credentials/new") Sample.T0).
  - reflexivity.
  - vm_compute; discriminate.
  - vm_compute; reflexivity.
Defined.

(** C5, counterexample: completing the attempt leaves the owning
    credential with the rotation count, last rotation and next rotation
    date it had. *)
Lemma mark_completed_leaves_credential :
  match mark_completed (py "credentials/new")
          (Frame (Sample.rotation IN_PROGRESS (Some Sample.T0))
                 (Sample.frozen (Sample.T0 + 5999999))) with
  | Return _ f =>
      CredentialRotation.status (self f) = COMPLETED /\
      Credential.rotation_count (credential (self f)) = 0 /\
      Credential.last_rotated (credential (self f)) = None /\
      Credential.next_rotation_date (credential (self f)) = None
  | Raise _ _ => False
  end.
Proof. vm_compute. repeat split. Qed.

(** ** AuditLog *)

(** With [sort_keys] the nine items come out in the order of their
    keys. *)
Lemma sort_checksum_data (ts : datetime) (r : AuditLog.t) :
  sort_items (AuditLog.checksum_data ts r)
  = [ (py "action", Str (AuditLog.action r));
      (py "actor_upn", of_option (AuditLog.actor_upn r));
      (py "description", Str (AuditLog.description r));
      (py "event_type", Str (AuditLog.event_type r));
      (py "result", Str (AuditLog.result r));
      (py "source_ip", of_option (AuditLog.source_ip r));
      (py "target_resource_id", of_option (AuditLog.target_resource_id r));
      (py "target_resource_type", of_option (AuditLog.target_resource_type r));
      (py "timestamp", Str (isoformat ts)) ].
Proof. reflexivity. Qed.

Lemma of_option_scalar (o : option pystr) :
  scalar_opt o -> scalar_value (of_option o).
Proof. destruct o; simpl; auto. Qed.

Lemma of_option_inj (o1 o2 : option pystr) :
  of_option o1 = of_option o2 -> o1 = o2.
Proof. destruct o1, o2; simpl; congruence. Qed.

(** The text that is hashed determines the nine attributes. *)
Lemma dumps_checksum_data_inj (ta tb : datetime) (a b : AuditLog.t) :
  well_formed ta a -> well_formed tb b ->
  dumps_sorted (AuditLog.checksum_data ta a)
  = dumps_sorted (AuditLog.checksum_data tb b) ->
  same_projection a b.
Proof.
  intros (Hta & Va & A1 & A2 & A3 & A4 & A5 & A6 & A7 & A8)
         (Htb & Vb & B1 & B2 & B3 & B4 & B5 & B6 & B7 & B8) H.
  unfold dumps_sorted in H. rewrite !sort_checksum_data in H.
  cbn [join_items] in H. unfold encode_item in H. cbn [fst snd] in H.
  apply app_inv_head in H.
  repeat rewrite <- app_assoc in H.
  apply app_inv_head in H. apply app_inv_head in H.
  apply encode_value_inj in H as [E2 H]; [| assumption ..].
  apply app_inv_head in H. apply app_inv_head in H. apply app_inv_head in H.
  apply encode_value_inj in H as [E4 H]; [| now apply of_option_scalar ..].
  apply app_inv_head in H. apply app_inv_head in H. apply app_inv_head in H.
  apply encode_value_inj in H as [E7 H]; [| assumption ..].
  apply app_inv_head in H. apply app_inv_head in H. apply app_inv_head in H.
  apply encode_value_inj in H as [E1 H]; [| assumption ..].
  apply app_inv_head in H. apply app_inv_head in H. apply app_inv_head in H.
  apply encode_value_inj in H as [E3 H]; [| assumption ..].
  apply app_inv_head in H. apply app_inv_head in H. apply app_inv_head in H.
  apply encode_value_inj in H as [E8 H]; [| now apply of_option_scalar ..].
  apply app_inv_head in H. apply app_inv_head in H. apply app_inv_head in H.
  apply encode_value_inj in H as [E6 H]; [| now apply of_option_scalar ..].
  apply app_inv_head in H. apply app_inv_head in H. apply app_inv_head in H.
  apply encode_value_inj in H as [E5 H]; [| now apply of_option_scalar ..].
  apply app_inv_head in H. apply app_inv_head in H. apply app_inv_head in H.
  apply encode_value_inj in H as [E0 _]; [| apply isoformat_scalar ..].
  injection E0 as E0. apply isoformat_inj in E0; [| assumption ..].
  injection E1 as E1. injection E2 as E2. injection E3 as E3.
  injection E7 as E7.
  apply of_option_inj in E4, E5, E6, E8.
  unfold same_projection. rewrite Hta, Htb, E0. repeat split; assumption.
Qed.

(** [calculate_checksum] returns the SHA-256 of the JSON text, written in
    hexadecimal, and leaves the record as it is. *)
Lemma calculate_checksum_run (ts : datetime) (r : AuditLog.t) (w : World) :
  AuditLog.timestamp r = Some ts ->
  AuditLog.calculate_checksum (Frame r w)
  = Return (SHA256.hexdigest (dumps_sorted (AuditLog.checksum_data ts r)))
           (Frame r w).
Proof.
  intros Hts. unfold AuditLog.calculate_checksum, bind, getattr.
  cbn [self]. rewrite Hts.
  rewrite (str_encode_ascii _ (dumps_sorted_ascii _)). reflexivity.
Qed.

Lemma calculate_checksum_unset (r : AuditLog.t) (w : World) :
  AuditLog.timestamp r = None ->
  AuditLog.calculate_checksum (Frame r w)
  = Raise (AttributeError "'NoneType' object has no attribute 'isoformat'")
          (Frame r w).
Proof.
  intros Hts. unfold AuditLog.calculate_checksum, bind, getattr.
  cbn [self]. rewrite Hts. reflexivity.
Qed.

Lemma checksum_data_same (ts : datetime) (a b : AuditLog.t) :
  same_projection a b ->
  AuditLog.checksum_data ts a = AuditLog.checksum_data ts b.
Proof.
  intros (_ & E1 & E2 & E3 & E4 & E5 & E6 & E7 & E8).
  unfold AuditLog.checksum_data.
  rewrite E1, E2, E3, E4, E5, E6, E7, E8. reflexivity.
Qed.


(** *** The checksum *)

(** C10.  The checksum depends on the nine projected attributes only: two
    records that agree on [timestamp], [event_type], [action], [result],
    [actor_upn], [target_resource_type], [target_resource_id],
    [description] and [source_ip] get the same result from
    [calculate_checksum], whatever their other attributes (severity, risk
    score, details, ...) are; so a change confined to those is not seen
    by comparing checksums.  The call leaves the record as it is. *)
Theorem checksum_ignores_other_fields (a b : AuditLog.t) (wa wb : World)
  (Hsame : same_projection a b) :
  match AuditLog.calculate_checksum (Frame a wa),
        AuditLog.calculate_checksum (Frame b wb) with
  | Return ca fa, Return cb fb => ca = cb /\ fa = Frame a wa /\ fb = Frame b wb
  | Raise ea fa, Raise eb fb => ea = eb /\ fa = Frame a wa /\ fb = Frame b wb
  | _, _ => False
  end.
Proof.
  pose proof Hsame as (Hts & _).
  destruct (AuditLog.timestamp b) as [ts |] eqn:Hb.
  - rewrite (calculate_checksum_run ts a wa Hts).
    rewrite (calculate_checksum_run ts b wb Hb).
    rewrite (checksum_data_same ts a b Hsame). repeat split.
  - rewrite (calculate_checksum_unset a wa Hts).
    rewrite (calculate_checksum_unset b wb Hb). repeat split.
Qed.

Lemma checksum_ignores_other_fields_witness :
  same_projection (Sample.audit (py "User logged in") (py "info") None)
                  (Sample.audit (py "User logged in") (py "critical") (Some 99)) /\
  match AuditLog.calculate_checksum
          (Frame (Sample.audit (py "User logged in") (py "info") None)
                 (Sample.frozen Sample.T0)),
        AuditLog.calculate_checksum
          (Frame (Sample.audit (py "User logged in") (py "critical") (Some 99))
                 (Sample.frozen Sample.T0)) with
  | Return ca fa, Return cb fb =>
      ca = cb /\
      fa = Frame (Sample.audit (py "User logged in") (py "info") None)
                 (Sample.frozen Sample.T0) /\
      fb = Frame (Sample.audit (py "User logged in") (py "critical") (Some 99))
                 (Sample.frozen Sample.T0)
  | Raise ea fa, Raise eb fb =>
      ea = eb /\
      fa = Frame (Sample.audit (py "User logged in") (py "info") None)
                 (Sample.frozen Sample.T0) /\
      fb = Frame (Sample.audit (py "User logged in") (py "critical") (Some 99))
                 (Sample.frozen Sample.T0)
  | _, _ => False
  end.
Proof.
  split; [repeat split |].
  apply (checksum_ignores_other_fields
           (Sample.audit (py "User logged in") (py "info") None)
           (Sample.audit (py "User logged in") (py "critical") (Some 99))).
  repeat split.
Defined.

(** C8 (as the code has it).  For two records whose timestamp is set and
    whose projected attributes hold scalar values, [calculate_checksum]
    returns the SHA-256 of the key-sorted JSON text of the nine
    attributes, which is its own UTF-8 encoding; the two texts are equal
    exactly when the records agree on the nine attributes, so records
    that agree get the same checksum and a change of one attribute
    changes the text that is hashed.  The [before_insert] listener
    computes this checksum and the flush stores it with the new row. *)
Theorem checksum_of_projection (a b : AuditLog.t) (ta tb : datetime)
  (wa wb : World)
  (Ha : well_formed ta a) (Hb : well_formed tb b) :
  exists ja jb : pystr,
    ja = Json.dumps_sorted (AuditLog.checksum_data ta a) /\
    jb = Json.dumps_sorted (AuditLog.checksum_data tb b) /\
    str_encode ja = inr ja /\ str_encode jb = inr jb /\
    AuditLog.calculate_checksum (Frame a wa)
    = Return (SHA256.hexdigest ja) (Frame a wa) /\
    AuditLog.calculate_checksum (Frame b wb)
    = Return (SHA256.hexdigest jb) (Frame b wb) /\
    (ja = jb <-> same_projection a b) /\
    (same_projection a b -> SHA256.hexdigest ja = SHA256.hexdigest jb) /\
    (forall s : Session.state,
        Session.target s = a ->
        Session.audit_logs s !! Session.pk a = None ->
        Session.flush_insert s
        = Return tt
            {| Session.audit_logs :=
                 <[Session.pk a := AuditLog.set_checksum
                                     (Some (SHA256.hexdigest ja)) a]>
                   (Session.audit_logs s);
               Session.target :=
                 AuditLog.set_checksum (Some (SHA256.hexdigest ja)) a;
               Session.env := Session.env s |}).
Proof.
  pose proof Ha as (Hta & _). pose proof Hb as (Htb & _).
  assert (Hiff : Json.dumps_sorted (AuditLog.checksum_data ta a)
                 = Json.dumps_sorted (AuditLog.checksum_data tb b)
                 <-> same_projection a b).
  { split; [now apply dumps_checksum_data_inj |].
    intros Hsame. pose proof Hsame as (Hts & _).
    assert (ta = tb) as -> by congruence.
    now rewrite (checksum_data_same tb a b Hsame). }
  eexists _, _. split; [reflexivity |]. split; [reflexivity |].
  split; [apply str_encode_ascii, dumps_sorted_ascii |].
  split; [apply str_encode_ascii, dumps_sorted_ascii |].
  split; [now apply calculate_checksum_run |].
  split; [now apply calculate_checksum_run |].
  split; [exact Hiff |].
  split; [intros Hsame; apply Hiff in Hsame; now rewrite Hsame |].
  intros s Htarget Hfree. unfold Session.flush_insert, Session.fire.
  unfold calculate_checksum_before_insert, bind. rewrite Htarget.
  rewrite (calculate_checksum_run ta a (Session.env s) Hta).
  unfold setattr. cbn [self world Session.audit_logs Session.target Session.env].
  replace (Session.pk (AuditLog.set_checksum
                         (Some (SHA256.hexdigest
                                  (dumps_sorted (AuditLog.checksum_data ta a)))) a))
    with (Session.pk a) by reflexivity.
  rewrite Hfree. reflexivity.
Qed.

Ltac scalar_literal :=
  unfold scalar_opt, scalar_str; vm_compute py;
  repeat (apply Forall_cons; split; [unfold scalar; lia |]); apply Forall_nil_2.

Lemma sample_audit_well_formed (descr sev : pystr) (risk : option Z) :
  scalar_str descr -> well_formed Sample.T0 (Sample.audit descr sev risk).
Proof.
  intros Hd. unfold well_formed. cbn.
  split; [reflexivity |].
  split; [vm_compute; split; [discriminate | reflexivity] |].
  repeat split; try exact I; try exact Hd; scalar_literal.
Defined.

Lemma checksum_of_projection_witness :
  well_formed Sample.T0 (Sample.audit (py "User logged in") (py "info") None) /\
  well_formed Sample.T0 (Sample.audit (py "User logged out") (py "info") None) /\
  exists ja jb : pystr,
    AuditLog.calculate_checksum
      (Frame (Sample.audit (py "User logged in") (py "info") None)
             (Sample.frozen Sample.T0))
    = Return (SHA256.hexdigest ja)
        (Frame (Sample.audit (py "User logged in") (py "info") None)
               (Sample.frozen Sample.T0)) /\
    AuditLog.calculate_checksum
      (Frame (Sample.audit (py "User logged out") (py "info") None)
             (Sample.frozen Sample.T0))
    = Return (SHA256.hexdigest jb)
        (Frame (Sample.audit (py "User logged out") (py "info") None)
               (Sample.frozen Sample.T0)) /\
    ja <> jb.
Proof.
  assert (Ha : well_formed Sample.T0
                 (Sample.audit (py "User logged in") (py "info") None))
    by (apply sample_audit_well_formed; scalar_literal).
  assert (Hb : well_formed Sample.T0
                 (Sample.audit (py "User logged out") (py "info") None))
    by (apply sample_audit_well_formed; scalar_literal).
  split; [exact Ha |]. split; [exact Hb |].
  destruct (checksum_of_projection _ _ _ _
              (Sample.frozen Sample.T0) (Sample.frozen Sample.T0) Ha Hb)
    as (ja & jb & _ & _ & _ & _ & Ca & Cb & Hiff & _).
  exists ja, jb. split; [exact Ca |]. split; [exact Cb |].
  intros E. apply Hiff in E.
  destruct E as (_ & _ & _ & _ & _ & _ & _ & E & _).
  vm_compute in E. discriminate E.
Defined.

(** C8, counterexample: the character U+10000 and the two surrogates
    U+D800 U+DC00 have the same JSON escape, so two records that differ
    in [description] only get the same checksum. *)
Lemma checksum_escape_collision :
  AuditLog.description (Sample.audit [0x10000] (py "info") None)
  <> AuditLog.description (Sample.audit [0xD800; 0xDC00] (py "info") None) /\
  match AuditLog.calculate_checksum
          (Frame (Sample.audit [0x10000] (py "info") None)
                 (Sample.frozen Sample.T0)),
        AuditLog.calculate_checksum
          (Frame (Sample.audit [0xD800; 0xDC00] (py "info") None)
                 (Sample.frozen Sample.T0)) with
  | Return ca _, Return cb _ => ca = cb
  | _, _ => False
  end.
Proof. split; [discriminate | vm_compute; reflexivity]. Qed.

(** *** Immutability *)

(** C2.  For a persisted audit record, a flush that carries a change of
    the record raises the error of the [before_update] listener and a
    flush that carries its deletion raises the error of the
    [before_delete] listener; in both cases the table is as before, and
    so the stored row keeps all its fields. *)
Theorem audit_log_immutable (s : Session.state) (row : AuditLog.t)
  (Hrow : Session.audit_logs s !! Session.pk (Session.target s) = Some row) :
  (exists s',
      Session.flush_update s
      = Raise (ValueError "Audit logs are immutable and cannot be updated") s' /\
      Session.audit_logs s' = Session.audit_logs s /\
      Session.audit_logs s' !! Session.pk (Session.target s) = Some row) /\
  (exists s',
      Session.flush_delete s
      = Raise (ValueError
                 "Audit logs cannot be deleted except through retention policies")
              s' /\
      Session.audit_logs s' = Session.audit_logs s /\
      Session.audit_logs s' !! Session.pk (Session.target s) = Some row).
Proof.
  split.
  - exists (Session.expire s). split; [| split].
    + destruct s; reflexivity.
    + reflexivity.
    + exact Hrow.
  - exists (Session.expire s). split; [| split].
    + destruct s; reflexivity.
    + reflexivity.
    + exact Hrow.
Qed.

Lemma audit_log_immutable_witness :
  Session.audit_logs Sample.session !! Session.pk (Session.target Sample.session)
  = Some (Sample.audit (py "User logged in") (py "info") None) /\
  (exists s',
      Session.flush_update Sample.session
      = Raise (ValueError "Audit logs are immutable and cannot be updated") s' /\
      Session.audit_logs s' = Session.audit_logs Sample.session /\
      Session.audit_logs s' !! Session.pk (Session.target Sample.session)
      = Some (Sample.audit (py "User logged in") (py "info") None)) /\
  (exists s',
      Session.flush_delete Sample.session
      = Raise (ValueError
                 "Audit logs cannot be deleted except through retention policies")
              s' /\
      Session.audit_logs s' = Session.audit_logs Sample.session /\
      Session.audit_logs s' !! Session.pk (Session.target Sample.session)
      = Some (Sample.audit (py "User logged in") (py "info") None)).
Proof.
  assert (H : Session.audit_logs Sample.session
                !! Session.pk (Session.target Sample.session)
              = Some (Sample.audit (py "User logged in") (py "info") None))
    by reflexivity.
  split; [exact H |].
  exact (audit_log_immutable Sample.session _ H).
Defined.

(** * Further properties of the models *)

(** ** Credential: expiry, notification and scheduling *)

Lemma days_until_expiry_run (c : Credential.t) (w : World) :
  Credential.days_until_expiry (Frame c w)
  = match Credential.expires_at c with
    | None => Return None (Frame c w)
    | Some e => Return (Some (Z.max 0 ((e - now w) / US_PER_DAY)))
                       (Frame c (tick w))
    end.
Proof.
  unfold Credential.days_until_expiry, bind, getattr, utcnow, ret; simpl.
  destruct (Credential.expires_at c); reflexivity.
Qed.

Lemma is_expired_run (c : Credential.t) (w : World) :
  Credential.is_expired (Frame c w)
  = match Credential.expires_at c with
    | None => Return false (Frame c w)
    | Some e => Return (e <=? now w) (Frame c (tick w))
    end.
Proof.
  unfold Credential.is_expired, bind, getattr, utcnow, ret; simpl.
  destruct (Credential.expires_at c); reflexivity.
Qed.

(** X1.  [days_until_expiry] is [None] exactly for a credential without
    expiry date; otherwise it is the number of whole days left, never
    negative, and 0 from less than a day before the expiry on, however
    long ago the credential expired. *)
Theorem days_until_expiry_bounds (c : Credential.t) (w : World) :
  exists (r : option Z) (w' : World),
    Credential.days_until_expiry (Frame c w) = Return r (Frame c w') /\
    (r = None <-> Credential.expires_at c = None) /\
    (forall e d, Credential.expires_at c = Some e -> r = Some d ->
       0 <= d /\
       (d = 0 <-> e - now w < US_PER_DAY) /\
       (0 < d -> d * US_PER_DAY <= e - now w < (d + 1) * US_PER_DAY)).
Proof.
  rewrite days_until_expiry_run.
  destruct (Credential.expires_at c) as [e |].
  - eexists _, _. split; [reflexivity |]. split; [split; discriminate |].
    intros e' d [= <-] [= <-].
    unfold US_PER_DAY, US_PER_SECOND.
    pose proof (Z.div_mod (e - now w) (86400 * 1000000) ltac:(lia)).
    pose proof (Z.mod_pos_bound (e - now w) (86400 * 1000000) ltac:(lia)).
    lia.
  - eexists _, _. split; [reflexivity |]. split; [split; reflexivity |].
    intros e d [=].
Qed.

(** X2.  An expired credential has no days left: when [is_expired]
    returns [True] and the clock does not run backwards, a following
    [days_until_expiry] returns 0. *)
Theorem expired_has_no_days_left (c : Credential.t) (w : World)
  (Hclock : clock w (reads w) <= clock w (S (reads w)))
  (Hexpired : exists f, Credential.is_expired (Frame c w) = Return true f) :
  (expired <- Credential.is_expired ;;
   days <- Credential.days_until_expiry ;;
   ret (expired, days)) (Frame c w)
  = Return (true, Some 0) (Frame c (tick (tick w))).
Proof.
  destruct Hexpired as [f Hf]. revert Hf.
  unfold bind. rewrite is_expired_run.
  destruct (Credential.expires_at c) as [e |] eqn:He; [| discriminate].
  intros [= Hle _]. rewrite Hle. rewrite days_until_expiry_run, He.
  apply Z.leb_le in Hle. unfold now in *; simpl.
  replace (Z.max 0 ((e - clock w (S (reads w))) / US_PER_DAY)) with 0;
    [reflexivity |].
  unfold US_PER_DAY, US_PER_SECOND.
  pose proof (Z.div_mod (e - clock w (S (reads w))) (86400 * 1000000) ltac:(lia)).
  pose proof (Z.mod_pos_bound (e - clock w (S (reads w))) (86400 * 1000000) ltac:(lia)).
  lia.
Qed.

Lemma needs_notification_run (c : Credential.t) (w : World) :
  Credential.needs_notification (Frame c w)
  = match Credential.notification_sent c, Credential.expires_at c with
    | false, Some e =>
        Return (Z.max 0 ((e - now w) / US_PER_DAY)
                <=? Credential.notification_days_before_expiry c)
               (Frame c (tick w))
    | _, _ => Return false (Frame c w)
    end.
Proof.
  unfold Credential.needs_notification, bind, getattr; simpl.
  destruct (Credential.notification_sent c); simpl; [reflexivity |].
  destruct (Credential.expires_at c) as [e |] eqn:He; simpl; [| reflexivity].
  rewrite days_until_expiry_run, He. reflexivity.
Qed.

Lemma days_left_le (x n : Z) :
  Z.max 0 (x / US_PER_DAY) <= n <-> 0 <= n /\ x < (n + 1) * US_PER_DAY.
Proof.
  unfold US_PER_DAY, US_PER_SECOND.
  pose proof (Z.div_mod x (86400 * 1000000) ltac:(lia)).
  pose proof (Z.mod_pos_bound x (86400 * 1000000) ltac:(lia)).
  lia.
Qed.

(** X3.  [needs_notification] returns [True] exactly when no notification
    was sent yet, an expiry date is set, [notification_days_before_expiry]
    is not negative and less than [notification_days_before_expiry + 1]
    days are left: the window is a day wider than the setting, it stays
    open after the expiry, and a negative setting never notifies. *)
Theorem needs_notification_iff (c : Credential.t) (w : World) :
  exists (b : bool) (w' : World),
    Credential.needs_notification (Frame c w) = Return b (Frame c w') /\
    (b = true <->
     Credential.notification_sent c = false /\
     0 <= Credential.notification_days_before_expiry c /\
     exists e, Credential.expires_at c = Some e /\
               e - now w
               < (Credential.notification_days_before_expiry c + 1) * US_PER_DAY).
Proof.
  rewrite needs_notification_run.
  destruct (Credential.notification_sent c).
  - eexists _, _. split; [reflexivity |]. split; [discriminate |].
    intros [H _]. discriminate.
  - destruct (Credential.expires_at c) as [e |].
    + eexists _, _. split; [reflexivity |].
      rewrite Z.leb_le, days_left_le. split.
      * intros [H1 H2]. split; [reflexivity |]. split; [exact H1 |]. eauto.
      * intros (_ & H1 & e' & [= <-] & H2). auto.
    + eexists _, _. split; [reflexivity |]. split; [discriminate |].
      intros (_ & _ & e & H & _). discriminate.
Qed.

(** X4.  Once a credential needs a notification it keeps needing one as
    time passes: if [needs_notification] returns [True] at one clock
    reading, it returns [True] at every later one (the credential being
    the same). *)
Theorem needs_notification_persists (c : Credential.t) (w1 w2 : World)
  (Hlater : now w1 <= now w2)
  (Hneeds : exists f, Credential.needs_notification (Frame c w1) = Return true f) :
  exists f, Credential.needs_notification (Frame c w2) = Return true f.
Proof.
  destruct Hneeds as [f Hf]. revert Hf. rewrite !needs_notification_run.
  destruct (Credential.notification_sent c); [discriminate |].
  destruct (Credential.expires_at c) as [e |]; [| discriminate].
  intros [= H _]. eexists. f_equal.
  apply Z.leb_le in H. apply Z.leb_le. apply days_left_le in H.
  apply days_left_le. lia.
Qed.

Lemma record_access_run (c : Credential.t) (w : World) :
  Credential.record_access (Frame c w)
  = Return tt (Frame (Credential.set_use_count (Credential.use_count c + 1)
                        (Credential.set_last_used (Some (now w)) c))
                     (tick w)).
Proof. reflexivity. Qed.

Lemma access_twice (c : Credential.t) (a b : Z) (t1 t2 : option datetime) :
  Credential.set_use_count b
    (Credential.set_last_used t2
       (Credential.set_use_count a (Credential.set_last_used t1 c)))
  = Credential.set_use_count b (Credential.set_last_used t2 c).
Proof. reflexivity. Qed.

Lemma access_none (c : Credential.t) :
  Credential.set_use_count (Credential.use_count c)
    (Credential.set_last_used (Credential.last_used c) c) = c.
Proof. destruct c; reflexivity. Qed.

(** X5.  [n] calls of [record_access] add exactly [n] to [use_count], set
    [last_used] to the last clock reading and leave every other
    attribute, the rotation schedule included, as it was. *)
Theorem record_access_counts (n : nat) (c : Credential.t) (w : World) :
  times n Credential.record_access (Frame c w)
  = Return tt
      (Frame (Credential.set_use_count (Credential.use_count c + Z.of_nat n)
                (Credential.set_last_used
                   (match n with
                    | O => Credential.last_used c
                    | S k => Some (clock w (reads w + k))
                    end) c))
             {| clock := clock w; reads := reads w + n |}).
Proof.
  revert c w. induction n as [| n IH]; intros c w.
  - cbn [times]. unfold ret. rewrite Z.add_0_r, Nat.add_0_r, access_none.
    destruct w; reflexivity.
  - cbn [times]. unfold bind. rewrite record_access_run, IH, access_twice.
    change (Credential.use_count
              (Credential.set_use_count (Credential.use_count c + 1)
                 (Credential.set_last_used (Some (now w)) c)))
      with (Credential.use_count c + 1).
    change (Credential.last_used
              (Credential.set_use_count (Credential.use_count c + 1)
                 (Credential.set_last_used (Some (now w)) c)))
      with (Some (now w)).
    unfold now, tick; cbn [clock reads].
    replace (Credential.use_count c + 1 + Z.of_nat n)
      with (Credential.use_count c + Z.of_nat (S n)) by lia.
    replace (S (reads w) + n)%nat with (reads w + S n)%nat by lia.
    destruct n as [| k].
    + rewrite Nat.add_0_r. reflexivity.
    + replace (S (reads w) + k)%nat with (reads w + S k)%nat by lia. reflexivity.
Qed.

(** X6.  [schedule_rotation] is all or nothing.  With [days] the argument
    or, when that is [None], [rotation_frequency_days], it succeeds
    exactly when [days] has magnitude at most 999999999 and the clock
    reading plus [days] days is a date of the years 1..9999; it then sets
    [next_rotation_date] to that date and changes nothing else.
    Otherwise it raises [OverflowError] and leaves the credential as it
    was. *)
Theorem schedule_rotation_all_or_nothing (c : Credential.t) (w : World)
  (days_from_now : option Z) :
  let days := default (Credential.rotation_frequency_days c) days_from_now in
  let next := now w + days * US_PER_DAY in
  match Credential.schedule_rotation days_from_now (Frame c w) with
  | Return _ f =>
      Z.abs days <= MAX_DELTA_DAYS /\ valid_datetime next /\
      f = Frame (Credential.set_next_rotation_date (Some next) c) (tick w)
  | Raise e f =>
      ~ (Z.abs days <= MAX_DELTA_DAYS /\ valid_datetime next) /\
      (exists m, e = OverflowError m) /\
      f = Frame c (tick w)
  end.
Proof.
  intros days next.
  assert (Hrun : Credential.schedule_rotation days_from_now (Frame c w)
                 = bind (lift (timedelta_days days))
                     (fun delta => bind (lift (datetime_add (now w) delta))
                        (fun nx => setattr Credential.set_next_rotation_date (Some nx)))
                     (Frame c (tick w))).
  { unfold days. destruct days_from_now; reflexivity. }
  rewrite Hrun. unfold bind.
  destruct (Z_le_gt_dec (Z.abs days) MAX_DELTA_DAYS) as [Hd | Hd].
  - rewrite (timedelta_days_ok _ Hd). simpl.
    unfold datetime_add. fold next. unfold valid_datetime.
    destruct (Z.leb_spec 0 next), (Z.ltb_spec next MAX_US); simpl;
      first [ split; [lia | split; [lia | reflexivity]]
            | split; [lia | split; [eauto | reflexivity]] ].
  - unfold timedelta_days, timedelta_of_us.
    rewrite Z.div_mul by (unfold US_PER_DAY, US_PER_SECOND; lia).
    destruct (Z.gtb_spec (Z.abs days) MAX_DELTA_DAYS); [| lia]. simpl.
    split; [lia | split; [eauto | reflexivity]].
Qed.

(** X7.  [mark_rotated] is not all or nothing: when the next rotation
    date cannot be represented, it raises [OverflowError] after it has
    set [last_rotated] and incremented [rotation_count]; the old
    [next_rotation_date] and [notification_sent] stay in place. *)
Theorem mark_rotated_partial_on_overflow (c : Credential.t) (w : World)
  (Hout : ~ valid_datetime (clock w (S (reads w))
                            + Credential.rotation_frequency_days c * US_PER_DAY)) :
  exists m,
    Credential.mark_rotated (Frame c w)
    = Raise (OverflowError m)
        (Frame (Credential.set_rotation_count (Credential.rotation_count c + 1)
                  (Credential.set_last_rotated (Some (now w)) c))
               (tick (tick w))).
Proof.
  pose proof (schedule_rotation_all_or_nothing
                (Credential.set_rotation_count (Credential.rotation_count c + 1)
                   (Credential.set_last_rotated (Some (now w)) c))
                (tick w) None) as H.
  cbn zeta in H.
  assert (Hrun : Credential.mark_rotated (Frame c w)
                 = bind (Credential.schedule_rotation None)
                     (fun _ => setattr Credential.set_notification_sent false)
                     (Frame (Credential.set_rotation_count
                               (Credential.rotation_count c + 1)
                               (Credential.set_last_rotated (Some (now w)) c))
                            (tick w))) by reflexivity.
  rewrite Hrun. unfold bind.
  destruct (Credential.schedule_rotation None _) as [u f | e f].
  - exfalso. destruct H as (_ & Hv & _). apply Hout. exact Hv.
  - destruct H as (_ & [m ->] & ->). exists m. reflexivity.
Qed.

(** X8.  A credential that was just rotated is not due again before its
    frequency has elapsed: [needs_rotation] called after [mark_rotated]
    returns [True] exactly when auto rotation is enabled and the clock
    has reached the new [next_rotation_date]. *)
Theorem rotated_credential_not_due (c : Credential.t) (w : World)
  (Hnow : valid_datetime (clock w (S (reads w))))
  (Hnext : valid_datetime (clock w (S (reads w))
                           + Credential.rotation_frequency_days c * US_PER_DAY)) :
  exists (b : bool) (f : frame Credential.t),
    (Credential.mark_rotated ;; Credential.needs_rotation) (Frame c w)
    = Return b f /\
    (b = true <->
     Credential.auto_rotation_enabled c = true /\
     clock w (S (reads w)) + Credential.rotation_frequency_days c * US_PER_DAY
     <= clock w (S (S (reads w)))).
Proof.
  unfold bind. rewrite mark_rotated_run; [| | assumption].
  2: { now apply (valid_days_bound (clock w (S (reads w)))). }
  unfold Credential.needs_rotation, bind, getattr, utcnow, ret; simpl.
  destruct (Credential.auto_rotation_enabled c); simpl.
  - eexists _, _. split; [reflexivity |]. unfold now; simpl.
    rewrite Z.leb_le. intuition.
  - eexists _, _. split; [reflexivity |]. intuition discriminate.
Qed.

(** ** CredentialRotation: retries and durations *)

Lemma mark_failed_cases (msg : pystr) (r : CredentialRotation.t) (w : World) :
  let base := failed msg (now w) r in
  let bumped := CredentialRotation.set_retry_count
                  (CredentialRotation.retry_count r + 1) base in
  (CredentialRotation.max_retries r <= CredentialRotation.retry_count r /\
   CredentialRotation.mark_failed msg (Frame r w) = Return tt (Frame base (tick w))) \/
  (CredentialRotation.retry_count r < CredentialRotation.max_retries r /\
   ((exists m, CredentialRotation.mark_failed msg (Frame r w)
               = Raise (OverflowError m) (Frame bumped (tick w))) \/
    (exists m, CredentialRotation.mark_failed msg (Frame r w)
               = Raise (OverflowError m) (Frame bumped (tick (tick w)))) \/
    (exists next, CredentialRotation.mark_failed msg (Frame r w)
                  = Return tt (Frame (CredentialRotation.set_next_retry_at
                                        (Some next) bumped)
                                     (tick (tick w)))))).
Proof.
  intros base bumped.
  destruct (Z_lt_le_dec (CredentialRotation.retry_count r)
                        (CredentialRotation.max_retries r)) as [Hlt | Hge].
  2: { left. split; [exact Hge | now apply mark_failed_exhausted]. }
  right. split; [exact Hlt |].
  unfold CredentialRotation.mark_failed, bind, setattr, utcnow; simpl.
  rewrite calculate_duration_run; simpl.
  destruct (Z.ltb_spec (CredentialRotation.retry_count r)
                       (CredentialRotation.max_retries r)); [| lia].
  unfold getattr; simpl.
  destruct (timedelta_minutes_pow2 (CredentialRotation.retry_count r + 1))
    as [e | delay] eqn:Hd; simpl.
  - left. unfold timedelta_minutes_pow2, timedelta_of_us in Hd.
    repeat match type of Hd with
           | context [if ?b then _ else _] => destruct b
           end; inversion Hd; eauto.
  - right. unfold datetime_add.
    destruct ((0 <=? _) && (_ <? MAX_US)); simpl; [right | left]; eauto.
Qed.

(** X9.  The transitions keep [retry_count] within [max_retries]: if
    [retry_count <= max_retries] holds before [mark_started],
    [mark_completed] or [mark_failed], it holds afterwards, also when
    [mark_failed] raises; [max_retries] is never changed and
    [retry_count] never decreases and grows by at most one. *)
Theorem retry_count_within_max (r : CredentialRotation.t) (w : World)
  (path msg : pystr)
  (Hinv : CredentialRotation.retry_count r <= CredentialRotation.max_retries r) :
  forall o : outcome (frame CredentialRotation.t) unit,
    o = CredentialRotation.mark_started (Frame r w) \/
    o = CredentialRotation.mark_completed path (Frame r w) \/
    o = CredentialRotation.mark_failed msg (Frame r w) ->
    let r' := self (state_of o) in
    CredentialRotation.max_retries r' = CredentialRotation.max_retries r /\
    CredentialRotation.retry_count r <= CredentialRotation.retry_count r' /\
    CredentialRotation.retry_count r' <= CredentialRotation.retry_count r + 1 /\
    CredentialRotation.retry_count r' <= CredentialRotation.max_retries r'.
Proof.
  intros o [-> | [-> | ->]].
  - rewrite mark_started_run. simpl. lia.
  - rewrite mark_completed_run. simpl. lia.
  - destruct (mark_failed_cases msg r w)
      as [[Hge ->] | [Hlt [[m ->] | [[m ->] | [next ->]]]]]; simpl; lia.
Qed.

(** X10.  The last retry that [mark_failed] schedules is never eligible:
    when the failure brings [retry_count] to [max_retries], it sets
    [next_retry_at], and [can_retry] called afterwards returns [False].
    In general, after a failure that was retried, [can_retry] holds
    exactly when the new [retry_count] is below [max_retries]. *)
Theorem last_retry_not_eligible (r : CredentialRotation.t) (w : World)
  (msg : pystr)
  (Hcount : 0 <= CredentialRotation.retry_count r <= 39)
  (Hlt : CredentialRotation.retry_count r < CredentialRotation.max_retries r)
  (Hdate : valid_datetime
             (clock w (S (reads w))
              + 2 ^ (CredentialRotation.retry_count r + 1) * US_PER_MINUTE)) :
  exists (b : bool) (f : frame CredentialRotation.t),
    (CredentialRotation.mark_failed msg ;; CredentialRotation.can_retry) (Frame r w)
    = Return b f /\
    CredentialRotation.next_retry_at (self f)
    = Some (clock w (S (reads w))
            + 2 ^ (CredentialRotation.retry_count r + 1) * US_PER_MINUTE) /\
    (b = true <->
     CredentialRotation.retry_count r + 1 < CredentialRotation.max_retries r) /\
    (CredentialRotation.retry_count r + 1 = CredentialRotation.max_retries r ->
     b = false).
Proof.
  unfold bind.
  rewrite (mark_failed_retry msg r w
             (2 ^ (CredentialRotation.retry_count r + 1) * US_PER_MINUTE));
    [| lia | apply timedelta_minutes_pow2_small; lia | assumption].
  rewrite can_retry_run. simpl.
  eexists _, _. split; [reflexivity |]. split; [reflexivity |].
  rewrite Z.ltb_lt. split; [reflexivity |].
  intros H. apply Z.ltb_ge. lia.
Qed.

Lemma timedelta_minutes_pow2_overflow (k : Z) :
  41 <= k -> exists m, timedelta_minutes_pow2 k = inl (OverflowError m).
Proof.
  intros Hk. unfold timedelta_minutes_pow2, timedelta_of_us.
  destruct (Z.leb_spec 0 k); [| lia].
  assert (H41 : 2 ^ 41 <= 2 ^ k) by (apply Z.pow_le_mono_r; lia).
  change (2 ^ 41) with 2199023255552 in H41.
  assert (Hq : 2199023255552 * US_PER_MINUTE / US_PER_DAY
               <= 2 ^ k * US_PER_MINUTE / US_PER_DAY).
  { apply Z.div_le_mono; [reflexivity |].
    unfold US_PER_MINUTE, US_PER_SECOND. lia. }
  change (2199023255552 * US_PER_MINUTE / US_PER_DAY) with 1527099483 in Hq.
  destruct (Z.gtb_spec (Z.abs (2 ^ k * US_PER_MINUTE / US_PER_DAY)) MAX_DELTA_DAYS)
    as [| Hle]; [eauto |].
  exfalso. unfold MAX_DELTA_DAYS in Hle. lia.
Qed.

(** X11.  The backoff overflows from the 41st retry on: for an attempt
    with [40 <= retry_count < max_retries], [mark_failed] raises
    [OverflowError] (the delay of [2^41] minutes or more exceeds what a
    [timedelta] holds) after it has set the status to FAILED and
    incremented [retry_count]; [next_retry_at] is left as it was. *)
Theorem backoff_overflows (r : CredentialRotation.t) (w : World) (msg : pystr)
  (Hcount : 40 <= CredentialRotation.retry_count r)
  (Hlt : CredentialRotation.retry_count r < CredentialRotation.max_retries r) :
  exists m,
    CredentialRotation.mark_failed msg (Frame r w)
    = Raise (OverflowError m)
        (Frame (CredentialRotation.set_retry_count
                  (CredentialRotation.retry_count r + 1) (failed msg (now w) r))
               (tick w)) /\
    CredentialRotation.status
      (CredentialRotation.set_retry_count
         (CredentialRotation.retry_count r + 1) (failed msg (now w) r)) = FAILED /\
    CredentialRotation.next_retry_at
      (CredentialRotation.set_retry_count
         (CredentialRotation.retry_count r + 1) (failed msg (now w) r))
    = CredentialRotation.next_retry_at r.
Proof.
  destruct (timedelta_minutes_pow2_overflow (CredentialRotation.retry_count r + 1))
    as [m Hm]; [lia |].
  exists m. split; [| split; reflexivity].
  unfold CredentialRotation.mark_failed, bind, setattr, utcnow; simpl.
  rewrite calculate_duration_run; simpl.
  destruct (Z.ltb_spec (CredentialRotation.retry_count r)
                       (CredentialRotation.max_retries r)); [| lia].
  unfold getattr; simpl. rewrite Hm. reflexivity.
Qed.

Lemma int_true_divide_opp (a b : Z) :
  int_true_divide (- a) b = - int_true_divide a b.
Proof.
  unfold int_true_divide.
  destruct (Z.eqb_spec a 0) as [-> | Ha]; [reflexivity |].
  destruct (Z.eqb_spec (- a) 0); [lia |].
  rewrite Z.abs_opp, Z.sgn_opp. lia.
Qed.

Lemma int_total_seconds_quot (n : Z) :
  Z.abs n < 2 ^ 34 * US_PER_SECOND ->
  int_total_seconds n = Z.quot n US_PER_SECOND.
Proof.
  intros Hn. destruct (Z_le_gt_dec 0 n) as [Hpos | Hneg].
  - rewrite int_total_seconds_floor by lia.
    rewrite Z.quot_div_nonneg; [reflexivity | lia | reflexivity].
  - replace n with (- (- n)) by lia.
    unfold int_total_seconds. rewrite int_true_divide_opp.
    fold (int_total_seconds (- n)). rewrite int_total_seconds_floor by lia.
    rewrite Z.quot_opp_l by discriminate.
    rewrite Z.quot_div_nonneg; [reflexivity | lia | reflexivity].
Qed.

(** X12.  [calculate_duration] truncates towards zero: for an attempt
    started at [a] and completed at [b], less than [2^34] seconds apart
    in either order, it returns the quotient of [b - a] by one second
    rounded towards zero; so a completion stamped up to a second before
    the start gives 0, not -1.  Without a start or a completion stamp it
    returns [None]. *)
Theorem calculate_duration_truncates (r : CredentialRotation.t) (w : World) :
  exists d : option Z,
    CredentialRotation.calculate_duration (Frame r w) = Return d (Frame r w) /\
    (d = None <-> CredentialRotation.started_at r = None \/
                  CredentialRotation.completed_at r = None) /\
    (forall a b, CredentialRotation.started_at r = Some a ->
                 CredentialRotation.completed_at r = Some b ->
                 Z.abs (b - a) < 2 ^ 34 * US_PER_SECOND ->
                 d = Some (Z.quot (b - a) US_PER_SECOND)).
Proof.
  rewrite calculate_duration_run. eexists. split; [reflexivity |].
  unfold duration_between.
  destruct (CredentialRotation.started_at r) as [a |];
    [destruct (CredentialRotation.completed_at r) as [b |] |].
  - split; [split; [discriminate | intros [H | H]; discriminate] |].
    intros a' b' [= <-] [= <-] Hspan. unfold datetime_sub.
    now rewrite int_total_seconds_quot.
  - split; [split; auto |]. intros a' b' _ H. discriminate.
  - split; [split; auto |]. intros a' b' H. discriminate.
Qed.

(** X13.  Starting and then completing an attempt, from any state,
    leaves it COMPLETED with [started_at] and [completed_at] the two
    clock readings and, when the clock did not run backwards and less
    than [2^34] seconds passed, [duration_seconds] the whole seconds
    between them. *)
Theorem start_then_complete (r : CredentialRotation.t) (w : World) (path : pystr)
  (Hclock : clock w (reads w) <= clock w (S (reads w)))
  (Hspan : clock w (S (reads w)) - clock w (reads w) < 2 ^ 34 * US_PER_SECOND) :
  exists r' : CredentialRotation.t,
    (CredentialRotation.mark_started ;; CredentialRotation.mark_completed path)
      (Frame r w)
    = Return tt (Frame r' (tick (tick w))) /\
    CredentialRotation.status r' = COMPLETED /\
    CredentialRotation.started_at r' = Some (clock w (reads w)) /\
    CredentialRotation.completed_at r' = Some (clock w (S (reads w))) /\
    CredentialRotation.new_vault_path r' = Some path /\
    CredentialRotation.duration_seconds r'
    = Some ((clock w (S (reads w)) - clock w (reads w)) / US_PER_SECOND).
Proof.
  unfold bind. rewrite mark_started_run, mark_completed_run.
  eexists. split; [reflexivity |]. repeat split.
  simpl. unfold duration_between, datetime_sub, now; simpl.
  rewrite int_total_seconds_floor by lia. reflexivity.
Qed.

(** X14.  A success does not clear the traces of an earlier failure:
    after a retried failure, a restart and a completion, the attempt is
    COMPLETED but still carries the error message, the incremented
    [retry_count] and the [next_retry_at] of the failure. *)
Theorem completion_keeps_failure_traces (r : CredentialRotation.t) (w : World)
  (msg path : pystr)
  (Hcount : 0 <= CredentialRotation.retry_count r <= 39)
  (Hlt : CredentialRotation.retry_count r < CredentialRotation.max_retries r)
  (Hdate : valid_datetime
             (clock w (S (reads w))
              + 2 ^ (CredentialRotation.retry_count r + 1) * US_PER_MINUTE)) :
  exists f : frame CredentialRotation.t,
    (CredentialRotation.mark_failed msg ;; CredentialRotation.mark_started ;;
     CredentialRotation.mark_completed path) (Frame r w)
    = Return tt f /\
    CredentialRotation.status (self f) = COMPLETED /\
    CredentialRotation.error_message (self f) = Some msg /\
    CredentialRotation.retry_count (self f) = CredentialRotation.retry_count r + 1 /\
    CredentialRotation.next_retry_at (self f)
    = Some (clock w (S (reads w))
            + 2 ^ (CredentialRotation.retry_count r + 1) * US_PER_MINUTE).
Proof.
  unfold bind.
  rewrite (mark_failed_retry msg r w
             (2 ^ (CredentialRotation.retry_count r + 1) * US_PER_MINUTE));
    [| lia | apply timedelta_minutes_pow2_small; lia | assumption].
  rewrite mark_started_run, mark_completed_run.
  eexists. split; [reflexivity |]. repeat split.
Qed.

(** ** AuditLog: risk, retention and names *)

Lemma str_eqb_eq (a b : pystr) : str_eqb a b = true <-> a = b.
Proof. unfold str_eqb. apply bool_decide_eq_true. Qed.

Lemma is_high_risk_run (r : AuditLog.t) (w : World) :
  AuditLog.is_high_risk (Frame r w)
  = Return
      (if str_eqb (AuditLog.severity r) (py "high")
          || str_eqb (AuditLog.severity r) (py "critical")
       then PyBool true
       else if AuditLog.is_suspicious r then PyBool true
       else match AuditLog.risk_score r with
            | None => PyNone
            | Some n => if n =? 0 then PyInt 0 else PyBool (75 <=? n)
            end)
      (Frame r w).
Proof.
  unfold AuditLog.is_high_risk, bind, getattr, ret. cbn [self].
  destruct (str_eqb (AuditLog.severity r) (py "high")
            || str_eqb (AuditLog.severity r) (py "critical")); [reflexivity |].
  cbn [self]. destruct (AuditLog.is_suspicious r); [reflexivity |].
  cbn [self]. destruct (AuditLog.risk_score r) as [n |]; [| reflexivity].
  destruct (n =? 0); reflexivity.
Qed.

(** X15.  [is_high_risk] is true (as a truth value) exactly when the
    severity is high or critical, the event is flagged suspicious or the
    risk score is at least 75.  It does not always return a [bool]: for
    an event of lower severity that is not suspicious it returns [None]
    when the risk score is unset and 0 when it is 0.  It leaves the
    record as it is. *)
Theorem is_high_risk_truth (r : AuditLog.t) (w : World) :
  exists v : pyvalue,
    AuditLog.is_high_risk (Frame r w) = Return v (Frame r w) /\
    (truthy v = true <->
     AuditLog.severity r = py "high" \/ AuditLog.severity r = py "critical" \/
     AuditLog.is_suspicious r = true \/
     exists n, AuditLog.risk_score r = Some n /\ 75 <= n) /\
    (truthy v = false ->
     (AuditLog.risk_score r = None -> v = PyNone) /\
     (AuditLog.risk_score r = Some 0 -> v = PyInt 0) /\
     (forall n, AuditLog.risk_score r = Some n -> n <> 0 -> v = PyBool false)).
Proof.
  rewrite is_high_risk_run. eexists. split; [reflexivity |].
  destruct (str_eqb (AuditLog.severity r) (py "high")) eqn:Hh.
  { apply str_eqb_eq in Hh. cbn [orb truthy].
    split; [split; auto | discriminate]. }
  destruct (str_eqb (AuditLog.severity r) (py "critical")) eqn:Hc.
  { apply str_eqb_eq in Hc. cbn [orb truthy].
    split; [split; auto | discriminate]. }
  assert (Hh' : AuditLog.severity r <> py "high")
    by (intros E; apply str_eqb_eq in E; congruence).
  assert (Hc' : AuditLog.severity r <> py "critical")
    by (intros E; apply str_eqb_eq in E; congruence).
  cbn [orb].
  destruct (AuditLog.is_suspicious r) eqn:Hs.
  { cbn [truthy]. split; [split; auto | discriminate]. }
  destruct (AuditLog.risk_score r) as [n |] eqn:Hn.
  - destruct (Z.eqb_spec n 0) as [-> | Hn0]; cbn [truthy negb].
    + change (0 =? 0) with true. cbn [negb]. split.
      * split; [discriminate |].
        intros [H | [H | [H | (m & [= <-] & Hm)]]]; try contradiction;
          try discriminate; lia.
      * intros _. split; [discriminate |]. split; [reflexivity |].
        intros m [= <-] Hm. contradiction.
    + rewrite Z.leb_le. split.
      * split; [eauto 6 |].
        intros [H | [H | [H | (m & [= <-] & Hm)]]]; try contradiction;
          try discriminate; assumption.
      * intros Hf. split; [discriminate |].
        split; [intros [= ->]; contradiction |].
        intros m [= <-] _. now rewrite Hf.
  - cbn [truthy]. split.
    + split; [discriminate |].
      intros [H | [H | [H | (m & H & _)]]]; try contradiction; discriminate.
    + intros _. split; [reflexivity |]. split; discriminate.
Qed.

Lemma retention_map_lookup (et : pystr) :
  AuditLog.retention_map !! et
  = if decide (py "authentication" = et) then Some 365
    else if decide (py "authorization" = et) then Some 365
    else if decide (py "privileged_operation" = et) then Some 2555
    else if decide (py "credential_access" = et) then Some 2555
    else if decide (py "compliance" = et) then Some 2555
    else if decide (py "security_incident" = et) then Some 2555
    else None.
Proof.
  unfold AuditLog.retention_map. rewrite !lookup_insert, lookup_empty.
  reflexivity.
Qed.

Lemma base_retention_cases (et : pystr) :
  let long := et = py "privileged_operation" \/ et = py "credential_access" \/
              et = py "compliance" \/ et = py "security_incident" in
  (default 365 (AuditLog.retention_map !! et) = 2555 /\ long) \/
  (default 365 (AuditLog.retention_map !! et) = 365 /\ ~ long).
Proof.
  intros long. unfold long. rewrite retention_map_lookup.
  destruct (decide (py "authentication" = et)) as [<- | N1].
  { right. split; [reflexivity |]. intros [H | [H | [H | H]]]; discriminate H. }
  destruct (decide (py "authorization" = et)) as [<- | N2].
  { right. split; [reflexivity |]. intros [H | [H | [H | H]]]; discriminate H. }
  destruct (decide (py "privileged_operation" = et)) as [<- | N3]; [left; auto |].
  destruct (decide (py "credential_access" = et)) as [<- | N4]; [left; auto |].
  destruct (decide (py "compliance" = et)) as [<- | N5]; [left; auto |].
  destruct (decide (py "security_incident" = et)) as [<- | N6]; [left; auto 6 |].
  right. split; [reflexivity |]. intros [H | [H | [H | H]]]; congruence.
Qed.

(** X16.  [get_retention_period_days] returns 365 or 2555 and nothing
    else.  It returns 2555 exactly when the event is high-risk or its
    type is one of privileged_operation, credential_access, compliance
    and security_incident; every other event, of a type unknown to the
    table too, is kept 365 days. *)
Theorem retention_period_values (r : AuditLog.t) (w : World) :
  exists (d : Z) (v : pyvalue),
    AuditLog.get_retention_period_days (Frame r w) = Return d (Frame r w) /\
    AuditLog.is_high_risk (Frame r w) = Return v (Frame r w) /\
    (d = 365 \/ d = 2555) /\
    (d = 2555 <->
     truthy v = true \/
     AuditLog.event_type r = py "privileged_operation" \/
     AuditLog.event_type r = py "credential_access" \/
     AuditLog.event_type r = py "compliance" \/
     AuditLog.event_type r = py "security_incident").
Proof.
  unfold AuditLog.get_retention_period_days, bind, getattr, ret. cbn [self].
  rewrite is_high_risk_run. cbn [self].
  set (v := if str_eqb (AuditLog.severity r) (py "high")
               || str_eqb (AuditLog.severity r) (py "critical")
            then PyBool true
            else if AuditLog.is_suspicious r then PyBool true
            else match AuditLog.risk_score r with
                 | None => PyNone
                 | Some n => if n =? 0 then PyInt 0 else PyBool (75 <=? n)
                 end).
  destruct (base_retention_cases (AuditLog.event_type r)) as [[Hb Hl] | [Hb Hl]];
    rewrite Hb; destruct (truthy v) eqn:Hv;
    eexists _, v; (split; [reflexivity |]); (split; [reflexivity |]).
  - split; [right; reflexivity |]. split; [auto | reflexivity].
  - split; [right; reflexivity |]. split; [auto | reflexivity].
  - split; [right; reflexivity |]. split; [auto | reflexivity].
  - split; [left; reflexivity |]. split; [discriminate |].
    intros [H | H]; [congruence | contradiction].
Qed.

(** X17.  [get_actor_name] never returns an empty name as long as the
    related objects carry one: when a related user has a non-empty UPN
    and a related service identity a non-empty name, the result is not
    the empty string; and when no actor is recorded at all (no related
    object, no UPN, no display name, or only empty ones) the result is
    the literal System. *)
Theorem actor_name_not_empty (l : AuditLog.loaded) (w : World)
  (Huser : forall u, AuditLog.actor_user l = Some u -> AuditLog.upn u <> [])
  (Hident : forall i, AuditLog.actor_service_identity l = Some i ->
                      AuditLog.name i <> []) :
  exists n : pystr,
    AuditLog.get_actor_name (Frame l w) = Return n (Frame l w) /\
    n <> [] /\
    (AuditLog.actor_user l = None ->
     AuditLog.actor_service_identity l = None ->
     AuditLog.opt_str_true (AuditLog.actor_upn (AuditLog.row l)) = false ->
     AuditLog.opt_str_true (AuditLog.actor_display_name (AuditLog.row l)) = false ->
     n = py "System").
Proof.
  unfold AuditLog.get_actor_name, bind, getattr, ret. cbn [self].
  destruct (AuditLog.actor_user l) as [u |] eqn:Hu.
  { eexists. split; [reflexivity |]. split; [| discriminate].
    specialize (Huser u eq_refl). unfold AuditLog.str_or.
    destruct (AuditLog.display_name u); [assumption | discriminate]. }
  cbn [self].
  destruct (AuditLog.actor_service_identity l) as [i |] eqn:Hi.
  { eexists. split; [reflexivity |]. split; [auto | discriminate]. }
  cbn [self].
  destruct (AuditLog.actor_upn (AuditLog.row l)) as [[| c s] |] eqn:Ha;
    cbn [AuditLog.opt_str_true self default].
  3: { destruct (AuditLog.actor_display_name (AuditLog.row l)) as [[| c s] |];
       cbn [AuditLog.opt_str_true default]; eexists; (split; [reflexivity |]);
       split; try discriminate; auto. }
  2: { eexists. split; [reflexivity |]. split; [discriminate |].
       intros _ _ H. discriminate H. }
  destruct (AuditLog.actor_display_name (AuditLog.row l)) as [[| c s] |];
    cbn [AuditLog.opt_str_true default]; eexists; (split; [reflexivity |]);
    split; try discriminate; auto.
Qed.

(** X18.  [get_target_name] returns [None] exactly when the record has no
    related target user, no related target service identity and no
    non-empty [target_resource_name]; the target user comes first, then
    the service identity, then the resource name. *)
Theorem target_name_none_iff (l : AuditLog.loaded) (w : World) :
  exists n : option pystr,
    AuditLog.get_target_name (Frame l w) = Return n (Frame l w) /\
    (n = None <->
     AuditLog.target_user l = None /\
     AuditLog.target_service_identity l = None /\
     AuditLog.opt_str_true (AuditLog.target_resource_name (AuditLog.row l)) = false) /\
    (forall u, AuditLog.target_user l = Some u ->
               n = Some (AuditLog.str_or (AuditLog.display_name u) (AuditLog.upn u))) /\
    (forall i, AuditLog.target_user l = None ->
               AuditLog.target_service_identity l = Some i ->
               n = Some (AuditLog.name i)).
Proof.
  unfold AuditLog.get_target_name, bind, getattr, ret. cbn [self].
  destruct (AuditLog.target_user l) as [u |].
  { eexists. split; [reflexivity |]. split; [| split].
    - split; [discriminate | intros [H _]; discriminate].
    - intros u' [= <-]. reflexivity.
    - intros i H. discriminate. }
  cbn [self]. destruct (AuditLog.target_service_identity l) as [i |].
  { eexists. split; [reflexivity |]. split; [| split].
    - split; [discriminate | intros (_ & H & _); discriminate].
    - intros u' H. discriminate.
    - intros i' _ [= <-]. reflexivity. }
  cbn [self].
  destruct (AuditLog.opt_str_true (AuditLog.target_resource_name (AuditLog.row l)))
    eqn:Hn.
  - eexists. split; [reflexivity |]. split; [| split].
    + split.
      * intros H. rewrite H in Hn. discriminate.
      * intros (_ & _ & H). discriminate.
    + intros u' H. discriminate.
    + intros i' _ H. discriminate.
  - eexists. split; [reflexivity |]. split; [| split].
    + split; auto.
    + intros u' H. discriminate.
    + intros i' _ H. discriminate.
Qed.

(** ** The table of audit records *)

Lemma flush_update_raises (s : Session.state) :
  Session.audit_logs (state_of (Session.flush_update s)) = Session.audit_logs s.
Proof. destruct s; reflexivity. Qed.

Lemma flush_delete_raises (s : Session.state) :
  Session.audit_logs (state_of (Session.flush_delete s)) = Session.audit_logs s.
Proof. destruct s; reflexivity. Qed.

(** What [flush_insert] does, by the timestamp of the target and the
    presence of its key. *)
Lemma flush_insert_run (s : Session.state) :
  Session.flush_insert s
  = match AuditLog.timestamp (Session.target s) with
    | None =>
        Raise (AttributeError "'NoneType' object has no attribute 'isoformat'") s
    | Some ts =>
        let c := SHA256.hexdigest
                   (Json.dumps_sorted (AuditLog.checksum_data ts (Session.target s))) in
        let obj := AuditLog.set_checksum (Some c) (Session.target s) in
        let s' := {| Session.audit_logs := Session.audit_logs s;
                     Session.target := obj; Session.env := Session.env s |} in
        match Session.audit_logs s !! Session.pk (Session.target s) with
        | Some _ => Raise (IntegrityError "duplicate key value") s'
        | None =>
            Return tt {| Session.audit_logs :=
                           <[Session.pk (Session.target s) := obj]>
                             (Session.audit_logs s);
                         Session.target := obj; Session.env := Session.env s |}
        end
    end.
Proof.
  unfold Session.flush_insert, Session.fire, calculate_checksum_before_insert, bind.
  destruct (AuditLog.timestamp (Session.target s)) as [ts |] eqn:Hts.
  - rewrite (calculate_checksum_run ts _ _ Hts). unfold setattr.
    cbn [self world Session.audit_logs Session.target Session.env].
    change (Session.pk (AuditLog.set_checksum _ (Session.target s)))
      with (Session.pk (Session.target s)).
    destruct (Session.audit_logs s !! Session.pk (Session.target s)); reflexivity.
  - rewrite (calculate_checksum_unset _ _ Hts). destruct s; reflexivity.
Qed.

Lemma apply_op_keeps (tbl : gmap Z AuditLog.t) (w : World) (op : Session.flush_op)
  (k : Z) (row : AuditLog.t) :
  tbl !! k = Some row -> Session.apply_op tbl w op !! k = Some row.
Proof.
  intros Hrow. destruct op as [obj | obj | obj]; unfold Session.apply_op.
  - rewrite flush_insert_run.
    cbn [Session.target Session.audit_logs Session.env].
    destruct (AuditLog.timestamp obj); [| exact Hrow]. cbn zeta.
    destruct (tbl !! Session.pk obj) eqn:Hk; cbn [state_of Session.audit_logs];
      [exact Hrow |].
    rewrite lookup_insert_ne; [exact Hrow | congruence].
  - rewrite flush_update_raises. exact Hrow.
  - rewrite flush_delete_raises. exact Hrow.
Qed.

(** X19.  The table of audit records is append-only: whatever sequence
    of inserts, updates and deletes is flushed, successfully or not, a
    row that is in the table stays in it, unchanged. *)
Theorem audit_table_append_only (ops : list Session.flush_op)
  (tbl : gmap Z AuditLog.t) (w : World) (k : Z) (row : AuditLog.t)
  (Hrow : tbl !! k = Some row) :
  Session.apply_ops tbl w ops !! k = Some row.
Proof.
  unfold Session.apply_ops. revert tbl Hrow.
  induction ops as [| op ops IH]; intros tbl Hrow; [exact Hrow |].
  cbn [fold_left]. apply IH. now apply apply_op_keeps.
Qed.

(** X20.  The checksum stored with a row verifies: when [flush_insert]
    succeeds, the new row holds the inserted record with its checksum
    set, and [calculate_checksum] on that stored row returns the stored
    checksum again. *)
Theorem inserted_row_verifies (s s' : Session.state) (w : World)
  (Hinsert : Session.flush_insert s = Return tt s') :
  exists (c : pystr) (stored : AuditLog.t),
    Session.audit_logs s' !! Session.pk (Session.target s) = Some stored /\
    stored = AuditLog.set_checksum (Some c) (Session.target s) /\
    AuditLog.checksum stored = Some c /\
    AuditLog.calculate_checksum (Frame stored w) = Return c (Frame stored w).
Proof.
  rewrite flush_insert_run in Hinsert.
  destruct (AuditLog.timestamp (Session.target s)) as [ts |] eqn:Hts;
    [| discriminate]. cbn zeta in Hinsert.
  destruct (Session.audit_logs s !! Session.pk (Session.target s));
    [discriminate |].
  injection Hinsert as <-. cbn [Session.audit_logs].
  eexists _, _. split; [apply lookup_insert_eq |]. split; [reflexivity |].
  split; [reflexivity |].
  now rewrite (calculate_checksum_run ts).
Qed.

(** X21.  A record built without a timestamp cannot be inserted: the
    column default is applied after the [before_insert] listener, whose
    [calculate_checksum] then fails on [None]; the flush raises
    [AttributeError] and the table and the record stay as they were. *)
Theorem insert_without_timestamp_fails (s : Session.state)
  (Hunset : AuditLog.timestamp (Session.target s) = None) :
  Session.flush_insert s
  = Raise (AttributeError "'NoneType' object has no attribute 'isoformat'") s.
Proof. rewrite flush_insert_run, Hunset. reflexivity. Qed.

(** ** The shape of a checksum *)

Lemma round_length (st : list Z * list Z) (k : Z) :
  length (fst st) = 8%nat -> length (fst (SHA256.round st k)) = 8%nat.
Proof.
  destruct st as [h w]. cbn [fst]. intros Hh.
  do 9 (destruct h as [| ? h]; try discriminate Hh).
  reflexivity.
Qed.

Lemma rounds_length (ks : list Z) (st : list Z * list Z) :
  length (fst st) = 8%nat -> length (fst (fold_left SHA256.round ks st)) = 8%nat.
Proof.
  revert st. induction ks as [| k ks IH]; intros st Hst; [exact Hst |].
  cbn [fold_left]. apply IH. now apply round_length.
Qed.

Lemma compress_length (h block : list Z) :
  length h = 8%nat -> length (SHA256.compress h block) = 8%nat.
Proof.
  intros Hh. unfold SHA256.compress, SHA256.zip_add.
  rewrite length_map, length_combine, Hh.
  rewrite rounds_length by exact Hh. reflexivity.
Qed.

Lemma blocks_length (n : nat) (h bs : list Z) :
  length h = 8%nat -> length (SHA256.blocks n h bs) = 8%nat.
Proof.
  revert h bs. induction n as [| n IH]; intros h bs Hh; [exact Hh |].
  cbn [SHA256.blocks]. apply IH. now apply compress_length.
Qed.

Lemma digest_words_length (msg : list Z) :
  length (SHA256.digest_words msg) = 8%nat.
Proof.
  unfold SHA256.digest_words. apply blocks_length. vm_compute. reflexivity.
Qed.

Lemma be_bytes_length (n : nat) (x : Z) : length (SHA256.be_bytes n x) = n.
Proof.
  revert x. induction n as [| n IH]; intros x; [reflexivity |].
  cbn [SHA256.be_bytes]. rewrite length_app, IH. simpl. lia.
Qed.

Lemma be_bytes_range (n : nat) (x : Z) :
  Forall (fun b => 0 <= b < 256) (SHA256.be_bytes n x).
Proof.
  revert x. induction n as [| n IH]; intros x; [constructor |].
  cbn [SHA256.be_bytes]. apply Forall_app. split; [apply IH |].
  repeat constructor; apply Z.mod_pos_bound; lia.
Qed.

Lemma flat_map_length_const {A B} (f : A -> list B) (k : nat) (l : list A) :
  (forall x, length (f x) = k) -> length (flat_map f l) = (k * length l)%nat.
Proof.
  intros Hf. induction l as [| x l IH]; simpl; [lia |].
  rewrite length_app, Hf, IH. lia.
Qed.

Lemma hexchar_digit (d : Z) : 0 <= d < 16 -> is_hex_digit (SHA256.hexchar d).
Proof.
  intros Hd. unfold is_hex_digit, SHA256.hexchar.
  destruct (Z.ltb_spec d 10); lia.
Qed.

Lemma hexdigest_shape (msg : list Z) :
  length (SHA256.hexdigest msg) = 64%nat /\
  Forall is_hex_digit (SHA256.hexdigest msg).
Proof.
  unfold SHA256.hexdigest. split.
  - rewrite (flat_map_length_const _ 2) by reflexivity.
    rewrite (flat_map_length_const _ 4) by (intros; apply be_bytes_length).
    rewrite digest_words_length. reflexivity.
  - apply Forall_flat_map.
    assert (Hb : Forall (fun b => 0 <= b < 256)
                   (flat_map (SHA256.be_bytes 4) (SHA256.digest_words msg))).
    { apply Forall_flat_map. apply Forall_forall. intros x _.
      apply be_bytes_range. }
    eapply Forall_impl; [exact Hb |]. intros b Hbr. cbv beta in Hbr.
    unfold SHA256.hex_of_byte.
    apply Forall_cons; split;
      [apply hexchar_digit; Z.div_mod_to_equations; lia |].
    apply Forall_cons; split;
      [apply hexchar_digit; Z.div_mod_to_equations; lia | apply Forall_nil_2].
Qed.

(** X22.  For a record whose timestamp is set, [calculate_checksum]
    always returns: the JSON text is ASCII, so encoding it cannot fail,
    whatever code points the attributes hold.  The result is 64 lowercase
    hexadecimal digits, the width of the [checksum] column. *)
Theorem checksum_is_64_hex_digits (r : AuditLog.t) (w : World) (ts : datetime)
  (Hts : AuditLog.timestamp r = Some ts) :
  exists c : pystr,
    AuditLog.calculate_checksum (Frame r w) = Return c (Frame r w) /\
    length c = 64%nat /\
    Forall is_hex_digit c.
Proof.
  exists (SHA256.hexdigest (Json.dumps_sorted (AuditLog.checksum_data ts r))).
  split; [apply calculate_checksum_run; exact Hts |].
  apply hexdigest_shape.
Qed.

(** ** BaseModel: soft delete *)

(** X23.  [restore] undoes [soft_delete]: deleting and then restoring an
    entity that was not deleted gives back the entity as it was.  On any
    entity the pair leaves [is_deleted = False] and [deleted_at = None],
    so the time of an earlier deletion is not kept. *)
Theorem soft_delete_restore (b : BaseModel.t) (w : World) :
  exists b' : BaseModel.t,
    (BaseModel.soft_delete ;; BaseModel.restore) (Frame b w)
    = Return tt (Frame b' (tick w)) /\
    BaseModel.is_deleted b' = false /\
    BaseModel.deleted_at b' = None /\
    BaseModel.id b' = BaseModel.id b /\
    BaseModel.metadata_json b' = BaseModel.metadata_json b /\
    (BaseModel.is_deleted b = false -> BaseModel.deleted_at b = None -> b' = b) /\
    BaseModel.is_deleted
      (self (state_of (BaseModel.soft_delete (Frame b w)))) = true /\
    BaseModel.deleted_at
      (self (state_of (BaseModel.soft_delete (Frame b w)))) = Some (now w).
Proof.
  eexists. split; [reflexivity |]. repeat split.
  destruct b; simpl. intros -> ->. reflexivity.
Qed.

(** ** The properties on sample objects *)

Lemma expired_has_no_days_left_witness :
  clock (Sample.ticking Sample.T0 1000) 0 <= clock (Sample.ticking Sample.T0 1000) 1 /\
  (expired <- Credential.is_expired ;;
   days <- Credential.days_until_expiry ;;
   ret (expired, days))
    (Frame (Sample.expiring (Sample.T0 - 10 * US_PER_SECOND) false 14)
           (Sample.ticking Sample.T0 1000))
  = Return (true, Some 0)
      (Frame (Sample.expiring (Sample.T0 - 10 * US_PER_SECOND) false 14)
             (tick (tick (Sample.ticking Sample.T0 1000)))).
Proof.
  split; [vm_compute; discriminate |].
  apply (expired_has_no_days_left
           (Sample.expiring (Sample.T0 - 10 * US_PER_SECOND) false 14)
           (Sample.ticking Sample.T0 1000)).
  - vm_compute; discriminate.
  - eexists. reflexivity.
Defined.

Lemma needs_notification_persists_witness :
  now (Sample.frozen Sample.T0) <= now (Sample.frozen (Sample.T0 + US_PER_DAY)) /\
  (exists f, Credential.needs_notification
               (Frame (Sample.expiring (Sample.T0 + 5 * US_PER_DAY) false 14)
                      (Sample.frozen Sample.T0)) = Return true f) /\
  exists f, Credential.needs_notification
              (Frame (Sample.expiring (Sample.T0 + 5 * US_PER_DAY) false 14)
                     (Sample.frozen (Sample.T0 + US_PER_DAY))) = Return true f.
Proof.
  split; [vm_compute; discriminate |].
  split; [eexists; reflexivity |].
  apply (needs_notification_persists
           (Sample.expiring (Sample.T0 + 5 * US_PER_DAY) false 14)
           (Sample.frozen Sample.T0) (Sample.frozen (Sample.T0 + US_PER_DAY))).
  - vm_compute; discriminate.
  - eexists. reflexivity.
Defined.

Lemma mark_rotated_partial_on_overflow_witness :
  ~ valid_datetime (Sample.T0 + 4000000 * US_PER_DAY) /\
  exists m,
    Credential.mark_rotated
      (Frame (Sample.credential ACTIVE 4000000 true None) (Sample.frozen Sample.T0))
    = Raise (OverflowError m)
        (Frame (Credential.set_rotation_count 1
                  (Credential.set_last_rotated (Some Sample.T0)
                     (Sample.credential ACTIVE 4000000 true None)))
               (tick (tick (Sample.frozen Sample.T0)))).
Proof.
  assert (H : ~ valid_datetime (Sample.T0 + 4000000 * US_PER_DAY))
    by (intros [_ H]; vm_compute in H; discriminate H).
  split; [exact H |].
  apply (mark_rotated_partial_on_overflow
           (Sample.credential ACTIVE 4000000 true None) (Sample.frozen Sample.T0)).
  exact H.
Defined.

Lemma rotated_credential_not_due_witness :
  valid_datetime (Sample.T0 + 1) /\
  valid_datetime (Sample.T0 + 1 + 90 * US_PER_DAY) /\
  exists (b : bool) (f : frame Credential.t),
    (Credential.mark_rotated ;; Credential.needs_rotation)
      (Frame (Sample.credential ACTIVE 90 true None) (Sample.ticking Sample.T0 1))
    = Return b f /\
    (b = true <-> true = true /\ Sample.T0 + 1 + 90 * US_PER_DAY <= Sample.T0 + 2).
Proof.
  split; [vm_compute; split; [discriminate | reflexivity] |].
  split; [vm_compute; split; [discriminate | reflexivity] |].
  apply (rotated_credential_not_due
           (Sample.credential ACTIVE 90 true None) (Sample.ticking Sample.T0 1)).
  - vm_compute; split; [discriminate | reflexivity].
  - vm_compute; split; [discriminate | reflexivity].
Defined.

Lemma retry_count_within_max_witness :
  CredentialRotation.retry_count (Sample.retried 2 3)
  <= CredentialRotation.max_retries (Sample.retried 2 3) /\
  CredentialRotation.retry_count
    (self (state_of (CredentialRotation.mark_failed (py "vault timeout")
                       (Frame (Sample.retried 2 3) (Sample.frozen Sample.T0)))))
  <= CredentialRotation.max_retries
       (self (state_of (CredentialRotation.mark_failed (py "vault timeout")
                          (Frame (Sample.retried 2 3) (Sample.frozen Sample.T0))))).
Proof.
  split; [vm_compute; discriminate |].
  apply (retry_count_within_max (Sample.retried 2 3) (Sample.frozen Sample.T0)
           (py "credentials/new") (py "vault timeout")
           ltac:(vm_compute; discriminate)
           (CredentialRotation.mark_failed (py "vault timeout")
              (Frame (Sample.retried 2 3) (Sample.frozen Sample.T0)))).
  right. right. reflexivity.
Defined.

Lemma last_retry_not_eligible_witness :
  0 <= 2 <= 39 /\ 2 < 3 /\
  valid_datetime (Sample.T0 + 2 ^ (2 + 1) * US_PER_MINUTE) /\
  exists (b : bool) (f : frame CredentialRotation.t),
    (CredentialRotation.mark_failed (py "vault timeout") ;;
     CredentialRotation.can_retry)
      (Frame (Sample.retried 2 3) (Sample.frozen Sample.T0))
    = Return b f /\
    CredentialRotation.next_retry_at (self f)
    = Some (Sample.T0 + 2 ^ (2 + 1) * US_PER_MINUTE) /\
    b = false.
Proof.
  split; [lia |]. split; [lia |].
  split; [vm_compute; split; [discriminate | reflexivity] |].
  destruct (last_retry_not_eligible (Sample.retried 2 3) (Sample.frozen Sample.T0)
              (py "vault timeout"))
    as (b & f & Hrun & Hnext & _ & Hlast).
  - vm_compute; split; discriminate.
  - vm_compute; reflexivity.
  - vm_compute; split; [discriminate | reflexivity].
  - exists b, f. split; [exact Hrun |]. split; [exact Hnext |].
    apply Hlast. reflexivity.
Defined.

Lemma backoff_overflows_witness :
  40 <= 40 /\ 40 < 100 /\
  exists m,
    CredentialRotation.mark_failed (py "vault timeout")
      (Frame (Sample.retried 40 100) (Sample.frozen Sample.T0))
    = Raise (OverflowError m)
        (Frame (CredentialRotation.set_retry_count 41
                  (failed (py "vault timeout") Sample.T0 (Sample.retried 40 100)))
               (tick (Sample.frozen Sample.T0))).
Proof.
  split; [lia |]. split; [lia |].
  destruct (backoff_overflows (Sample.retried 40 100) (Sample.frozen Sample.T0)
              (py "vault timeout")) as (m & Hrun & _).
  - vm_compute; discriminate.
  - vm_compute; reflexivity.
  - exists m. exact Hrun.
Defined.

Lemma start_then_complete_witness :
  Sample.T0 <= Sample.T0 + 2500000 /\
  Sample.T0 + 2500000 - Sample.T0 < 2 ^ 34 * US_PER_SECOND /\
  exists r' : CredentialRotation.t,
    (CredentialRotation.mark_started ;;
     CredentialRotation.mark_completed (py "credentials/new"))
      (Frame (Sample.rotation SCHEDULED None) (Sample.ticking Sample.T0 2500000))
    = Return tt (Frame r' (tick (tick (Sample.ticking Sample.T0 2500000)))) /\
    CredentialRotation.status r' = COMPLETED /\
    CredentialRotation.duration_seconds r' = Some 2.
Proof.
  split; [lia |]. split; [vm_compute; reflexivity |].
  destruct (start_then_complete (Sample.rotation SCHEDULED None)
              (Sample.ticking Sample.T0 2500000) (py "credentials/new"))
    as (r' & Hrun & Hst & _ & _ & _ & Hd).
  - vm_compute; discriminate.
  - vm_compute; reflexivity.
  - exists r'. split; [exact Hrun |]. split; [exact Hst |]. exact Hd.
Defined.

Lemma completion_keeps_failure_traces_witness :
  0 <= 0 <= 39 /\ 0 < 3 /\
  valid_datetime (Sample.T0 + 2 ^ (0 + 1) * US_PER_MINUTE) /\
  exists f : frame CredentialRotation.t,
    (CredentialRotation.mark_failed (py "vault timeout") ;;
     CredentialRotation.mark_started ;;
     CredentialRotation.mark_completed (py "credentials/new"))
      (Frame (Sample.retried 0 3) (Sample.frozen Sample.T0))
    = Return tt f /\
    CredentialRotation.status (self f) = COMPLETED /\
    CredentialRotation.error_message (self f) = Some (py "vault timeout") /\
    CredentialRotation.retry_count (self f) = 0 + 1 /\
    CredentialRotation.next_retry_at (self f)
    = Some (Sample.T0 + 2 ^ (0 + 1) * US_PER_MINUTE).
Proof.
  split; [lia |]. split; [lia |].
  split; [vm_compute; split; [discriminate | reflexivity] |].
  apply (completion_keeps_failure_traces (Sample.retried 0 3)
           (Sample.frozen Sample.T0) (py "vault timeout") (py "credentials/new")).
  - vm_compute; split; discriminate.
  - vm_compute; reflexivity.
  - vm_compute; split; [discriminate | reflexivity].
Defined.

Lemma actor_name_not_empty_witness :
  exists n : pystr,
    AuditLog.get_actor_name (Frame Sample.loaded_audit (Sample.frozen Sample.T0))
    = Return n (Frame Sample.loaded_audit (Sample.frozen Sample.T0)) /\
    n <> [].
Proof.
  destruct (actor_name_not_empty Sample.loaded_audit (Sample.frozen Sample.T0))
    as (n & Hrun & Hn & _).
  - intros u [= <-]. discriminate.
  - intros i H. discriminate H.
  - exists n. split; assumption.
Defined.

Lemma audit_table_append_only_witness :
  Session.audit_logs Sample.session !! 3
  = Some (Sample.audit (py "User logged in") (py "info") None) /\
  Session.apply_ops (Session.audit_logs Sample.session) (Sample.frozen Sample.T0)
    [Session.Update (Sample.audit (py "User logged out") (py "info") None);
     Session.Delete (Sample.audit (py "User logged in") (py "info") None);
     Session.Insert (Sample.audit (py "Forged") (py "info") None);
     Session.Insert Sample.unstamped] !! 3
  = Some (Sample.audit (py "User logged in") (py "info") None).
Proof.
  assert (H : Session.audit_logs Sample.session !! 3
              = Some (Sample.audit (py "User logged in") (py "info") None))
    by reflexivity.
  split; [exact H |].
  apply (audit_table_append_only _ _ _ 3 _ H).
Defined.

Lemma insert_without_timestamp_fails_witness :
  AuditLog.timestamp Sample.unstamped = None /\
  Session.flush_insert
    {| Session.audit_logs := ∅; Session.target := Sample.unstamped;
       Session.env := Sample.frozen Sample.T0 |}
  = Raise (AttributeError "'NoneType' object has no attribute 'isoformat'")
      {| Session.audit_logs := ∅; Session.target := Sample.unstamped;
         Session.env := Sample.frozen Sample.T0 |}.
Proof.
  split; [reflexivity |].
  apply (insert_without_timestamp_fails
           {| Session.audit_logs := ∅; Session.target := Sample.unstamped;
              Session.env := Sample.frozen Sample.T0 |}).
  reflexivity.
Defined.

Lemma checksum_is_64_hex_digits_witness :
  AuditLog.timestamp (Sample.audit [0xD800; 233] (py "info") None) = Some Sample.T0 /\
  exists c : pystr,
    AuditLog.calculate_checksum
      (Frame (Sample.audit [0xD800; 233] (py "info") None) (Sample.frozen Sample.T0))
    = Return c
        (Frame (Sample.audit [0xD800; 233] (py "info") None)
               (Sample.frozen Sample.T0)) /\
    length c = 64%nat /\
    Forall is_hex_digit c.
Proof.
  split; [reflexivity |].
  apply (checksum_is_64_hex_digits _ _ Sample.T0). reflexivity.
Defined.

Lemma inserted_row_verifies_witness :
  exists s' : Session.state,
    Session.flush_insert
      {| Session.audit_logs := ∅;
         Session.target := Sample.audit (py "User logged in") (py "info") None;
         Session.env := Sample.frozen Sample.T0 |}
    = Return tt s' /\
    exists (c : pystr) (stored : AuditLog.t),
      Session.audit_logs s' !! 3 = Some stored /\
      AuditLog.checksum stored = Some c /\
      AuditLog.calculate_checksum (Frame stored (Sample.frozen Sample.T0))
      = Return c (Frame stored (Sample.frozen Sample.T0)).
Proof.
  eexists. split.
  - rewrite flush_insert_run. reflexivity.
  - destruct (inserted_row_verifies
                {| Session.audit_logs := ∅;
                   Session.target := Sample.audit (py "User logged in") (py "info") None;
                   Session.env := Sample.frozen Sample.T0 |}
                _ (Sample.frozen Sample.T0)
                ltac:(rewrite flush_insert_run; reflexivity))
      as (c & stored & H1 & _ & H3 & H4).
    exists c, stored. split; [exact H1 |]. split; [exact H3 | exact H4].
Defined.
